(** * rke2-security-responder: a shallow embedding of the telemetry reporter

    The repository holds two revisions of the single translation unit
    [main.go]:

    - [src/main.go]: hand-written substring helper [contains], SELinux
      inference from the kernel version, one delivery attempt;
    - [src/unnamed/part_001]: [strings.ToLower]/[strings.Contains],
      SELinux read from the node label only, delivery with bounded retry.

    The code the two revisions share verbatim ([main],
    [collectTelemetryData], [isControlPlaneNode]) is embedded once, in a
    section over the functions that differ; the modules [MainGo] and
    [Retry] embed what differs and instantiate the shared part. *)

From Stdlib Require Import ZArith Lia Bool Ascii String List.
From stdpp Require Import base option gmap strings list fin_maps.

Open Scope string_scope.
Open Scope Z_scope.

(** ** Go primitives *)

Module Go.

(** [int] on the 64-bit targets the binary is built for (GOARCH=amd64). *)
Definition max_int : Z := 2 ^ 63 - 1.

(** Two's-complement wrap-around of signed 64-bit arithmetic. *)
Definition wrap (z : Z) : Z := (z + 2 ^ 63) mod 2 ^ 64 - 2 ^ 63.

(** [x++] on an [int]. *)
Definition incr (x : Z) : Z := wrap (x + 1).

(** [len(s)] of a string: its number of bytes, as an [int]. *)
Definition len (s : string) : Z := Z.of_nat (String.length s).

(** [s[lo:hi]]: the bytes [lo..hi-1]; out-of-range indices panic, which
    is [None] here. *)
Definition slice (s : string) (lo hi : Z) : option string :=
  if (0 <=? lo) && (lo <=? hi) && (hi <=? len s)
  then Some (String.substring (Z.to_nat lo) (Z.to_nat (hi - lo)) s)
  else None.

(** [strings.Contains(s, substr)]: [substr] starts at some byte offset
    of [s]. *)
Fixpoint Contains (s substr : string) : bool :=
  String.prefix substr s ||
  match s with
  | EmptyString => false
  | String _ s' => Contains s' substr
  end.

(** [strings.ToLower] on a byte of an ASCII string: 'A'..'Z' is moved to
    'a'..'z', every other byte is kept.  Kubernetes object names are
    ASCII (RFC 1123 labels and subdomains); on strings holding bytes
    above 127 Go lowers runes, which is outside this model. *)
Definition lower_byte (c : ascii) : ascii :=
  let n := N_of_ascii c in
  if ((65 <=? n) && (n <=? 90))%N then ascii_of_N (n + 32) else c.

Fixpoint ToLower (s : string) : string :=
  match s with
  | EmptyString => EmptyString
  | String c s' => String (lower_byte c) (ToLower s')
  end.

End Go.

(** ** Errors and results *)

(** Go [error] values as the program builds them: an error handed back
    by a library call, [fmt.Errorf("<msg>: %w", err)], and
    [fmt.Errorf("unexpected status code: %d", code)]. *)
Inductive error : Type :=
| LibError (msg : string)
| Wrapf (msg : string) (cause : error)
| UnexpectedStatus (code : Z).

(** The [(value, err)] pair of a Go call: the value is only read when
    [err == nil]. *)
Inductive result (A : Type) : Type :=
| Ok (a : A)
| Err (e : error).
Arguments Ok {A} a.
Arguments Err {A} e.

Definition is_ok {A} (r : result A) : bool :=
  match r with Ok _ => true | Err _ => false end.

(** ** Kubernetes objects, as far as the program reads them *)

(** [metav1.ObjectMeta], embedded in every API object. *)
Record ObjectMeta : Type := {
  Name : string;
  UID : string;
  Labels : gmap string string
}.

Record NodeSystemInfo : Type := { KernelVersion : string; OSImage : string }.
Record NodeStatus : Type := { NodeInfo : NodeSystemInfo }.
Record Node : Type := { NodeMeta : ObjectMeta; Status : NodeStatus }.
Record Namespace : Type := { NamespaceMeta : ObjectMeta }.
Record DaemonSet : Type := { DaemonSetMeta : ObjectMeta }.
Record Deployment : Type := { DeploymentMeta : ObjectMeta }.
Record VersionInfo : Type := { GitVersion : string }.

(** [corev1.NodeList]: [Items] is a Go slice, so its length is an [int]. *)
Record NodeList : Type := {
  Items : list Node;
  Items_len : (Z.of_nat (length Items) <=? Go.max_int) = true
}.

(** Credentials and API handle; their construction is library code. *)
Record Config : Type := { Host : string }.
Record Clientset : Type := { restConfig : Config }.

(** ** The telemetry record *)

(** The values stored in [map[string]interface{}]: [int] and [string]. *)
Inductive Value : Type :=
| VInt (n : Z)
| VString (s : string).

Record TelemetryData : Type := {
  AppVersion : string;
  ExtraTagInfo : gmap string string;
  ExtraFieldInfo : gmap string Value
}.

Definition set_AppVersion (v : string) (d : TelemetryData) : TelemetryData :=
  {| AppVersion := v;
     ExtraTagInfo := ExtraTagInfo d;
     ExtraFieldInfo := ExtraFieldInfo d |}.

(** [data.ExtraTagInfo[k] = v] *)
Definition set_tag (k v : string) (d : TelemetryData) : TelemetryData :=
  {| AppVersion := AppVersion d;
     ExtraTagInfo := <[k := v]> (ExtraTagInfo d);
     ExtraFieldInfo := ExtraFieldInfo d |}.

(** [data.ExtraFieldInfo[k] = v] *)
Definition set_field (k : string) (v : Value) (d : TelemetryData) : TelemetryData :=
  {| AppVersion := AppVersion d;
     ExtraTagInfo := ExtraTagInfo d;
     ExtraFieldInfo := <[k := v]> (ExtraFieldInfo d) |}.

(** ** HTTP *)

Record Request : Type := {
  Method : string;
  URL : string;
  Body : string;
  Header : gmap string string
}.

Definition Header_Set (k v : string) (r : Request) : Request :=
  {| Method := Method r; URL := URL r; Body := Body r;
     Header := <[k := v]> (Header r) |}.

Record Response : Type := { StatusCode : Z }.

(** [time.Duration]: nanoseconds in an [int64]. *)
Definition Second : Z := 1000000000.

Record Client : Type := { Timeout : Z }.

(** ** The world the process runs in *)

(** Everything outside the translation unit: the process environment,
    the client libraries, the cluster and the network.  Answers of the
    cluster API are indexed by the number of API calls made before, and
    answers of the network by the number of requests sent before, so the
    same query may be answered differently when it is repeated. *)
Record World : Type := {
  environ : gmap string string;
  InClusterConfig_result : result Config;
  NewForConfig_error : Config -> option error;
  ServerVersion_at : nat -> result VersionInfo;
  GetNamespace_at : nat -> string -> result Namespace;
  ListNodes_at : nat -> result NodeList;
  ListDaemonSets_at : nat -> string -> result (list DaemonSet);
  ListDeployments_at : nat -> string -> result (list Deployment);
  Marshal_result : TelemetryData -> result string;
  url_Parse_error : string -> option error;
  Do_at : nat -> Request -> result Response
}.

Inductive ApiCall : Type :=
| CallServerVersion
| CallGetNamespace (name : string)
| CallListNodes
| CallListDaemonSets (ns : string)
| CallListDeployments (ns : string).

Inductive LogArg : Type :=
| AErr (e : error)
| AStr (s : string)
| AInt (n : Z)
| ADuration (d : Z).

(** What the process does to the outside, in order. *)
Inductive Event : Type :=
| EvLog (format : string) (args : list LogArg)
| EvInClusterConfig
| EvNewForConfig (c : Config)
| EvApi (call : ApiCall)
| EvSleep (d : Z)
| EvHttpDo (timeout : Z) (req : Request).

Definition is_api (e : Event) : bool :=
  match e with EvApi _ => true | _ => false end.

Definition is_http (e : Event) : bool :=
  match e with EvHttpDo _ _ => true | _ => false end.

Definition is_sleep (e : Event) : bool :=
  match e with EvSleep _ => true | _ => false end.

Definition api_calls (tr : list Event) : nat := length (List.filter is_api tr).
Definition http_calls (tr : list Event) : nat := length (List.filter is_http tr).

(** ** The monad of the program: a world to read, a trace to extend *)

Inductive Run (A : Type) : Type :=
| Returned (a : A) (tr : list Event)
| Panicked (tr : list Event)
| OutOfFuel (tr : list Event).
Arguments Returned {A} a tr.
Arguments Panicked {A} tr.
Arguments OutOfFuel {A} tr.

Definition M (A : Type) : Type := World -> list Event -> Run A.

#[global] Instance M_ret : MRet M := fun A a _ tr => Returned a tr.

#[global] Instance M_bind : MBind M := fun A B f m w tr =>
  match m w tr with
  | Returned a tr' => f a w tr'
  | Panicked tr' => Panicked tr'
  | OutOfFuel tr' => OutOfFuel tr'
  end.

Definition emit (e : Event) : M unit := fun _ tr => Returned tt (tr ++ [e]).

(** A slice expression out of range panics. *)
Definition may_panic {A} (o : option A) : M A := fun _ tr =>
  match o with Some a => Returned a tr | None => Panicked tr end.

Definition out_of_fuel {A} : M A := fun _ tr => OutOfFuel tr.

Definition log_Printf (format : string) (args : list LogArg) : M unit :=
  emit (EvLog format args).
Definition log_Println (line : string) : M unit := emit (EvLog line []).

(** [os.Getenv]: the value, or the empty string when the variable is unset. *)
Definition os_Getenv (key : string) : M string := fun w tr =>
  Returned (default "" (environ w !! key)) tr.

Definition rest_InClusterConfig : M (result Config) := fun w tr =>
  Returned (InClusterConfig_result w) (tr ++ [EvInClusterConfig]).

Definition kubernetes_NewForConfig (c : Config) : M (result Clientset) := fun w tr =>
  Returned (match NewForConfig_error w c with
            | None => Ok {| restConfig := c |}
            | Some e => Err e
            end) (tr ++ [EvNewForConfig c]).

Definition api {A} (call : ApiCall) (answer : World -> nat -> result A) : M (result A) :=
  fun w tr => Returned (answer w (api_calls tr)) (tr ++ [EvApi call]).

Definition ServerVersion (_ : Clientset) : M (result VersionInfo) :=
  api CallServerVersion ServerVersion_at.
Definition Namespaces_Get (_ : Clientset) (name : string) : M (result Namespace) :=
  api (CallGetNamespace name) (fun w t => GetNamespace_at w t name).
Definition Nodes_List (_ : Clientset) : M (result NodeList) :=
  api CallListNodes ListNodes_at.
Definition DaemonSets_List (_ : Clientset) (ns : string) : M (result (list DaemonSet)) :=
  api (CallListDaemonSets ns) (fun w t => ListDaemonSets_at w t ns).
Definition Deployments_List (_ : Clientset) (ns : string) : M (result (list Deployment)) :=
  api (CallListDeployments ns) (fun w t => ListDeployments_at w t ns).

Definition json_Marshal (d : TelemetryData) : M (result string) := fun w tr =>
  Returned (Marshal_result w d) tr.

(** [http.NewRequest(method, url, bytes.NewBuffer(body))]: fails when the
    URL does not parse; builds the request otherwise. *)
Definition http_NewRequest (method url body : string) : M (result Request) := fun w tr =>
  Returned (match url_Parse_error w url with
            | None => Ok {| Method := method; URL := url; Body := body; Header := ∅ |}
            | Some e => Err e
            end) tr.

(** [client.Do(req)]: a transport error, or a response with a status. *)
Definition client_Do (c : Client) (req : Request) : M (result Response) := fun w tr =>
  Returned (Do_at w (http_calls tr) req) (tr ++ [EvHttpDo (Timeout c) req]).

Definition time_Sleep (d : Z) : M unit := emit (EvSleep d).

Definition defaultTelemetryEndpoint : string := "https://telemetry.rke2.io/v1/telemetry".
Definition defaultTimeout : Z := 30 * Second.

(** ** The code both revisions share *)

(** [isControlPlaneNode]: [_, ok := node.Labels[key]] reads presence
    only. *)
Definition isControlPlaneNode (node : Node) : bool :=
  let hasControlPlaneLabel :=
    match Labels (NodeMeta node) !! "node-role.kubernetes.io/control-plane" with
    | Some _ => true
    | None => false
    end in
  let hasMasterLabel :=
    match Labels (NodeMeta node) !! "node-role.kubernetes.io/master" with
    | Some _ => true
    | None => false
    end in
  hasControlPlaneLabel || hasMasterLabel.

(** The four local variables of the node loop in [collectTelemetryData]. *)
Record Census : Type := {
  serverNodeCount : Z;
  agentNodeCount : Z;
  osInfo : string;
  selinuxInfo : string
}.

Definition census_init : Census :=
  {| serverNodeCount := 0; agentNodeCount := 0; osInfo := ""; selinuxInfo := "" |}.

Module Shared.
Section Program.

Variable getSELinuxStatus : Node -> string.
Variable detectCNIPlugin : Clientset -> M (result string).
Variable detectIngressController : Clientset -> M (result string).
Variable sendTelemetryData : TelemetryData -> string -> M (option error).

(** One iteration of [for _, node := range nodes.Items]. *)
Definition census_step (c : Census) (node : Node) : Census :=
  let server :=
    if isControlPlaneNode node then Go.incr (serverNodeCount c) else serverNodeCount c in
  let agent :=
    if isControlPlaneNode node then agentNodeCount c else Go.incr (agentNodeCount c) in
  let os :=
    if String.eqb (osInfo c) "" then OSImage (NodeInfo (Status node)) else osInfo c in
  let selinux :=
    if String.eqb (selinuxInfo c) "" then getSELinuxStatus node else selinuxInfo c in
  {| serverNodeCount := server; agentNodeCount := agent;
     osInfo := os; selinuxInfo := selinux |}.

Definition census (nodes : list Node) : Census :=
  fold_left census_step nodes census_init.

Definition collectTelemetryData (clientset : Clientset) : M (result TelemetryData) :=
  let data := {| AppVersion := ""; ExtraTagInfo := ∅; ExtraFieldInfo := ∅ |} in
  r ← ServerVersion clientset;
  match r with
  | Err err => mret (Err (Wrapf "failed to get server version" err))
  | Ok versionInfo =>
    let data := set_AppVersion (GitVersion versionInfo) data in
    let data := set_tag "kubernetesVersion" (GitVersion versionInfo) data in
    r ← Namespaces_Get clientset "kube-system";
    match r with
    | Err err => mret (Err (Wrapf "failed to get kube-system namespace" err))
    | Ok namespace =>
      let data := set_tag "clusteruuid" (UID (NamespaceMeta namespace)) data in
      r ← Nodes_List clientset;
      match r with
      | Err err => mret (Err (Wrapf "failed to list nodes" err))
      | Ok nodes =>
        let c := census (Items nodes) in
        let data := set_field "serverNodeCount" (VInt (serverNodeCount c)) data in
        let data := set_field "agentNodeCount" (VInt (agentNodeCount c)) data in
        let data := set_field "os" (VString (osInfo c)) data in
        let data := set_field "selinux" (VString (selinuxInfo c)) data in
        r ← detectCNIPlugin clientset;
        cniPlugin ←
          match r with
          | Err err =>
              log_Printf "Warning: Failed to detect CNI plugin: %v" [AErr err];;
              mret "unknown"
          | Ok cniPlugin => mret cniPlugin
          end;
        let data := set_field "cni-plugin" (VString cniPlugin) data in
        r ← detectIngressController clientset;
        ingressController ←
          match r with
          | Err err =>
              log_Printf "Warning: Failed to detect ingress controller: %v" [AErr err];;
              mret "unknown"
          | Ok ingressController => mret ingressController
          end;
        let data := set_field "ingress-controller" (VString ingressController) data in
        mret (Ok data)
      end
    end
  end.

(** [main]; the value is the exit status of the process: 0 when [main]
    returns, 1 after [os.Exit(1)]. *)
Definition main : M Z :=
  log_Println "RKE2 Security Responder starting...";;
  disabled ← os_Getenv "DISABLE_TELEMETRY";
  if String.eqb disabled "true" then
    log_Println "Telemetry is disabled via DISABLE_TELEMETRY environment variable";;
    mret 0
  else
    r ← rest_InClusterConfig;
    match r with
    | Err err =>
        log_Printf "Error creating in-cluster config: %v" [AErr err];;
        mret 1
    | Ok config =>
      r ← kubernetes_NewForConfig config;
      match r with
      | Err err =>
          log_Printf "Error creating Kubernetes client: %v" [AErr err];;
          mret 1
      | Ok clientset =>
        r ← collectTelemetryData clientset;
        match r with
        | Err err =>
            log_Printf "Error collecting telemetry data: %v" [AErr err];;
            mret 1
        | Ok data =>
          endpoint ← os_Getenv "TELEMETRY_ENDPOINT";
          let endpoint :=
            if String.eqb endpoint "" then defaultTelemetryEndpoint else endpoint in
          e ← sendTelemetryData data endpoint;
          match e with
          | Some err =>
              log_Printf "Warning: Failed to send telemetry data: %v" [AErr err];;
              log_Println "This is expected in disconnected environments";;
              mret 0
          | None =>
              log_Println "Telemetry data sent successfully";;
              mret 0
          end
        end
      end
    end.

End Program.
End Shared.

(** ** Revision [src/main.go] *)

Module MainGo.
Import Go.

(** [hasSubstring], lines 277-284:
    [for i := 0; i <= len(s)-len(substr); i++].  [fuel] bounds the number
    of iterations; [None] is a panicking slice expression or an exhausted
    bound.  Lengths of Go strings fit an [int] and the offsets stay within
    them, so the index arithmetic is exact. *)
Fixpoint hasSubstring_loop (fuel : nat) (s substr : string) (i : Z) : option bool :=
  if i <=? len s - len substr then
    match fuel with
    | O => None
    | S fuel' =>
        match slice s i (i + len substr) with
        | None => None
        | Some w =>
            if String.eqb w substr then Some true
            else hasSubstring_loop fuel' s substr (i + 1)
        end
    end
  else Some false.

Definition hasSubstring (s substr : string) : option bool :=
  hasSubstring_loop (S (String.length s)) s substr 0.

(** [contains], lines 270-275, with Go's short-circuit [&&] and [||]. *)
Definition contains (s substr : string) : option bool :=
  if len s >=? len substr then
    if String.eqb s substr then Some true
    else if len s >? len substr then
      match slice s 0 (len substr) with
      | None => None
      | Some p =>
          if String.eqb p substr then Some true
          else
            match slice s (len s - len substr) (len s) with
            | None => None
            | Some q =>
                if String.eqb q substr then Some true
                else hasSubstring s substr
            end
      end
    else Some false
  else Some false.

(** [getSELinuxStatus], lines 161-174. *)
Definition getSELinuxStatus (node : Node) : string :=
  if match Labels (NodeMeta node) !! "security.alpha.kubernetes.io/selinux" with
     | Some selinux => String.eqb selinux "enabled"
     | None => false
     end
  then "enabled"
  else if negb (String.eqb (KernelVersion (NodeInfo (Status node))) "") then "unknown"
  else "disabled".

(** The [switch] of [detectCNIPlugin] on one name: the label to return,
    or [None] when no case applies. *)
Definition cni_case (name : string) : M (option string) :=
  c ← may_panic (contains name "canal");
  if (c : bool) then mret (Some "canal") else
  c ← may_panic (contains name "flannel");
  if (c : bool) then mret (Some "flannel") else
  c ← may_panic (contains name "calico");
  if (c : bool) then mret (Some "calico") else
  c ← may_panic (contains name "cilium");
  if (c : bool) then mret (Some "cilium") else
  c ← may_panic (contains name "weave");
  if (c : bool) then mret (Some "weave") else
  mret None.

Fixpoint cni_range (names : list string) : M (option string) :=
  match names with
  | [] => mret None
  | name :: rest =>
      r ← cni_case name;
      match r with
      | Some label => mret (Some label)
      | None => cni_range rest
      end
  end.

(** [detectCNIPlugin], lines 177-200. *)
Definition detectCNIPlugin (clientset : Clientset) : M (result string) :=
  r ← DaemonSets_List clientset "kube-system";
  match r with
  | Err err => mret (Err err)
  | Ok daemonSets =>
      f ← cni_range (map (fun ds => Name (DaemonSetMeta ds)) daemonSets);
      match f with
      | Some label => mret (Ok label)
      | None => mret (Ok "unknown")
      end
  end.

(** The [switch] of [detectIngressController] on one name. *)
Definition ingress_case (name : string) : M (option string) :=
  c ← may_panic (contains name "nginx-ingress");
  if (c : bool) then mret (Some "rke2-ingress-nginx") else
  c ← may_panic (contains name "rke2-ingress-nginx");
  if (c : bool) then mret (Some "rke2-ingress-nginx") else
  c ← may_panic (contains name "traefik");
  if (c : bool) then mret (Some "traefik") else
  mret None.

Fixpoint ingress_range (names : list string) : M (option string) :=
  match names with
  | [] => mret None
  | name :: rest =>
      r ← ingress_case name;
      match r with
      | Some label => mret (Some label)
      | None => ingress_range rest
      end
  end.

(** [detectIngressController], lines 203-233. *)
Definition detectIngressController (clientset : Clientset) : M (result string) :=
  r ← Deployments_List clientset "kube-system";
  match r with
  | Err err => mret (Err err)
  | Ok deployments =>
      f ← ingress_range (map (fun d => Name (DeploymentMeta d)) deployments);
      match f with
      | Some label => mret (Ok label)
      | None =>
          r ← DaemonSets_List clientset "kube-system";
          match r with
          | Ok daemonSets =>
              f ← ingress_range (map (fun ds => Name (DaemonSetMeta ds)) daemonSets);
              match f with
              | Some label => mret (Ok label)
              | None => mret (Ok "none")
              end
          | Err _ => mret (Ok "none")
          end
      end
  end.

(** [sendTelemetryData], lines 236-267: one attempt.  The deferred
    [resp.Body.Close()] has no effect the program observes. *)
Definition sendTelemetryData (data : TelemetryData) (endpoint : string) : M (option error) :=
  r ← json_Marshal data;
  match r with
  | Err err => mret (Some (Wrapf "failed to marshal telemetry data" err))
  | Ok jsonData =>
    log_Printf "Sending telemetry data to %s" [AStr endpoint];;
    log_Printf "Data: %s" [AStr jsonData];;
    let client := {| Timeout := defaultTimeout |} in
    r ← http_NewRequest "POST" endpoint jsonData;
    match r with
    | Err err => mret (Some (Wrapf "failed to create request" err))
    | Ok req =>
      let req := Header_Set "Content-Type" "application/json" req in
      r ← client_Do client req;
      match r with
      | Err err => mret (Some (Wrapf "failed to send request" err))
      | Ok resp =>
        if (StatusCode resp <? 200) || (StatusCode resp >=? 300)
        then mret (Some (UnexpectedStatus (StatusCode resp)))
        else mret None
      end
    end
  end.

Definition collectTelemetryData : Clientset -> M (result TelemetryData) :=
  Shared.collectTelemetryData getSELinuxStatus detectCNIPlugin detectIngressController.

Definition main : M Z :=
  Shared.main getSELinuxStatus detectCNIPlugin detectIngressController sendTelemetryData.

End MainGo.

(** ** Revision [src/unnamed/part_001] *)

Module Retry.
Import Go.

Definition maxRetries : Z := 3.
Definition retryDelay : Z := 2 * Second.

(** [getSELinuxStatus], lines 167-180. *)
Definition getSELinuxStatus (node : Node) : string :=
  match Labels (NodeMeta node) !! "security.alpha.kubernetes.io/selinux" with
  | Some selinux =>
      if String.eqb selinux "enabled" then "enabled" else "disabled"
  | None => "unknown"
  end.

(** The body of the loop of [detectCNIPlugin] on one name. *)
Definition cni_case (dsName : string) : option string :=
  let name := ToLower dsName in
  if Contains name "canal" then Some "canal"
  else if Contains name "flannel" then Some "flannel"
  else if Contains name "calico" then Some "calico"
  else if Contains name "cilium" then Some "cilium"
  else if Contains name "weave" then Some "weave"
  else None.

Fixpoint cni_range (names : list string) : option string :=
  match names with
  | [] => None
  | name :: rest =>
      match cni_case name with
      | Some label => Some label
      | None => cni_range rest
      end
  end.

(** [detectCNIPlugin], lines 183-210. *)
Definition detectCNIPlugin (clientset : Clientset) : M (result string) :=
  r ← DaemonSets_List clientset "kube-system";
  match r with
  | Err err => mret (Err err)
  | Ok daemonSets =>
      match cni_range (map (fun ds => Name (DaemonSetMeta ds)) daemonSets) with
      | Some label => mret (Ok label)
      | None => mret (Ok "unknown")
      end
  end.

(** The body of the loops of [detectIngressController] on one name. *)
Definition ingress_case (objName : string) : option string :=
  let name := ToLower objName in
  if Contains name "nginx-ingress" || Contains name "rke2-ingress-nginx"
  then Some "rke2-ingress-nginx"
  else if Contains name "traefik" then Some "traefik"
  else None.

Fixpoint ingress_range (names : list string) : option string :=
  match names with
  | [] => None
  | name :: rest =>
      match ingress_case name with
      | Some label => Some label
      | None => ingress_range rest
      end
  end.

(** [detectIngressController], lines 213-245. *)
Definition detectIngressController (clientset : Clientset) : M (result string) :=
  r ← Deployments_List clientset "kube-system";
  match r with
  | Err err => mret (Err err)
  | Ok deployments =>
      match ingress_range (map (fun d => Name (DeploymentMeta d)) deployments) with
      | Some label => mret (Ok label)
      | None =>
          r ← DaemonSets_List clientset "kube-system";
          match r with
          | Ok daemonSets =>
              match ingress_range (map (fun ds => Name (DaemonSetMeta ds)) daemonSets) with
              | Some label => mret (Ok label)
              | None => mret (Ok "none")
              end
          | Err _ => mret (Ok "none")
          end
      end
  end.

(** The loop of [sendTelemetryData], lines 261-292:
    [for attempt := 1; attempt <= maxRetries; attempt++].  [fuel] bounds
    the number of iterations. *)
Fixpoint send_loop (fuel : nat) (client : Client) (endpoint jsonData : string)
    (attempt : Z) (lastErr : option error) : M (option error) :=
  if attempt <=? maxRetries then
    match fuel with
    | O => out_of_fuel
    | S fuel' =>
      (if attempt >? 1 then
         let delay := wrap (wrap (attempt - 1) * retryDelay) in
         log_Printf "Retry attempt %d/%d after %v"
           [AInt attempt; AInt maxRetries; ADuration delay];;
         time_Sleep delay
       else mret tt);;
      r ← http_NewRequest "POST" endpoint jsonData;
      match r with
      | Err err => mret (Some (Wrapf "failed to create request" err))
      | Ok req =>
        let req := Header_Set "Content-Type" "application/json" req in
        r ← client_Do client req;
        match r with
        | Err err =>
            let lastErr := Wrapf "failed to send request" err in
            log_Printf "Attempt %d failed: %v" [AInt attempt; AErr lastErr];;
            send_loop fuel' client endpoint jsonData (incr attempt) (Some lastErr)
        | Ok resp =>
            if (StatusCode resp <? 200) || (StatusCode resp >=? 300) then
              let lastErr := UnexpectedStatus (StatusCode resp) in
              log_Printf "Attempt %d failed: %v" [AInt attempt; AErr lastErr];;
              send_loop fuel' client endpoint jsonData (incr attempt) (Some lastErr)
            else
              log_Printf "Telemetry data sent successfully on attempt %d" [AInt attempt];;
              mret None
        end
      end
    end
  else mret lastErr.

(** [sendTelemetryData], lines 248-295.  The deferred
    [resp.Body.Close()] calls have no effect the program observes. *)
Definition sendTelemetryData (data : TelemetryData) (endpoint : string) : M (option error) :=
  r ← json_Marshal data;
  match r with
  | Err err => mret (Some (Wrapf "failed to marshal telemetry data" err))
  | Ok jsonData =>
    log_Printf "Sending telemetry data to %s" [AStr endpoint];;
    let client := {| Timeout := defaultTimeout |} in
    send_loop (Z.to_nat maxRetries) client endpoint jsonData 1 None
  end.

Definition collectTelemetryData : Clientset -> M (result TelemetryData) :=
  Shared.collectTelemetryData getSELinuxStatus detectCNIPlugin detectIngressController.

Definition main : M Z :=
  Shared.main getSELinuxStatus detectCNIPlugin detectIngressController sendTelemetryData.

End Retry.

(** ** What the claims speak of *)

(** [substr] occurs as a contiguous run of bytes of [s]. *)
Definition occurs_in (substr s : string) : Prop :=
  exists pre post : string, s = pre +:+ substr +:+ post.

(** One of the two recognised role label keys is present, whatever its
    value. *)
Definition has_role_label (node : Node) : Prop :=
  is_Some (Labels (NodeMeta node) !! "node-role.kubernetes.io/control-plane") \/
  is_Some (Labels (NodeMeta node) !! "node-role.kubernetes.io/master").

#[global] Instance has_role_label_dec (node : Node) : Decision (has_role_label node).
Proof. unfold has_role_label. apply _. Defined.

(** The first entry of a list of strings that is not empty, [""] when
    there is none. *)
Fixpoint first_nonempty (l : list string) : string :=
  match l with
  | [] => ""
  | s :: rest => if String.eqb s "" then first_nonempty rest else s
  end.

(** The record [collectTelemetryData] has built when it returns it. *)
Definition collected (versionInfo : VersionInfo) (namespace : Namespace) (c : Census)
    (cniPlugin ingressController : string) : TelemetryData :=
  {| AppVersion := GitVersion versionInfo;
     ExtraTagInfo :=
       <["clusteruuid" := UID (NamespaceMeta namespace)]>
         (<["kubernetesVersion" := GitVersion versionInfo]> ∅);
     ExtraFieldInfo :=
       <["ingress-controller" := VString ingressController]>
         (<["cni-plugin" := VString cniPlugin]>
            (<["selinux" := VString (selinuxInfo c)]>
               (<["os" := VString (osInfo c)]>
                  (<["agentNodeCount" := VInt (agentNodeCount c)]>
                     (<["serverNodeCount" := VInt (serverNodeCount c)]> ∅))))) |}.

(** Two strings are equal up to the case of their letters. *)
Definition eq_fold (a b : string) : Prop := Go.ToLower a = Go.ToLower b.

(** [keyword] matches [name] as a case-insensitive substring: some
    contiguous run of [name] equals [keyword] up to letter case. *)
Definition matches_ci (keyword name : string) : Prop :=
  exists pre mid post : string, name = pre +:+ mid +:+ post /\ eq_fold mid keyword.

(** The ordered keyword tables of the detectors: keyword, reported label. *)
Definition cni_table : list (string * string) :=
  [("canal", "canal"); ("flannel", "flannel"); ("calico", "calico");
   ("cilium", "cilium"); ("weave", "weave")].

Definition ingress_table : list (string * string) :=
  [("nginx-ingress", "rke2-ingress-nginx");
   ("rke2-ingress-nginx", "rke2-ingress-nginx");
   ("traefik", "traefik")].

Section Detection.

(** [matches keyword name]: the matching rule in force. *)
Variable matches : string -> string -> Prop.

(** No keyword of the table matches the object's name. *)
Definition no_hit (table : list (string * string)) (name : string) : Prop :=
  forall keyword label, In (keyword, label) table -> ~ matches keyword name.

(** [label] belongs to the first keyword, in table order, that matches
    the object's name. *)
Definition object_hit (table : list (string * string)) (name label : string) : Prop :=
  exists t1 keyword t2,
    table = (t1 ++ (keyword, label) :: t2)%list /\
    matches keyword name /\
    no_hit t1 name.

(** The first match wins, scanning objects in listing order; without a
    match the answer is the fallback. *)
Definition detection (table : list (string * string)) (names : list string)
    (fallback answer : string) : Prop :=
  (exists n1 name n2,
     names = (n1 ++ name :: n2)%list /\
     Forall (no_hit table) n1 /\
     object_hit table name answer) \/
  (Forall (no_hit table) names /\ answer = fallback).

End Detection.

(** The same scan, computed with a boolean matching rule. *)
Fixpoint table_hit (test : string -> bool) (table : list (string * string)) : option string :=
  match table with
  | [] => None
  | (keyword, label) :: rest => if test keyword then Some label else table_hit test rest
  end.

Fixpoint table_scan (test : string -> string -> bool) (table : list (string * string))
    (names : list string) : option string :=
  match names with
  | [] => None
  | name :: rest =>
      match table_hit (test name) table with
      | Some label => Some label
      | None => table_scan test table rest
      end
  end.

(** The matching rules of the two revisions: [src/unnamed/part_001]
    lowers the name first, [src/main.go] compares bytes. *)
Definition lowered_test (name keyword : string) : bool :=
  Go.Contains (Go.ToLower name) keyword.
Definition bytewise_test (name keyword : string) : bool :=
  Go.Contains name keyword.

Definition ds_names (l : list DaemonSet) : list string :=
  map (fun ds => Name (DaemonSetMeta ds)) l.
Definition deploy_names (l : list Deployment) : list string :=
  map (fun d => Name (DeploymentMeta d)) l.

(** The answers of the two detectors as functions of what the cluster
    answers, for a given scan of the names. *)
Definition cni_answer (scan : list string -> option string)
    (daemonSets : result (list DaemonSet)) : result string :=
  match daemonSets with
  | Err err => Err err
  | Ok dss => Ok (default "unknown" (scan (ds_names dss)))
  end.

Definition ingress_answer (scan : list string -> option string)
    (deployments : result (list Deployment)) (daemonSets : result (list DaemonSet))
    : result string :=
  match deployments with
  | Err err => Err err
  | Ok deps =>
      match scan (deploy_names deps) with
      | Some label => Ok label
      | None =>
          match daemonSets with
          | Ok dss => Ok (default "none" (scan (ds_names dss)))
          | Err _ => Ok "none"
          end
      end
  end.

(** The API calls [detectIngressController] makes: DaemonSets are listed
    only when the Deployments were listed and none of them matched. *)
Definition ingress_calls (scan : list string -> option string)
    (deployments : result (list Deployment)) : list Event :=
  match deployments with
  | Err _ => [EvApi (CallListDeployments "kube-system")]
  | Ok deps =>
      match scan (deploy_names deps) with
      | Some _ => [EvApi (CallListDeployments "kube-system")]
      | None => [EvApi (CallListDeployments "kube-system");
                 EvApi (CallListDaemonSets "kube-system")]
      end
  end.

(** What [collectTelemetryData] makes of a detector's answer. *)
Definition or_unknown (r : result string) : string :=
  match r with Ok label => label | Err _ => "unknown" end.

(** The warning [collectTelemetryData] logs when a detector fails. *)
Definition warned (format : string) (r : result string) (tr : list Event) : list Event :=
  match r with Ok _ => tr | Err err => tr ++ [EvLog format [AErr err]] end.

(** The request every delivery attempt sends. *)
Definition post_request (endpoint body : string) : Request :=
  {| Method := "POST"; URL := endpoint; Body := body;
     Header := <["Content-Type" := "application/json"]> ∅ |}.

(** An attempt fails on a transport error and on a status outside
    200..299; this is the error it then leaves behind. *)
Definition attempt_error (r : result Response) : option error :=
  match r with
  | Err err => Some (Wrapf "failed to send request" err)
  | Ok resp =>
      if (StatusCode resp <? 200) || (StatusCode resp >=? 300)
      then Some (UnexpectedStatus (StatusCode resp))
      else None
  end.

(** Linear backoff: attempt [k] is preceded, when [k > 1], by a sleep of
    [(k-1) * delay]. *)
Definition attempt_events (delay timeout : Z) (req : Request) (k : nat) : list Event :=
  ((if (1 <? k)%nat then [EvSleep ((Z.of_nat k - 1) * delay)] else []) ++
   [EvHttpDo timeout req])%list.

Definition schedule (delay timeout : Z) (req : Request) (n : nat) : list Event :=
  concat (map (attempt_events delay timeout req) (seq 1 n)).

Definition is_http_or_sleep (e : Event) : bool := is_http e || is_sleep e.

(** The events of one iteration of the retry loop before its request is
    sent. *)
Definition backoff_events (attempt : Z) : list Event :=
  if attempt >? 1
  then [EvLog "Retry attempt %d/%d after %v"
          [AInt attempt; AInt Retry.maxRetries;
           ADuration (Go.wrap (Go.wrap (attempt - 1) * Retry.retryDelay))];
        EvSleep (Go.wrap (Go.wrap (attempt - 1) * Retry.retryDelay))]
  else [].

(** ** The runs of [main] *)

(** The value [main] compares with ["true"]. *)
Definition disable_telemetry (w : World) : string :=
  default "" (environ w !! "DISABLE_TELEMETRY").

(** The endpoint [main] sends to: the override when it is set and not
    empty, the compiled-in default otherwise. *)
Definition endpoint_of (w : World) : string :=
  if String.eqb (default "" (environ w !! "TELEMETRY_ENDPOINT")) ""
  then defaultTelemetryEndpoint
  else default "" (environ w !! "TELEMETRY_ENDPOINT").

(** What [main] has done when it starts collecting. *)
Definition startup_events (c : Config) : list Event :=
  [EvLog "RKE2 Security Responder starting..." []; EvInClusterConfig; EvNewForConfig c].

(** What [main] logs about the outcome of the send. *)
Definition send_logs (res : option error) : list Event :=
  match res with
  | Some err =>
      [EvLog "Warning: Failed to send telemetry data: %v" [AErr err];
       EvLog "This is expected in disconnected environments" []]
  | None => [EvLog "Telemetry data sent successfully" []]
  end.

(** Credential discovery or client construction fails. *)
Definition construction_fails (w : World) : Prop :=
  (exists e, InClusterConfig_result w = Err e) \/
  (exists c e, InClusterConfig_result w = Ok c /\ NewForConfig_error w c = Some e).

(** One of the three fatal queries of collection (version, system
    namespace, node listing: the first three API calls) fails. *)
Definition fatal_query_fails (w : World) : Prop :=
  is_ok (ServerVersion_at w 0) && is_ok (GetNamespace_at w 1 "kube-system") &&
  is_ok (ListNodes_at w 2) = false.

(** The six ways a run of [main] can go. *)
Inductive main_case (collect : Clientset -> M (result TelemetryData))
    (send : TelemetryData -> string -> M (option error)) (w : World)
    : Z -> list Event -> Prop :=
| OptedOut :
    disable_telemetry w = "true" ->
    main_case collect send w 0
      [EvLog "RKE2 Security Responder starting..." [];
       EvLog "Telemetry is disabled via DISABLE_TELEMETRY environment variable" []]
| ConfigFailed e :
    disable_telemetry w <> "true" ->
    InClusterConfig_result w = Err e ->
    main_case collect send w 1
      [EvLog "RKE2 Security Responder starting..." []; EvInClusterConfig;
       EvLog "Error creating in-cluster config: %v" [AErr e]]
| ClientFailed c e :
    disable_telemetry w <> "true" ->
    InClusterConfig_result w = Ok c ->
    NewForConfig_error w c = Some e ->
    main_case collect send w 1
      (startup_events c ++ [EvLog "Error creating Kubernetes client: %v" [AErr e]])%list
| CollectFailed c e (evs : list Event) :
    disable_telemetry w <> "true" ->
    InClusterConfig_result w = Ok c ->
    NewForConfig_error w c = None ->
    collect {| restConfig := c |} w (startup_events c) =
      Returned (Err e) (startup_events c ++ EvApi CallServerVersion :: evs)%list ->
    main_case collect send w 1
      (startup_events c ++ EvApi CallServerVersion :: evs ++
       [EvLog "Error collecting telemetry data: %v" [AErr e]])%list
| SendReturned c data (evs : list Event) res (evs' : list Event) :
    disable_telemetry w <> "true" ->
    InClusterConfig_result w = Ok c ->
    NewForConfig_error w c = None ->
    collect {| restConfig := c |} w (startup_events c) =
      Returned (Ok data) (startup_events c ++ EvApi CallServerVersion :: evs)%list ->
    send data (endpoint_of w) w (startup_events c ++ EvApi CallServerVersion :: evs)%list =
      Returned res ((startup_events c ++ EvApi CallServerVersion :: evs) ++ evs')%list ->
    main_case collect send w 0
      ((startup_events c ++ EvApi CallServerVersion :: evs) ++ evs' ++ send_logs res)%list.

(** The two revisions of the program. *)
Inductive Revision : Type := MainGoRevision | RetryRevision.

Definition collect_of (rev : Revision) : Clientset -> M (result TelemetryData) :=
  match rev with
  | MainGoRevision => MainGo.collectTelemetryData
  | RetryRevision => Retry.collectTelemetryData
  end.

Definition send_of (rev : Revision) : TelemetryData -> string -> M (option error) :=
  match rev with
  | MainGoRevision => MainGo.sendTelemetryData
  | RetryRevision => Retry.sendTelemetryData
  end.

Definition main_of (rev : Revision) : M Z :=
  match rev with
  | MainGoRevision => MainGo.main
  | RetryRevision => Retry.main
  end.

(** The scan of names each revision runs for the ingress controller. *)
Definition ingress_scan_of (rev : Revision) : list string -> option string :=
  match rev with
  | MainGoRevision => table_scan bytewise_test ingress_table
  | RetryRevision => table_scan lowered_test ingress_table
  end.

Definition cni_scan_of (rev : Revision) : list string -> option string :=
  match rev with
  | MainGoRevision => table_scan bytewise_test cni_table
  | RetryRevision => table_scan lowered_test cni_table
  end.

Definition getSELinuxStatus_of (rev : Revision) : Node -> string :=
  match rev with
  | MainGoRevision => MainGo.getSELinuxStatus
  | RetryRevision => Retry.getSELinuxStatus
  end.

Definition detectCNIPlugin_of (rev : Revision) : Clientset -> M (result string) :=
  match rev with
  | MainGoRevision => MainGo.detectCNIPlugin
  | RetryRevision => Retry.detectCNIPlugin
  end.

Definition detectIngressController_of (rev : Revision) : Clientset -> M (result string) :=
  match rev with
  | MainGoRevision => MainGo.detectIngressController
  | RetryRevision => Retry.detectIngressController
  end.

(** The matching rule each revision applies to a name and a keyword. *)
Definition matches_of (rev : Revision) : string -> string -> Prop :=
  match rev with
  | MainGoRevision => occurs_in
  | RetryRevision => matches_ci
  end.

(** A name without upper-case ASCII letters. *)
Definition is_lower (s : string) : Prop := Go.ToLower s = s.


(** ** Sample clusters *)

Module Sample.

Definition meta (name : string) (labels : list (string * string)) : ObjectMeta :=
  {| Name := name; UID := "uid-" +:+ name; Labels := list_to_map labels |}.

Definition node (name : string) (labels : list (string * string))
    (kernel image : string) : Node :=
  {| NodeMeta := meta name labels;
     Status := {| NodeInfo := {| KernelVersion := kernel; OSImage := image |} |} |}.

Definition server : Node :=
  node "server-0" [("node-role.kubernetes.io/control-plane", "true");
                   ("security.alpha.kubernetes.io/selinux", "enabled")]
       "5.14.21" "SLE Micro 5.5".

Definition agent : Node :=
  node "agent-0" [("kubernetes.io/os", "linux")] "5.15.0" "Ubuntu 22.04.3 LTS".

(** A node whose label says that SELinux is off. *)
Definition permissive : Node :=
  node "agent-1" [("security.alpha.kubernetes.io/selinux", "disabled")]
       "5.14.21" "SLE Micro 5.5".

(** A node the kubelet has not reported on yet: no system info. *)
Definition fresh : Node := node "server-1" [("node-role.kubernetes.io/master", "")] "" "".

Definition daemonSet (name : string) : DaemonSet := {| DaemonSetMeta := meta name [] |}.
Definition deployment (name : string) : Deployment := {| DeploymentMeta := meta name [] |}.

Definition node_list (l : list Node)
    (H : (Z.of_nat (length l) <=? Go.max_int) = true) : NodeList :=
  {| Items := l; Items_len := H |}.

Definition two_nodes : NodeList := node_list [server; agent] eq_refl.
Definition fresh_first : NodeList := node_list [fresh; agent] eq_refl.
Definition fresh_first' : NodeList := node_list [fresh; server] eq_refl.

Definition clientset : Clientset := {| restConfig := {| Host := "https://10.43.0.1:443" |} |}.

(** A cluster that answers every query, at any time, with the given
    objects, and a network that answers every request by [respond]. *)
Definition world (env : list (string * string)) (nodes : NodeList)
    (daemonSets : result (list DaemonSet)) (deployments : result (list Deployment))
    (parse : string -> option error) (respond : nat -> result Response) : World :=
  {| environ := list_to_map env;
     InClusterConfig_result := Ok (restConfig clientset);
     NewForConfig_error := fun _ => None;
     ServerVersion_at := fun _ => Ok {| GitVersion := "v1.28.3+rke2r1" |};
     GetNamespace_at := fun _ name => Ok {| NamespaceMeta := meta name [] |};
     ListNodes_at := fun _ => Ok nodes;
     ListDaemonSets_at := fun _ _ => daemonSets;
     ListDeployments_at := fun _ _ => deployments;
     Marshal_result := fun d => Ok ("{appVersion:" +:+ AppVersion d +:+ "}");
     url_Parse_error := parse;
     Do_at := fun n _ => respond n |}.

Definition status (code : Z) : result Response := Ok {| StatusCode := code |}.

(** Every URL parses. *)
Definition any_url (_ : string) : option error := None.

(** [net/url] rejects an address written without a scheme:
    [first path segment in URL cannot contain colon]. *)
Definition reject_schemeless (url : string) : option error :=
  if String.eqb url "10.0.0.5:8443/v1/telemetry"
  then Some (LibError "first path segment in URL cannot contain colon")
  else None.

Definition healthy : World :=
  world [] two_nodes (Ok [daemonSet "rke2-canal"])
        (Ok [deployment "rke2-coredns-rke2-coredns";
             deployment "rke2-ingress-nginx-controller"])
        any_url (fun _ => status 200).

Definition always_503 : World :=
  world [] two_nodes (Ok [daemonSet "rke2-canal"]) (Ok []) any_url (fun _ => status 503).

Definition opted_out : World :=
  world [("DISABLE_TELEMETRY", "true")] two_nodes (Ok []) (Ok []) any_url
        (fun _ => status 200).

Definition bad_endpoint : World :=
  world [("TELEMETRY_ENDPOINT", "10.0.0.5:8443/v1/telemetry")] two_nodes
        (Ok [daemonSet "rke2-canal"]) (Ok []) reject_schemeless (fun _ => status 200).

Definition daemonsets_down : World :=
  world [] two_nodes (Err (LibError "the server is currently unable to handle the request"))
        (Ok [deployment "rke2-coredns-rke2-coredns"]) any_url (fun _ => status 200).

Definition capitalised : World :=
  world [] two_nodes (Ok [daemonSet "Canal"]) (Ok [deployment "Traefik"]) any_url
        (fun _ => status 200).

End Sample.

(** ** Vocabulary for the properties beyond the claims *)

(** The number of delivery attempts a revision allows itself. *)
Definition max_attempts (rev : Revision) : nat :=
  match rev with
  | MainGoRevision => 1
  | RetryRevision => Z.to_nat Retry.maxRetries
  end.

(** The values the detectors and the SELinux status function can answer. *)
Definition cni_labels : list string :=
  ["canal"; "flannel"; "calico"; "cilium"; "weave"; "unknown"].
Definition ingress_labels : list string :=
  ["rke2-ingress-nginx"; "traefik"; "none"; "unknown"].
Definition selinux_values : list string := ["enabled"; "disabled"; "unknown"].

(** The request was answered, with a status in 200..299. *)
Definition status_ok (r : result Response) : Prop :=
  exists resp, r = Ok resp /\ 200 <= StatusCode resp <= 299.

(** The time a stretch of events may take at most: the sleeps, and for
    every request the timeout of its client. *)
Fixpoint time_budget (evs : list Event) : Z :=
  match evs with
  | [] => 0
  | EvSleep d :: rest => d + time_budget rest
  | EvHttpDo timeout _ :: rest => timeout + time_budget rest
  | _ :: rest => time_budget rest
  end.

(** The sleeps of a stretch of events, in order. *)
Definition sleeps_of (evs : list Event) : list Z :=
  omap (fun e => match e with EvSleep d => Some d | _ => None end) evs.

(** What a send may do: log, sleep, and send the one request. *)
Definition send_event (timeout : Z) (req : Request) (e : Event) : Prop :=
  match e with
  | EvLog _ _ => True
  | EvSleep d => 0 < d
  | EvHttpDo t r => t = timeout /\ r = req
  | _ => False
  end.

(** What collection may do: query the cluster and log. *)
Definition collect_event (e : Event) : Prop :=
  match e with
  | EvLog _ _ | EvApi _ => True
  | _ => False
  end.

Module Sample2.

Definition two_nodes_reversed : NodeList :=
  Sample.node_list [Sample.agent; Sample.server] eq_refl.

Definition no_nodes : NodeList := Sample.node_list [] eq_refl.

Definition reversed : World :=
  Sample.world [] two_nodes_reversed (Ok [Sample.daemonSet "rke2-canal"]) (Ok [])
    Sample.any_url (fun _ => Sample.status 200).

Definition deserted : World :=
  Sample.world [] no_nodes (Ok []) (Ok []) Sample.any_url (fun _ => Sample.status 200).


(** The serialiser rejects every record. *)
Definition unserialisable : World :=
  {| environ := environ Sample.healthy;
     InClusterConfig_result := InClusterConfig_result Sample.healthy;
     NewForConfig_error := NewForConfig_error Sample.healthy;
     ServerVersion_at := ServerVersion_at Sample.healthy;
     GetNamespace_at := GetNamespace_at Sample.healthy;
     ListNodes_at := ListNodes_at Sample.healthy;
     ListDaemonSets_at := ListDaemonSets_at Sample.healthy;
     ListDeployments_at := ListDeployments_at Sample.healthy;
     Marshal_result := fun _ => Err (LibError "json: unsupported value");
     url_Parse_error := url_Parse_error Sample.healthy;
     Do_at := Do_at Sample.healthy |}.

(** The cluster does not answer the version query. *)
Definition unreachable : World :=
  {| environ := environ Sample.healthy;
     InClusterConfig_result := InClusterConfig_result Sample.healthy;
     NewForConfig_error := NewForConfig_error Sample.healthy;
     ServerVersion_at := fun _ => Err (LibError "connection refused");
     GetNamespace_at := GetNamespace_at Sample.healthy;
     ListNodes_at := ListNodes_at Sample.healthy;
     ListDaemonSets_at := ListDaemonSets_at Sample.healthy;
     ListDeployments_at := ListDeployments_at Sample.healthy;
     Marshal_result := Marshal_result Sample.healthy;
     url_Parse_error := url_Parse_error Sample.healthy;
     Do_at := Do_at Sample.healthy |}.

Definition sample_record : TelemetryData :=
  collected {| GitVersion := "v1.28.3+rke2r1" |}
    {| NamespaceMeta := Sample.meta "kube-system" [] |} census_init "canal" "none".

End Sample2.

(** * Properties *)

(** ** Strings *)

#[local] Arguments String.append !_ _ / : simpl nomatch.

Section StringFacts.

Lemma app_empty_r (s : string) : s +:+ "" = s.
Proof. induction s as [|c s IH]; simpl; [reflexivity | now rewrite IH]. Qed.

Lemma app_assoc_s (a b c : string) : (a +:+ b) +:+ c = a +:+ (b +:+ c).
Proof. induction a as [|x a IH]; simpl; [reflexivity | now rewrite IH]. Qed.

Lemma length_app_s (a b : string) :
  String.length (a +:+ b) = (String.length a + String.length b)%nat.
Proof. induction a as [|x a IH]; simpl; [reflexivity | now rewrite IH]. Qed.

Lemma prefix_occurs (p s : string) :
  String.prefix p s = true <-> exists post, s = p +:+ post.
Proof.
  revert s. induction p as [|c p IH]; intros s; simpl.
  - split; [intros _; now exists s | intros _; now destruct s].
  - destruct s as [|d s]; simpl.
    + split; [discriminate | intros [post H]; discriminate].
    + destruct (ascii_dec c d) as [->|Hne].
      * rewrite IH. split; intros [post H]; exists post; [now rewrite H | now inversion H].
      * split; [discriminate | intros [post H]; congruence].
Qed.

Lemma Contains_unfold (s substr : string) :
  Go.Contains s substr =
  String.prefix substr s ||
  match s with
  | EmptyString => false
  | String _ s' => Go.Contains s' substr
  end.
Proof. now destruct s. Qed.

Lemma Contains_occurs (s substr : string) :
  Go.Contains s substr = true <-> occurs_in substr s.
Proof.
  induction s as [|c s IH]; rewrite Contains_unfold.
  - rewrite orb_false_r, prefix_occurs. split.
    + intros [post H]. now exists "", post.
    + intros [pre [post H]]. destruct pre; [now exists post | discriminate].
  - rewrite orb_true_iff, prefix_occurs, IH. split.
    + intros [[post H] | [pre [post H]]].
      * now exists "", post.
      * exists (String c pre), post. simpl. now rewrite H.
    + intros [pre [post H]]. destruct pre as [|d pre]; simpl in H.
      * left. now exists post.
      * right. inversion H. now exists pre, post.
Qed.

Lemma occurs_length (substr s : string) :
  occurs_in substr s -> (String.length substr <= String.length s)%nat.
Proof. intros [pre [post ->]]. rewrite !length_app_s. lia. Qed.

Lemma substring_at (pre mid post : string) :
  String.substring (String.length pre) (String.length mid) (pre +:+ mid +:+ post) = mid.
Proof.
  induction pre as [|c pre IH]; simpl; [|exact IH].
  induction mid as [|c mid IH]; simpl.
  - now destruct post.
  - now rewrite IH.
Qed.

Lemma substring_split (s : string) (i n : nat) :
  (i + n <= String.length s)%nat ->
  exists pre post,
    s = pre +:+ String.substring i n s +:+ post /\ String.length pre = i.
Proof.
  revert i n. induction s as [|c s IH]; intros i n Hle; simpl in Hle.
  - assert (i = 0%nat) by lia. assert (n = 0%nat) by lia. subst.
    now exists "", "".
  - destruct i as [|i]; simpl.
    + destruct n as [|n].
      * now exists "", (String c s).
      * destruct (IH 0%nat n) as [pre [post [Hs Hl]]]; [lia|].
        destruct pre; [|discriminate]. simpl in Hs.
        exists "", post. simpl. split; [now rewrite <- Hs | reflexivity].
    + destruct (IH i n) as [pre [post [Hs Hl]]]; [lia|].
      exists (String c pre), post. simpl. split; [now rewrite <- Hs | now rewrite Hl].
Qed.

Lemma substring_eqb_occurs (s substr : string) (i : nat) :
  (i + String.length substr <= String.length s)%nat ->
  String.eqb (String.substring i (String.length substr) s) substr = true <->
  exists pre post, s = pre +:+ substr +:+ post /\ String.length pre = i.
Proof.
  intros Hle. rewrite String.eqb_eq. split.
  - intros Heq. destruct (substring_split s i (String.length substr) Hle)
      as [pre [post [Hs Hl]]].
    exists pre, post. now rewrite Heq in Hs.
  - intros [pre [post [-> <-]]]. apply substring_at.
Qed.

Lemma slice_in_range (s : string) (lo hi : Z) :
  0 <= lo -> lo <= hi -> hi <= Go.len s ->
  Go.slice s lo hi = Some (String.substring (Z.to_nat lo) (Z.to_nat (hi - lo)) s).
Proof.
  intros H1 H2 H3. unfold Go.slice.
  destruct (0 <=? lo) eqn:E1; [|lia].
  destruct (lo <=? hi) eqn:E2; [|lia].
  destruct (hi <=? Go.len s) eqn:E3; [reflexivity|lia].
Qed.

End StringFacts.

(** ** [src/main.go]: the substring helper *)

Section ContainsHelper.
Import Go MainGo.

Lemma bool_eq_of_iff (a b : bool) : (a = true <-> b = true) -> a = b.
Proof. destruct a, b; intuition congruence. Qed.

(** The loop of [hasSubstring], started at offset [k] with enough fuel,
    never panics and finds exactly the occurrences at offsets [>= k]. *)
Lemma hasSubstring_loop_spec (s substr : string) (fuel k : nat) :
  (String.length s < fuel + k)%nat ->
  exists b,
    hasSubstring_loop fuel s substr (Z.of_nat k) = Some b /\
    (b = true <->
     exists pre post, s = pre +:+ substr +:+ post /\ (k <= String.length pre)%nat).
Proof.
  revert k. induction fuel as [|fuel IH]; intros k Hf.
  - exists false. split.
    + simpl. unfold len. destruct (_ <=? _) eqn:E; [apply Z.leb_le in E; lia | reflexivity].
    + split; [discriminate|]. intros [pre [post [-> Hk]]].
      rewrite !length_app_s in Hf. lia.
  - simpl. unfold len. destruct (_ <=? _) eqn:E.
    + apply Z.leb_le in E.
      rewrite slice_in_range by (unfold len; lia).
      replace (Z.to_nat (Z.of_nat k)) with k by lia.
      replace (Z.to_nat (_ + _ - _)) with (String.length substr) by lia.
      destruct (String.eqb _ substr) eqn:Heq.
      * exists true. split; [reflexivity|]. split; [intros _|reflexivity].
        apply substring_eqb_occurs in Heq; [|lia].
        destruct Heq as [pre [post [Hs Hl]]]. exists pre, post. split; [exact Hs | lia].
      * replace (Z.of_nat k + 1) with (Z.of_nat (S k)) by lia.
        destruct (IH (S k)) as [b [Hb Hiff]]; [lia|].
        exists b. split; [exact Hb|]. rewrite Hiff. split.
        -- intros [pre [post [Hs Hl]]]. exists pre, post. split; [exact Hs | lia].
        -- intros [pre [post [Hs Hl]]]. exists pre, post. split; [exact Hs|].
           destruct (Nat.eq_dec (String.length pre) k) as [Hk|Hk]; [|lia].
           assert (String.eqb (String.substring k (String.length substr) s) substr = true)
             as Habs by (apply substring_eqb_occurs; [lia | now exists pre, post]).
           congruence.
    + apply Z.leb_gt in E. exists false. split; [reflexivity|].
      split; [discriminate|]. intros [pre [post [Hs Hk]]].
      apply (f_equal String.length) in Hs. rewrite !length_app_s in Hs. lia.
Qed.

Lemma hasSubstring_spec (s substr : string) :
  exists b, hasSubstring s substr = Some b /\ (b = true <-> occurs_in substr s).
Proof.
  destruct (hasSubstring_loop_spec s substr (S (String.length s)) 0) as [b [Hb Hiff]];
    [lia|].
  exists b. split; [exact Hb|]. rewrite Hiff. split.
  - intros [pre [post [Hs _]]]. now exists pre, post.
  - intros [pre [post Hs]]. exists pre, post. split; [exact Hs | lia].
Qed.

(** [contains] never panics and agrees with [strings.Contains]. *)
Lemma contains_total (s substr : string) :
  contains s substr = Some (Contains s substr).
Proof.
  assert (exists b, contains s substr = Some b /\ (b = true <-> occurs_in substr s))
    as [b [Hb Hiff]].
  { unfold contains, len.
    destruct (_ >=? _) eqn:Ege.
    - destruct (String.eqb s substr) eqn:Heq.
      + exists true. split; [reflexivity|]. split; [intros _|reflexivity].
        apply String.eqb_eq in Heq. subst. exists "", "".
        simpl. now rewrite app_empty_r.
      + destruct (_ >? _) eqn:Egt.
        * rewrite slice_in_range by (unfold len; lia).
          replace (Z.to_nat 0) with 0%nat by lia.
          replace (Z.to_nat (_ - 0)) with (String.length substr) by lia.
          destruct (String.eqb (String.substring 0 _ s) substr) eqn:Hp.
          { exists true. split; [reflexivity|]. split; [intros _|reflexivity].
            apply substring_eqb_occurs in Hp; [|lia].
            destruct Hp as [pre [post [Hs _]]]. now exists pre, post. }
          rewrite slice_in_range by (unfold len; lia).
          set (off := Z.to_nat (Z.of_nat (String.length s) - Z.of_nat (String.length substr))).
          replace (Z.to_nat (_ - (_ - _))) with (String.length substr) by lia.
          destruct (String.eqb (String.substring off _ s) substr) eqn:Hq.
          { exists true. split; [reflexivity|]. split; [intros _|reflexivity].
            apply substring_eqb_occurs in Hq; [|lia].
            destruct Hq as [pre [post [Hs _]]]. now exists pre, post. }
          apply hasSubstring_spec.
        * exists false. split; [reflexivity|]. split; [discriminate|].
          intros [pre [post Hs]].
          assert (String.length pre = 0%nat /\ String.length post = 0%nat) as [Hl1 Hl2].
          { apply (f_equal String.length) in Hs. rewrite !length_app_s in Hs. lia. }
          destruct pre; [|discriminate]. destruct post; [|discriminate].
          simpl in Hs. rewrite app_empty_r in Hs. subst.
          now rewrite String.eqb_refl in Heq.
    - exists false. split; [reflexivity|]. split; [discriminate|].
      intros Hocc. apply occurs_length in Hocc. lia. }
  rewrite Hb. f_equal. apply bool_eq_of_iff.
  now rewrite Hiff, Contains_occurs.
Qed.

End ContainsHelper.

(** C10. For all strings [s] and [substr], the helper [contains] of
    [src/main.go] returns (it does not panic on a slice expression), and
    it returns [true] exactly when [substr] occurs as a contiguous run of
    bytes of [s], compared byte for byte: it is extensionally equal to
    [strings.Contains]. *)
Theorem contains_is_strings_Contains (s substr : string) :
  MainGo.contains s substr = Some (Go.Contains s substr) /\
  (MainGo.contains s substr = Some true <-> occurs_in substr s).
Proof.
  split; [apply contains_total|].
  rewrite contains_total, <- Contains_occurs.
  split; [now intros [= ->] | now intros ->].
Qed.

(** ** The monad *)

Ltac run_unfold :=
  unfold log_Printf, log_Println, os_Getenv, rest_InClusterConfig,
    kubernetes_NewForConfig, ServerVersion, Namespaces_Get, Nodes_List,
    DaemonSets_List, Deployments_List, json_Marshal, http_NewRequest, client_Do,
    time_Sleep, may_panic, out_of_fuel;
  unfold mbind, mret, M_bind, M_ret, api, emit.

Lemma api_calls_app (tr tr' : list Event) :
  api_calls (tr ++ tr') = (api_calls tr + api_calls tr')%nat.
Proof. unfold api_calls. now rewrite List.filter_app, length_app. Qed.

Lemma http_calls_app (tr tr' : list Event) :
  http_calls (tr ++ tr') = (http_calls tr + http_calls tr')%nat.
Proof. unfold http_calls. now rewrite List.filter_app, length_app. Qed.

Lemma api_calls_snoc (tr : list Event) (call : ApiCall) :
  api_calls (tr ++ [EvApi call]) = (api_calls tr + 1)%nat.
Proof. now rewrite api_calls_app. Qed.

(** ** Collection, for any detectors *)

Section CollectFacts.

Variable getSELinuxStatus : Node -> string.
Variable detectCNIPlugin : Clientset -> M (result string).
Variable detectIngressController : Clientset -> M (result string).

Let collect := Shared.collectTelemetryData getSELinuxStatus detectCNIPlugin
                 detectIngressController.

(** The run of [collectTelemetryData] when the three fatal queries are
    answered and both detectors return. *)
Lemma collect_run (cs : Clientset) (w : World) (tr : list Event)
    (v : VersionInfo) (ns : Namespace) (nodes : NodeList)
    (r1 r2 : result string) (tr1 tr2 : list Event) :
  ServerVersion_at w (api_calls tr) = Ok v ->
  GetNamespace_at w (api_calls tr + 1) "kube-system" = Ok ns ->
  ListNodes_at w (api_calls tr + 2) = Ok nodes ->
  detectCNIPlugin cs w
    (tr ++ [EvApi CallServerVersion; EvApi (CallGetNamespace "kube-system");
            EvApi CallListNodes])%list = Returned r1 tr1 ->
  detectIngressController cs w
    (warned "Warning: Failed to detect CNI plugin: %v" r1 tr1) = Returned r2 tr2 ->
  collect cs w tr =
  Returned
    (Ok (collected v ns (Shared.census getSELinuxStatus (Items nodes))
           (or_unknown r1) (or_unknown r2)))
    (warned "Warning: Failed to detect ingress controller: %v" r2 tr2).
Proof.
  intros Hv Hns Hn H1 H2.
  unfold collect, Shared.collectTelemetryData. run_unfold.
  rewrite Hv, api_calls_snoc, Hns, !api_calls_snoc.
  replace (api_calls tr + 1 + 1)%nat with (api_calls tr + 2)%nat by lia.
  rewrite Hn, <- !app_assoc. simpl app. rewrite H1.
  destruct r1 as [cni|e1]; simpl in *; rewrite H2;
    destruct r2 as [ing|e2]; reflexivity.
Qed.

End CollectFacts.

(** ** Scanning a keyword table *)

Section ScanFacts.

Variable matches : string -> string -> Prop.
Variable test : string -> string -> bool.
Variable table : list (string * string).

(** On the keywords of the table the boolean rule decides [matches]. *)
Hypothesis test_spec :
  forall name keyword label,
    In (keyword, label) table -> (test name keyword = true <-> matches keyword name).

Lemma table_hit_spec (name : string) (t0 t : list (string * string)) :
  table = (t0 ++ t)%list ->
  match table_hit (test name) t with
  | Some label =>
      exists t1 keyword t2,
        t = (t1 ++ (keyword, label) :: t2)%list /\ matches keyword name /\
        no_hit matches t1 name
  | None => no_hit matches t name
  end.
Proof.
  revert t0. induction t as [|[kw lbl] t IH]; intros t0 Ht; simpl.
  - intros kw lbl [].
  - assert (In (kw, lbl) table) as Hin
      by (rewrite Ht; apply in_or_app; right; now left).
    destruct (test name kw) eqn:E.
    + exists [], kw, t. split; [reflexivity|]. split.
      * now apply (test_spec name kw lbl Hin).
      * intros k l [].
    + assert (~ matches kw name) as Hno.
      { intros Hm. apply (test_spec name kw lbl Hin) in Hm. congruence. }
      specialize (IH (t0 ++ [(kw, lbl)])%list).
      rewrite <- app_assoc in IH. specialize (IH Ht).
      destruct (table_hit (test name) t) as [label|].
      * destruct IH as [t1 [k [t2 [-> [Hm Hn]]]]].
        exists ((kw, lbl) :: t1), k, t2. split; [reflexivity|]. split; [exact Hm|].
        intros k' l' [[= <- <-]|Hin']; [exact Hno | now apply (Hn k' l')].
      * intros k' l' [[= <- <-]|Hin']; [exact Hno | now apply (IH k' l')].
Qed.

Lemma table_scan_detection (names : list string) (fallback : string) :
  detection matches table names fallback
    (default fallback (table_scan test table names)).
Proof.
  induction names as [|name names IH]; simpl.
  - right. split; [constructor | reflexivity].
  - pose proof (table_hit_spec name [] table eq_refl) as Hhit.
    destruct (table_hit (test name) table) as [label|]; simpl.
    + left. exists [], name, names. split; [reflexivity|]. split; [constructor|].
      exact Hhit.
    + destruct IH as [[n1 [nm [n2 [-> [Hn1 Hobj]]]]] | [Hall ->]].
      * left. exists (name :: n1), nm, n2. split; [reflexivity|].
        split; [now constructor | exact Hobj].
      * right. split; [now constructor|].
        now destruct (table_scan test table names).
Qed.

(** The scan finds nothing exactly when no name of the listing is matched
    by a keyword of the table. *)
Lemma table_scan_None (names : list string) :
  table_scan test table names = None <-> Forall (no_hit matches table) names.
Proof.
  induction names as [|name names IH]; simpl.
  - split; [constructor | reflexivity].
  - pose proof (table_hit_spec name [] table eq_refl) as Hhit.
    destruct (table_hit (test name) table) as [label|].
    + split; [discriminate|]. intros Hall. inversion Hall as [|? ? Hno _]; subst.
      destruct Hhit as [t1 [keyword [t2 [Ht [Hm _]]]]]. exfalso.
      apply (Hno keyword label); [|exact Hm].
      rewrite Ht. apply in_or_app. right. now left.
    + rewrite IH. split; [now constructor|].
      intros Hall. now inversion Hall.
Qed.

End ScanFacts.

(** The relation [detection] leaves no choice: it has one answer. *)
Section DetectionFunctional.

Variable matches : string -> string -> Prop.

Lemma object_hit_functional (table : list (string * string)) (name a b : string) :
  object_hit matches table name a -> object_hit matches table name b -> a = b.
Proof.
  intros [t1 [k [t2 [Ht [Hm Hn]]]]] [t1' [k' [t2' [Ht' [Hm' Hn']]]]].
  subst table. revert t1' Ht' Hn'.
  induction t1 as [|[k0 l0] t1 IH]; intros t1' Ht' Hn'.
  - destruct t1' as [|[k1 l1] t1']; simpl in Ht'.
    + congruence.
    + injection Ht' as E1 E2 E3. exfalso.
      apply (Hn' k1 l1 (or_introl eq_refl)). congruence.
  - destruct t1' as [|[k1 l1] t1']; simpl in Ht'.
    + injection Ht' as E1 E2 E3. exfalso.
      apply (Hn k0 l0 (or_introl eq_refl)). congruence.
    + injection Ht' as E1 E2 E3.
      apply (IH (fun k l H => Hn k l (or_intror H)) t1');
        [assumption | intros k2 l2 H; apply (Hn' k2 l2); now right].
Qed.

Lemma object_hit_not_no_hit (table : list (string * string)) (name a : string) :
  object_hit matches table name a -> ~ no_hit matches table name.
Proof.
  intros [t1 [k [t2 [-> [Hm _]]]]] Hno.
  apply (Hno k a); [apply in_or_app; right; now left | exact Hm].
Qed.

Lemma detection_functional (table : list (string * string)) (names : list string)
    (fallback a b : string) :
  detection matches table names fallback a ->
  detection matches table names fallback b -> a = b.
Proof.
  revert a b. induction names as [|name names IH]; intros a b Ha Hb.
  - destruct Ha as [[n1 [nm [n2 [Hn _]]]] | [_ ->]]; [now destruct n1|].
    destruct Hb as [[n1 [nm [n2 [Hn _]]]] | [_ ->]]; [now destruct n1 | reflexivity].
  - assert (forall x, detection matches table (name :: names) fallback x ->
                      (object_hit matches table name x) \/
                      (no_hit matches table name /\
                       detection matches table names fallback x)) as Hcase.
    { intros x [[n1 [nm [n2 [Hn [Hall Hobj]]]]] | [Hall ->]].
      - destruct n1 as [|n n1]; simpl in Hn; inversion Hn; subst.
        + now left.
        + right. inversion Hall; subst. split; [assumption|].
          left. now exists n1, nm, n2.
      - right. inversion Hall; subst. split; [assumption|]. now right. }
    destruct (Hcase a Ha) as [Ha'|[Hna Ha']], (Hcase b Hb) as [Hb'|[Hnb Hb']].
    + eapply object_hit_functional; eassumption.
    + now apply object_hit_not_no_hit in Ha'.
    + now apply object_hit_not_no_hit in Hb'.
    + now apply IH.
Qed.

End DetectionFunctional.

(** ** Case folding *)

Section ToLowerFacts.
Import Go.

Lemma ToLower_app (a b : string) : ToLower (a +:+ b) = ToLower a +:+ ToLower b.
Proof. induction a as [|c a IH]; simpl; [reflexivity | now rewrite IH]. Qed.

Lemma ToLower_app_inv (s a b : string) :
  ToLower s = a +:+ b ->
  exists s1 s2, s = s1 +:+ s2 /\ ToLower s1 = a /\ ToLower s2 = b.
Proof.
  revert s. induction a as [|c a IH]; intros s H; simpl in H.
  - now exists "", s.
  - destruct s as [|d s]; simpl in H; [discriminate|].
    injection H as Hc Hs. destruct (IH s Hs) as [s1 [s2 [-> [H1 H2]]]].
    exists (String d s1), s2. simpl. now rewrite Hc, H1.
Qed.

(** Searching a lower-case keyword in the lowered name is matching the
    keyword as a case-insensitive substring of the name. *)
Lemma Contains_ToLower (name keyword : string) :
  ToLower keyword = keyword ->
  Contains (ToLower name) keyword = true <-> matches_ci keyword name.
Proof.
  intros Hk. rewrite Contains_occurs. split.
  - intros [pre [post H]].
    apply ToLower_app_inv in H. destruct H as [s1 [s23 [-> [_ H]]]].
    apply ToLower_app_inv in H. destruct H as [s2 [s3 [-> [H2 _]]]].
    exists s1, s2, s3. split; [reflexivity|]. unfold eq_fold. now rewrite Hk.
  - intros [pre [mid [post [-> H]]]]. unfold eq_fold in H.
    exists (ToLower pre), (ToLower post).
    now rewrite !ToLower_app, H, Hk.
Qed.

End ToLowerFacts.

(** ** The detectors of [src/unnamed/part_001] *)

Section RetryDetectors.
Import Go.

Lemma Retry_cni_range_scan (names : list string) :
  Retry.cni_range names = table_scan lowered_test cni_table names.
Proof.
  induction names as [|name names IH]; simpl; [reflexivity|].
  rewrite IH. unfold Retry.cni_case, lowered_test.
  repeat (destruct (Contains (ToLower name) _); [reflexivity|]). reflexivity.
Qed.

Lemma Retry_ingress_range_scan (names : list string) :
  Retry.ingress_range names = table_scan lowered_test ingress_table names.
Proof.
  induction names as [|name names IH]; simpl; [reflexivity|].
  rewrite IH. unfold Retry.ingress_case, lowered_test.
  repeat (destruct (Contains (ToLower name) _); simpl; [reflexivity|]). reflexivity.
Qed.

Lemma lowered_test_spec (table : list (string * string)) :
  Forall (fun e => ToLower (fst e) = fst e) table ->
  forall name keyword label,
    In (keyword, label) table ->
    (lowered_test name keyword = true <-> matches_ci keyword name).
Proof.
  intros Hlow name keyword label Hin. apply Contains_ToLower.
  rewrite List.Forall_forall in Hlow. exact (Hlow _ Hin).
Qed.

Lemma cni_table_lower : Forall (fun e => ToLower (fst e) = fst e) cni_table.
Proof. repeat constructor. Qed.

Lemma ingress_table_lower : Forall (fun e => ToLower (fst e) = fst e) ingress_table.
Proof. repeat constructor. Qed.

Lemma Retry_detectCNIPlugin_run (cs : Clientset) (w : World) (tr : list Event) :
  Retry.detectCNIPlugin cs w tr =
  Returned (cni_answer Retry.cni_range (ListDaemonSets_at w (api_calls tr) "kube-system"))
           (tr ++ [EvApi (CallListDaemonSets "kube-system")]).
Proof.
  unfold Retry.detectCNIPlugin, cni_answer, ds_names. run_unfold.
  destruct (ListDaemonSets_at w (api_calls tr) "kube-system") as [dss|e]; [|reflexivity].
  now destruct (Retry.cni_range _).
Qed.

Lemma Retry_detectIngressController_run (cs : Clientset) (w : World) (tr : list Event) :
  Retry.detectIngressController cs w tr =
  Returned
    (ingress_answer Retry.ingress_range
       (ListDeployments_at w (api_calls tr) "kube-system")
       (ListDaemonSets_at w (api_calls tr + 1) "kube-system"))
    (tr ++ ingress_calls Retry.ingress_range
             (ListDeployments_at w (api_calls tr) "kube-system")).
Proof.
  unfold Retry.detectIngressController, ingress_answer, ingress_calls,
    ds_names, deploy_names. run_unfold.
  destruct (ListDeployments_at w (api_calls tr) "kube-system") as [deps|e]; [|reflexivity].
  destruct (Retry.ingress_range _); [reflexivity|].
  rewrite api_calls_snoc, <- app_assoc. simpl app.
  destruct (ListDaemonSets_at w (api_calls tr + 1) "kube-system") as [dss|e];
    [|reflexivity].
  now destruct (Retry.ingress_range _).
Qed.

End RetryDetectors.

(** ** The detectors of [src/main.go] *)

Section MainGoDetectors.
Import Go.

Lemma MainGo_cni_case_run (name : string) (w : World) (tr : list Event) :
  MainGo.cni_case name w tr = Returned (table_hit (bytewise_test name) cni_table) tr.
Proof.
  unfold MainGo.cni_case, bytewise_test. run_unfold. rewrite !contains_total. simpl.
  repeat (destruct (Contains name _); [reflexivity|]). reflexivity.
Qed.

Lemma MainGo_cni_range_run (names : list string) (w : World) (tr : list Event) :
  MainGo.cni_range names w tr = Returned (table_scan bytewise_test cni_table names) tr.
Proof.
  induction names as [|name names IH]; [reflexivity|].
  cbn [MainGo.cni_range table_scan]. unfold mbind, M_bind.
  rewrite MainGo_cni_case_run.
  destruct (table_hit (bytewise_test name) cni_table); [reflexivity | exact IH].
Qed.

Lemma MainGo_ingress_case_run (name : string) (w : World) (tr : list Event) :
  MainGo.ingress_case name w tr =
  Returned (table_hit (bytewise_test name) ingress_table) tr.
Proof.
  unfold MainGo.ingress_case, bytewise_test. run_unfold. rewrite !contains_total. simpl.
  repeat (destruct (Contains name _); [reflexivity|]). reflexivity.
Qed.

Lemma MainGo_ingress_range_run (names : list string) (w : World) (tr : list Event) :
  MainGo.ingress_range names w tr =
  Returned (table_scan bytewise_test ingress_table names) tr.
Proof.
  induction names as [|name names IH]; [reflexivity|].
  cbn [MainGo.ingress_range table_scan]. unfold mbind, M_bind.
  rewrite MainGo_ingress_case_run.
  destruct (table_hit (bytewise_test name) ingress_table); [reflexivity | exact IH].
Qed.

Lemma MainGo_detectCNIPlugin_run (cs : Clientset) (w : World) (tr : list Event) :
  MainGo.detectCNIPlugin cs w tr =
  Returned (cni_answer (table_scan bytewise_test cni_table)
              (ListDaemonSets_at w (api_calls tr) "kube-system"))
           (tr ++ [EvApi (CallListDaemonSets "kube-system")]).
Proof.
  unfold MainGo.detectCNIPlugin, cni_answer, ds_names. run_unfold.
  destruct (ListDaemonSets_at w (api_calls tr) "kube-system") as [dss|e]; [|reflexivity].
  rewrite MainGo_cni_range_run. now destruct (table_scan _ _ _).
Qed.

Lemma MainGo_detectIngressController_run (cs : Clientset) (w : World) (tr : list Event) :
  MainGo.detectIngressController cs w tr =
  Returned
    (ingress_answer (table_scan bytewise_test ingress_table)
       (ListDeployments_at w (api_calls tr) "kube-system")
       (ListDaemonSets_at w (api_calls tr + 1) "kube-system"))
    (tr ++ ingress_calls (table_scan bytewise_test ingress_table)
             (ListDeployments_at w (api_calls tr) "kube-system")).
Proof.
  unfold MainGo.detectIngressController, ingress_answer, ingress_calls,
    ds_names, deploy_names. run_unfold.
  destruct (ListDeployments_at w (api_calls tr) "kube-system") as [deps|e]; [|reflexivity].
  rewrite MainGo_ingress_range_run.
  destruct (table_scan _ _ _); [reflexivity|].
  rewrite api_calls_snoc, <- app_assoc. simpl app.
  destruct (ListDaemonSets_at w (api_calls tr + 1) "kube-system") as [dss|e];
    [|reflexivity].
  rewrite MainGo_ingress_range_run. now destruct (table_scan _ _ _).
Qed.

Lemma bytewise_test_spec (name keyword : string) :
  bytewise_test name keyword = true <-> occurs_in keyword name.
Proof. apply Contains_occurs. Qed.

End MainGoDetectors.

(** ** The node census *)

Lemma isControlPlaneNode_spec (node : Node) :
  isControlPlaneNode node = true <-> has_role_label node.
Proof.
  unfold isControlPlaneNode, has_role_label.
  destruct (Labels (NodeMeta node) !! "node-role.kubernetes.io/control-plane") as [v1|];
    destruct (Labels (NodeMeta node) !! "node-role.kubernetes.io/master") as [v2|];
    simpl; split; intros H; try reflexivity; try discriminate; eauto.
  destruct H as [[x Hx]|[x Hx]]; discriminate.
Qed.

Lemma incr_in_range (x : Z) : 0 <= x < Go.max_int -> Go.incr x = x + 1.
Proof.
  intros H. unfold Go.incr, Go.wrap, Go.max_int in *.
  rewrite Z.mod_small by lia. lia.
Qed.

Lemma filter_split_length (l : list Node) :
  (length (filter has_role_label l) +
   length (filter (fun n => ~ has_role_label n) l))%nat = length l.
Proof.
  induction l as [|n l IH]; [reflexivity|].
  rewrite !filter_cons. destruct (decide (has_role_label n)) as [H|H].
  - rewrite decide_False by tauto. simpl. lia.
  - rewrite decide_True by exact H. simpl. lia.
Qed.

Section CensusFacts.

Variable getSELinuxStatus : Node -> string.

Let step := Shared.census_step getSELinuxStatus.

Lemma census_counts (nodes : list Node) (c : Census) :
  0 <= serverNodeCount c -> 0 <= agentNodeCount c ->
  serverNodeCount c + agentNodeCount c + Z.of_nat (length nodes) <= Go.max_int ->
  serverNodeCount (fold_left step nodes c) =
    serverNodeCount c + Z.of_nat (length (filter has_role_label nodes)) /\
  agentNodeCount (fold_left step nodes c) =
    agentNodeCount c + Z.of_nat (length (filter (fun n => ~ has_role_label n) nodes)).
Proof.
  revert c. induction nodes as [|n nodes IH]; intros c Hs Ha Hsum.
  - simpl. split; lia.
  - cbn [fold_left]. rewrite !filter_cons.
    change (length (n :: nodes)) with (S (length nodes)) in Hsum.
    pose proof (isControlPlaneNode_spec n) as Hcp.
    assert (serverNodeCount (step c n) =
            serverNodeCount c + (if isControlPlaneNode n then 1 else 0)) as Hss.
    { unfold step, Shared.census_step. cbn [serverNodeCount].
      destruct (isControlPlaneNode n); [apply incr_in_range|]; lia. }
    assert (agentNodeCount (step c n) =
            agentNodeCount c + (if isControlPlaneNode n then 0 else 1)) as Hsa.
    { unfold step, Shared.census_step. cbn [agentNodeCount].
      destruct (isControlPlaneNode n); [|apply incr_in_range]; lia. }
    destruct (IH (step c n)) as [H1 H2].
    { rewrite Hss. destruct (isControlPlaneNode n); lia. }
    { rewrite Hsa. destruct (isControlPlaneNode n); lia. }
    { rewrite Hss, Hsa. destruct (isControlPlaneNode n); lia. }
    rewrite H1, H2, Hss, Hsa.
    destruct (isControlPlaneNode n).
    + assert (has_role_label n) as Hl by now apply Hcp.
      rewrite decide_True by exact Hl. rewrite decide_False by tauto.
      cbn [length]. split; lia.
    + assert (~ has_role_label n) as Hl by (intros Hl; apply Hcp in Hl; discriminate).
      rewrite decide_False by exact Hl. rewrite decide_True by exact Hl.
      cbn [length]. split; lia.
Qed.

(** The SELinux hint is the one of the first node, when the status
    function never answers the empty string. *)
Lemma census_selinux_kept (nodes : list Node) (c : Census) :
  selinuxInfo c <> "" -> selinuxInfo (fold_left step nodes c) = selinuxInfo c.
Proof.
  revert c. induction nodes as [|n nodes IH]; intros c Hc; [reflexivity|].
  cbn [fold_left].
  assert (selinuxInfo (step c n) = selinuxInfo c) as Hstep.
  { unfold step, Shared.census_step. cbn [selinuxInfo].
    destruct (String.eqb (selinuxInfo c) "") eqn:E; [|reflexivity].
    apply String.eqb_eq in E. contradiction. }
  rewrite IH; [exact Hstep | now rewrite Hstep].
Qed.

Lemma census_selinux_first (n : Node) (rest : list Node) :
  getSELinuxStatus n <> "" ->
  selinuxInfo (Shared.census getSELinuxStatus (n :: rest)) = getSELinuxStatus n.
Proof.
  intros Hne. unfold Shared.census. cbn [fold_left]. fold step.
  now rewrite census_selinux_kept.
Qed.

(** The OS image is the first one in listing order that is not empty. *)
Lemma census_os_from (nodes : list Node) (c : Census) :
  osInfo (fold_left step nodes c) =
  if String.eqb (osInfo c) ""
  then first_nonempty (map (fun n => OSImage (NodeInfo (Status n))) nodes)
  else osInfo c.
Proof.
  revert c. induction nodes as [|n nodes IH]; intros c.
  - simpl. destruct (String.eqb (osInfo c) "") eqn:E; [|reflexivity].
    now apply String.eqb_eq in E.
  - cbn [fold_left map first_nonempty]. rewrite IH.
    unfold step, Shared.census_step. cbn [osInfo].
    destruct (String.eqb (osInfo c) "") eqn:E; [|now rewrite E].
    now destruct (String.eqb (OSImage (NodeInfo (Status n))) "").
Qed.

Lemma census_os (nodes : list Node) :
  osInfo (Shared.census getSELinuxStatus nodes) =
  first_nonempty (map (fun n => OSImage (NodeInfo (Status n))) nodes).
Proof. unfold Shared.census. fold step. now rewrite census_os_from. Qed.

End CensusFacts.

(** ** Collection in the two revisions *)

Lemma api_calls_warned (format : string) (r : result string) (tr : list Event) :
  api_calls (warned format r tr) = api_calls tr.
Proof.
  destruct r; simpl; [reflexivity|]. rewrite api_calls_app.
  change (api_calls [EvLog format [AErr e]]) with 0%nat. lia.
Qed.

Lemma warned_app (format : string) (r : result string) (tr tr' : list Event) :
  warned format r (tr ++ tr') = (tr ++ warned format r tr')%list.
Proof. destruct r; simpl; [reflexivity | now rewrite app_assoc]. Qed.

Lemma warned_cons (format : string) (r : result string) (e : Event) (tr : list Event) :
  warned format r (e :: tr) = e :: warned format r tr.
Proof. now destruct r. Qed.

Section CollectTotal.

Variable getSELinuxStatus : Node -> string.
Variable detectCNIPlugin : Clientset -> M (result string).
Variable detectIngressController : Clientset -> M (result string).
Variables cni_scan ingress_scan : list string -> option string.

Hypothesis detectCNIPlugin_run : forall cs w tr,
  detectCNIPlugin cs w tr =
  Returned (cni_answer cni_scan (ListDaemonSets_at w (api_calls tr) "kube-system"))
           (tr ++ [EvApi (CallListDaemonSets "kube-system")]).

Hypothesis detectIngressController_run : forall cs w tr,
  detectIngressController cs w tr =
  Returned
    (ingress_answer ingress_scan
       (ListDeployments_at w (api_calls tr) "kube-system")
       (ListDaemonSets_at w (api_calls tr + 1) "kube-system"))
    (tr ++ ingress_calls ingress_scan
             (ListDeployments_at w (api_calls tr) "kube-system")).

(** When the three fatal queries are answered, collection returns a
    record, and this is the record. *)
Lemma collect_total (cs : Clientset) (w : World) (tr : list Event)
    (v : VersionInfo) (ns : Namespace) (nodes : NodeList) :
  ServerVersion_at w (api_calls tr) = Ok v ->
  GetNamespace_at w (api_calls tr + 1) "kube-system" = Ok ns ->
  ListNodes_at w (api_calls tr + 2) = Ok nodes ->
  exists evs,
    Shared.collectTelemetryData getSELinuxStatus detectCNIPlugin
      detectIngressController cs w tr =
    Returned
      (Ok (collected v ns (Shared.census getSELinuxStatus (Items nodes))
             (or_unknown
                (cni_answer cni_scan
                   (ListDaemonSets_at w (api_calls tr + 3) "kube-system")))
             (or_unknown
                (ingress_answer ingress_scan
                   (ListDeployments_at w (api_calls tr + 4) "kube-system")
                   (ListDaemonSets_at w (api_calls tr + 5) "kube-system")))))
      (tr ++ EvApi CallServerVersion :: evs).
Proof.
  intros Hv Hns Hn.
  set (tr3 := (tr ++ [EvApi CallServerVersion; EvApi (CallGetNamespace "kube-system");
                      EvApi CallListNodes])%list).
  assert (api_calls tr3 = (api_calls tr + 3)%nat) as H3
    by (unfold tr3; rewrite api_calls_app; reflexivity).
  pose proof (detectCNIPlugin_run cs w tr3) as H1. rewrite H3 in H1.
  set (r1 := cni_answer cni_scan _) in *.
  set (tr4 := warned "Warning: Failed to detect CNI plugin: %v" r1
                (tr3 ++ [EvApi (CallListDaemonSets "kube-system")])).
  assert (api_calls tr4 = (api_calls tr + 4)%nat) as H4.
  { unfold tr4. rewrite api_calls_warned, api_calls_snoc. lia. }
  pose proof (detectIngressController_run cs w tr4) as H2. rewrite H4 in H2.
  replace (api_calls tr + 4 + 1)%nat with (api_calls tr + 5)%nat in H2 by lia.
  set (r2 := ingress_answer ingress_scan _ _) in *.
  rewrite (collect_run _ _ _ cs w tr v ns nodes r1 r2 _ _ Hv Hns Hn H1 H2).
  eexists. f_equal.
  unfold tr4, tr3. rewrite <- !app_assoc, !warned_app, <- !app_assoc.
  reflexivity.
Qed.

(** Collection always returns, whatever the cluster answers, and its
    first effect is the version query. *)
Lemma collect_returns (cs : Clientset) (w : World) (tr : list Event) :
  exists r evs,
    Shared.collectTelemetryData getSELinuxStatus detectCNIPlugin
      detectIngressController cs w tr =
    Returned r (tr ++ EvApi CallServerVersion :: evs).
Proof.
  destruct (ServerVersion_at w (api_calls tr)) as [v|e] eqn:Hv.
  - destruct (GetNamespace_at w (api_calls tr + 1) "kube-system") as [ns|e] eqn:Hns.
    + destruct (ListNodes_at w (api_calls tr + 2)) as [nodes|e] eqn:Hn.
      * destruct (collect_total cs w tr v ns nodes Hv Hns Hn) as [evs H]. eauto.
      * exists (Err (Wrapf "failed to list nodes" e)),
          [EvApi (CallGetNamespace "kube-system"); EvApi CallListNodes].
        unfold Shared.collectTelemetryData. run_unfold.
        rewrite Hv, api_calls_snoc, Hns, !api_calls_snoc.
        replace (api_calls tr + 1 + 1)%nat with (api_calls tr + 2)%nat by lia.
        rewrite Hn, <- !app_assoc. reflexivity.
    + exists (Err (Wrapf "failed to get kube-system namespace" e)),
        [EvApi (CallGetNamespace "kube-system")].
      unfold Shared.collectTelemetryData. run_unfold.
      rewrite Hv, api_calls_snoc, Hns, <- !app_assoc. reflexivity.
  - exists (Err (Wrapf "failed to get server version" e)), [].
    unfold Shared.collectTelemetryData. run_unfold. now rewrite Hv.
Qed.

(** Collection fails exactly when one of the three fatal queries fails. *)
Lemma collect_fails_iff (cs : Clientset) (w : World) (tr : list Event) :
  (exists e tr', Shared.collectTelemetryData getSELinuxStatus detectCNIPlugin
                   detectIngressController cs w tr = Returned (Err e) tr') <->
  (is_ok (ServerVersion_at w (api_calls tr)) &&
   is_ok (GetNamespace_at w (api_calls tr + 1) "kube-system") &&
   is_ok (ListNodes_at w (api_calls tr + 2)) = false).
Proof.
  destruct (ServerVersion_at w (api_calls tr)) as [v|e] eqn:Hv.
  - destruct (GetNamespace_at w (api_calls tr + 1) "kube-system") as [ns|e] eqn:Hns.
    + destruct (ListNodes_at w (api_calls tr + 2)) as [nodes|e] eqn:Hn.
      * destruct (collect_total cs w tr v ns nodes Hv Hns Hn) as [evs H].
        rewrite H. simpl. split; [intros [e [tr' He]]; discriminate | discriminate].
      * simpl. split; [reflexivity | intros _].
        unfold Shared.collectTelemetryData. run_unfold.
        rewrite Hv, api_calls_snoc, Hns, !api_calls_snoc.
        replace (api_calls tr + 1 + 1)%nat with (api_calls tr + 2)%nat by lia.
        rewrite Hn. eauto.
    + simpl. split; [reflexivity | intros _].
      unfold Shared.collectTelemetryData. run_unfold.
      rewrite Hv, api_calls_snoc, Hns. eauto.
  - simpl. split; [reflexivity | intros _].
    unfold Shared.collectTelemetryData. run_unfold. rewrite Hv. eauto.
Qed.

End CollectTotal.

Section CollectInversion.

Variable getSELinuxStatus : Node -> string.
Variable detectCNIPlugin : Clientset -> M (result string).
Variable detectIngressController : Clientset -> M (result string).
Variables cni_scan ingress_scan : list string -> option string.

Hypothesis detectCNIPlugin_run : forall cs w tr,
  detectCNIPlugin cs w tr =
  Returned (cni_answer cni_scan (ListDaemonSets_at w (api_calls tr) "kube-system"))
           (tr ++ [EvApi (CallListDaemonSets "kube-system")]).

Hypothesis detectIngressController_run : forall cs w tr,
  detectIngressController cs w tr =
  Returned
    (ingress_answer ingress_scan
       (ListDeployments_at w (api_calls tr) "kube-system")
       (ListDaemonSets_at w (api_calls tr + 1) "kube-system"))
    (tr ++ ingress_calls ingress_scan
             (ListDeployments_at w (api_calls tr) "kube-system")).

(** A record comes out of collection only when the three fatal queries
    were answered, and it is built from their answers. *)
Lemma collect_inv (cs : Clientset) (w : World) (tr tr' : list Event)
    (data : TelemetryData) :
  Shared.collectTelemetryData getSELinuxStatus detectCNIPlugin
    detectIngressController cs w tr = Returned (Ok data) tr' ->
  exists v ns nodes cni ingress,
    ServerVersion_at w (api_calls tr) = Ok v /\
    GetNamespace_at w (api_calls tr + 1) "kube-system" = Ok ns /\
    ListNodes_at w (api_calls tr + 2) = Ok nodes /\
    data = collected v ns (Shared.census getSELinuxStatus (Items nodes)) cni ingress.
Proof.
  intros Hrun.
  destruct (ServerVersion_at w (api_calls tr)) as [v|e] eqn:Hv;
    [destruct (GetNamespace_at w (api_calls tr + 1) "kube-system") as [ns|e] eqn:Hns;
     [destruct (ListNodes_at w (api_calls tr + 2)) as [nodes|e] eqn:Hn|]|].
  - destruct (collect_total getSELinuxStatus _ _ _ _ detectCNIPlugin_run
                detectIngressController_run cs w tr v ns nodes Hv Hns Hn) as [evs H].
    rewrite H in Hrun. injection Hrun as <- _. eauto 10.
  - assert (is_ok (ServerVersion_at w (api_calls tr)) &&
            is_ok (GetNamespace_at w (api_calls tr + 1) "kube-system") &&
            is_ok (ListNodes_at w (api_calls tr + 2)) = false) as Hf
      by now rewrite Hv, Hns, Hn.
    apply (collect_fails_iff getSELinuxStatus _ _ _ _ detectCNIPlugin_run
             detectIngressController_run cs) in Hf.
    destruct Hf as [e' [tr'' Hf]]. congruence.
  - assert (is_ok (ServerVersion_at w (api_calls tr)) &&
            is_ok (GetNamespace_at w (api_calls tr + 1) "kube-system") &&
            is_ok (ListNodes_at w (api_calls tr + 2)) = false) as Hf
      by now rewrite Hv, Hns.
    apply (collect_fails_iff getSELinuxStatus _ _ _ _ detectCNIPlugin_run
             detectIngressController_run cs) in Hf.
    destruct Hf as [e' [tr'' Hf]]. congruence.
  - assert (is_ok (ServerVersion_at w (api_calls tr)) &&
            is_ok (GetNamespace_at w (api_calls tr + 1) "kube-system") &&
            is_ok (ListNodes_at w (api_calls tr + 2)) = false) as Hf
      by now rewrite Hv.
    apply (collect_fails_iff getSELinuxStatus _ _ _ _ detectCNIPlugin_run
             detectIngressController_run cs) in Hf.
    destruct Hf as [e' [tr'' Hf]]. congruence.
Qed.

End CollectInversion.

(** ** The record *)

Ltac lookup_collected :=
  unfold collected; cbn [ExtraFieldInfo ExtraTagInfo AppVersion];
  repeat (rewrite lookup_insert_ne by discriminate);
  rewrite lookup_insert_eq; reflexivity.

Lemma collected_tag_keys v ns c cni ingress :
  dom (ExtraTagInfo (collected v ns c cni ingress)) =
  ({["kubernetesVersion"; "clusteruuid"]} : gset string).
Proof.
  unfold collected. cbn [ExtraTagInfo]. rewrite !dom_insert_L, dom_empty_L. set_solver.
Qed.

Lemma collected_field_keys v ns c cni ingress :
  dom (ExtraFieldInfo (collected v ns c cni ingress)) =
  ({["serverNodeCount"; "agentNodeCount"; "os"; "selinux"; "cni-plugin";
     "ingress-controller"]} : gset string).
Proof.
  unfold collected. cbn [ExtraFieldInfo]. rewrite !dom_insert_L, dom_empty_L. set_solver.
Qed.

Lemma census_counts_listing (getSELinuxStatus : Node -> string) (nodes : NodeList) :
  serverNodeCount (Shared.census getSELinuxStatus (Items nodes)) =
    Z.of_nat (length (filter has_role_label (Items nodes))) /\
  agentNodeCount (Shared.census getSELinuxStatus (Items nodes)) =
    Z.of_nat (length (filter (fun n => ~ has_role_label n) (Items nodes))).
Proof.
  pose proof (Items_len nodes) as Hlen. apply Z.leb_le in Hlen.
  destruct (census_counts getSELinuxStatus (Items nodes) census_init) as [H1 H2];
    cbn [census_init serverNodeCount agentNodeCount]; try lia.
  unfold Shared.census. rewrite H1, H2. cbn [census_init serverNodeCount agentNodeCount].
  split; lia.
Qed.

(** C1. In both revisions: a node counts as control-plane exactly when
    one of the two role label keys is present, whatever the value; and
    when the three fatal queries are answered, collection returns a record
    whose [serverNodeCount] is the number of listed nodes that carry such
    a label, whose [agentNodeCount] is the number of the others, and the
    two add up to the number of nodes listed. *)
Theorem node_census_reported (cs : Clientset) (w : World) (tr : list Event)
    (v : VersionInfo) (ns : Namespace) (nodes : NodeList) :
  ServerVersion_at w (api_calls tr) = Ok v ->
  GetNamespace_at w (api_calls tr + 1) "kube-system" = Ok ns ->
  ListNodes_at w (api_calls tr + 2) = Ok nodes ->
  let servers := Z.of_nat (length (filter has_role_label (Items nodes))) in
  let agents := Z.of_nat (length (filter (fun n => ~ has_role_label n) (Items nodes))) in
  (forall node, isControlPlaneNode node = true <-> has_role_label node) /\
  servers + agents = Z.of_nat (length (Items nodes)) /\
  (exists data tr',
     MainGo.collectTelemetryData cs w tr = Returned (Ok data) tr' /\
     ExtraFieldInfo data !! "serverNodeCount" = Some (VInt servers) /\
     ExtraFieldInfo data !! "agentNodeCount" = Some (VInt agents)) /\
  (exists data tr',
     Retry.collectTelemetryData cs w tr = Returned (Ok data) tr' /\
     ExtraFieldInfo data !! "serverNodeCount" = Some (VInt servers) /\
     ExtraFieldInfo data !! "agentNodeCount" = Some (VInt agents)).
Proof.
  intros Hv Hns Hn servers agents.
  split; [exact isControlPlaneNode_spec|].
  split; [unfold servers, agents; rewrite <- (filter_split_length (Items nodes)); lia|].
  split.
  - destruct (collect_total MainGo.getSELinuxStatus _ _ _ _ MainGo_detectCNIPlugin_run
                MainGo_detectIngressController_run cs w tr v ns nodes Hv Hns Hn)
      as [evs H].
    destruct (census_counts_listing MainGo.getSELinuxStatus nodes) as [Hs Ha].
    eexists _, _. split; [exact H|]. unfold servers, agents. rewrite <- Hs, <- Ha.
    split; lookup_collected.
  - destruct (collect_total Retry.getSELinuxStatus _ _ _ _ Retry_detectCNIPlugin_run
                Retry_detectIngressController_run cs w tr v ns nodes Hv Hns Hn)
      as [evs H].
    destruct (census_counts_listing Retry.getSELinuxStatus nodes) as [Hs Ha].
    eexists _, _. split; [exact H|]. unfold servers, agents. rewrite <- Hs, <- Ha.
    split; lookup_collected.
Qed.

(** In the sample cluster of one server and one agent both revisions
    report one of each. *)
Lemma node_census_reported_witness :
  ServerVersion_at Sample.healthy 0 = Ok {| GitVersion := "v1.28.3+rke2r1" |} /\
  ListNodes_at Sample.healthy 2 = Ok Sample.two_nodes /\
  (exists data tr',
     Retry.collectTelemetryData Sample.clientset Sample.healthy [] =
       Returned (Ok data) tr' /\
     ExtraFieldInfo data !! "serverNodeCount" = Some (VInt 1) /\
     ExtraFieldInfo data !! "agentNodeCount" = Some (VInt 1)).
Proof.
  split; [reflexivity|]. split; [reflexivity|].
  exact (proj2 (proj2 (proj2
    (node_census_reported Sample.clientset Sample.healthy [] _ _ Sample.two_nodes
       eq_refl eq_refl eq_refl)))).
Defined.

(** C8. In both revisions every record that collection returns has
    exactly the tag keys [kubernetesVersion] and [clusteruuid] and exactly
    the six field keys; the two key sets share no key; the two counts are
    integers that are not negative, and the four other fields are strings
    (the sentinels among them). *)
Theorem record_schema (cs : Clientset) (w : World) (tr tr' : list Event)
    (data : TelemetryData) :
  MainGo.collectTelemetryData cs w tr = Returned (Ok data) tr' \/
  Retry.collectTelemetryData cs w tr = Returned (Ok data) tr' ->
  dom (ExtraTagInfo data) = ({["kubernetesVersion"; "clusteruuid"]} : gset string) /\
  dom (ExtraFieldInfo data) =
    ({["serverNodeCount"; "agentNodeCount"; "os"; "selinux"; "cni-plugin";
       "ingress-controller"]} : gset string) /\
  dom (ExtraTagInfo data) ## dom (ExtraFieldInfo data) /\
  (exists servers agents,
     ExtraFieldInfo data !! "serverNodeCount" = Some (VInt servers) /\ 0 <= servers /\
     ExtraFieldInfo data !! "agentNodeCount" = Some (VInt agents) /\ 0 <= agents) /\
  (exists os selinux cni ingress,
     ExtraFieldInfo data !! "os" = Some (VString os) /\
     ExtraFieldInfo data !! "selinux" = Some (VString selinux) /\
     ExtraFieldInfo data !! "cni-plugin" = Some (VString cni) /\
     ExtraFieldInfo data !! "ingress-controller" = Some (VString ingress)).
Proof.
  intros Hrun.
  assert (exists getSEL v ns nodes cni ingress,
            data = collected v ns (Shared.census getSEL (Items nodes)) cni ingress)
    as [getSEL [v [ns [nodes [cni [ingress ->]]]]]].
  { destruct Hrun as [Hrun|Hrun].
    - apply (collect_inv MainGo.getSELinuxStatus _ _ _ _ MainGo_detectCNIPlugin_run
               MainGo_detectIngressController_run) in Hrun.
      destruct Hrun as [v [ns [nodes [cni [ing [_ [_ [_ ->]]]]]]]]. eauto 10.
    - apply (collect_inv Retry.getSELinuxStatus _ _ _ _ Retry_detectCNIPlugin_run
               Retry_detectIngressController_run) in Hrun.
      destruct Hrun as [v [ns [nodes [cni [ing [_ [_ [_ ->]]]]]]]]. eauto 10. }
  rewrite collected_tag_keys, collected_field_keys.
  split; [reflexivity|]. split; [reflexivity|].
  split.
  { apply elem_of_disjoint. intros x Hx Hy.
    repeat rewrite ?elem_of_union, ?elem_of_singleton in Hx.
    repeat rewrite ?elem_of_union, ?elem_of_singleton in Hy.
    intuition congruence. }
  destruct (census_counts_listing getSEL nodes) as [Hs Ha].
  split.
  - eexists _, _. split; [lookup_collected|]. split; [rewrite Hs; lia|].
    split; [lookup_collected|]. rewrite Ha; lia.
  - eexists _, _, _, _. repeat split; lookup_collected.
Qed.

Lemma record_schema_witness :
  exists data tr',
    Retry.collectTelemetryData Sample.clientset Sample.healthy [] =
      Returned (Ok data) tr' /\
    dom (ExtraTagInfo data) ## dom (ExtraFieldInfo data) /\
    ExtraFieldInfo data !! "cni-plugin" = Some (VString "canal").
Proof.
  eexists _, _. split; [vm_compute; reflexivity|].
  split.
  - eapply (record_schema Sample.clientset Sample.healthy []). right.
    vm_compute. reflexivity.
  - vm_compute. reflexivity.
Defined.

(** ** SELinux status *)

(** [src/unnamed/part_001]: the status is read off the label alone. *)
Lemma Retry_getSELinuxStatus_spec (node : Node) :
  let label := Labels (NodeMeta node) !! "security.alpha.kubernetes.io/selinux" in
  (label = Some "enabled" -> Retry.getSELinuxStatus node = "enabled") /\
  (forall v, label = Some v -> v <> "enabled" -> Retry.getSELinuxStatus node = "disabled") /\
  (label = None -> Retry.getSELinuxStatus node = "unknown").
Proof.
  unfold Retry.getSELinuxStatus.
  destruct (Labels (NodeMeta node) !! "security.alpha.kubernetes.io/selinux") as [v|];
    cbn zeta.
  - split; [now intros [= ->]|]. split; [|discriminate].
    intros v' [= ->] Hne. destruct (String.eqb v' "enabled") eqn:E; [|reflexivity].
    apply String.eqb_eq in E. contradiction.
  - split; [discriminate|]. split; [discriminate | reflexivity].
Qed.

(** [src/main.go]: unless the label says [enabled], the answer depends on
    the kernel version and on nothing else. *)
Lemma MainGo_getSELinuxStatus_spec (node : Node) :
  let label := Labels (NodeMeta node) !! "security.alpha.kubernetes.io/selinux" in
  let kernel := KernelVersion (NodeInfo (Status node)) in
  (label = Some "enabled" -> MainGo.getSELinuxStatus node = "enabled") /\
  (label <> Some "enabled" -> kernel <> "" -> MainGo.getSELinuxStatus node = "unknown") /\
  (label <> Some "enabled" -> kernel = "" -> MainGo.getSELinuxStatus node = "disabled").
Proof.
  unfold MainGo.getSELinuxStatus. cbn zeta.
  destruct (Labels (NodeMeta node) !! "security.alpha.kubernetes.io/selinux") as [v|].
  - destruct (String.eqb v "enabled") eqn:E.
    + apply String.eqb_eq in E. subst. repeat split; congruence.
    + split; [intros [= ->]; discriminate|].
      split; intros _ Hk.
      * destruct (String.eqb (KernelVersion _) "") eqn:Ek; [|reflexivity].
        apply String.eqb_eq in Ek. contradiction.
      * now rewrite Hk.
  - split; [discriminate|]. split; intros _ Hk.
    + destruct (String.eqb (KernelVersion _) "") eqn:Ek; [|reflexivity].
      apply String.eqb_eq in Ek. contradiction.
    + now rewrite Hk.
Qed.

(** C2, at the failing inputs.  On a node labelled
    [security.alpha.kubernetes.io/selinux=disabled] with a kernel version,
    [src/main.go] answers [unknown] where [src/unnamed/part_001] answers
    [disabled]; on a node without the label and without a kernel version
    [src/main.go] answers [disabled] where [src/unnamed/part_001] answers
    [unknown]. *)
Theorem MainGo_selinux_not_from_label :
  Labels (NodeMeta Sample.permissive) !! "security.alpha.kubernetes.io/selinux"
    = Some "disabled" /\
  MainGo.getSELinuxStatus Sample.permissive = "unknown" /\
  Retry.getSELinuxStatus Sample.permissive = "disabled" /\
  Labels (NodeMeta Sample.fresh) !! "security.alpha.kubernetes.io/selinux" = None /\
  MainGo.getSELinuxStatus Sample.fresh = "disabled" /\
  Retry.getSELinuxStatus Sample.fresh = "unknown".
Proof. repeat split; vm_compute; reflexivity. Qed.

(** Neither revision ever answers the empty string. *)
Lemma Retry_getSELinuxStatus_nonempty (node : Node) : Retry.getSELinuxStatus node <> "".
Proof.
  unfold Retry.getSELinuxStatus.
  destruct (_ !! _) as [v|]; [destruct (String.eqb v "enabled")|]; discriminate.
Qed.

Lemma MainGo_getSELinuxStatus_nonempty (node : Node) : MainGo.getSELinuxStatus node <> "".
Proof.
  unfold MainGo.getSELinuxStatus.
  destruct (match _ !! _ with Some _ => _ | None => _ end); [discriminate|].
  destruct (negb _); discriminate.
Qed.

(** ** Detection *)

Lemma table_scan_app (test : string -> string -> bool) (table : list (string * string))
    (a b : list string) :
  table_scan test table (a ++ b) =
  match table_scan test table a with
  | Some label => Some label
  | None => table_scan test table b
  end.
Proof.
  induction a as [|name a IH]; [reflexivity|]. simpl.
  destruct (table_hit (test name) table); [reflexivity | exact IH].
Qed.

Section DetectorAnswers.

Variable matches : string -> string -> Prop.
Variable test : string -> string -> bool.

Lemma cni_answer_detection (dss : list DaemonSet) :
  (forall name keyword label,
     In (keyword, label) cni_table -> (test name keyword = true <-> matches keyword name)) ->
  exists answer,
    cni_answer (table_scan test cni_table) (Ok dss) = Ok answer /\
    detection matches cni_table (ds_names dss) "unknown" answer.
Proof.
  intros Hspec. eexists. split; [reflexivity|].
  now apply table_scan_detection.
Qed.

Lemma ingress_answer_detection (deps : list Deployment) (dss : list DaemonSet) :
  (forall name keyword label,
     In (keyword, label) ingress_table ->
     (test name keyword = true <-> matches keyword name)) ->
  exists answer,
    ingress_answer (table_scan test ingress_table) (Ok deps) (Ok dss) = Ok answer /\
    detection matches ingress_table (deploy_names deps ++ ds_names dss) "none" answer.
Proof.
  intros Hspec.
  pose proof (table_scan_detection matches test ingress_table Hspec
                (deploy_names deps ++ ds_names dss) "none") as Hdet.
  rewrite table_scan_app in Hdet. unfold ingress_answer.
  destruct (table_scan test ingress_table (deploy_names deps)) as [label|];
    eexists; (split; [reflexivity | exact Hdet]).
Qed.

End DetectorAnswers.

(** The runs of the detectors, for either revision. *)
Lemma detectCNIPlugin_of_run (rev : Revision) (cs : Clientset) (w : World)
    (tr : list Event) :
  detectCNIPlugin_of rev cs w tr =
  Returned (cni_answer (cni_scan_of rev) (ListDaemonSets_at w (api_calls tr) "kube-system"))
           (tr ++ [EvApi (CallListDaemonSets "kube-system")]).
Proof.
  destruct rev; cbn [detectCNIPlugin_of cni_scan_of].
  - apply MainGo_detectCNIPlugin_run.
  - rewrite Retry_detectCNIPlugin_run. unfold cni_answer.
    destruct (ListDaemonSets_at w (api_calls tr) "kube-system"); [|reflexivity].
    now rewrite Retry_cni_range_scan.
Qed.

Lemma detectIngressController_of_run (rev : Revision) (cs : Clientset) (w : World)
    (tr : list Event) :
  detectIngressController_of rev cs w tr =
  Returned
    (ingress_answer (ingress_scan_of rev)
       (ListDeployments_at w (api_calls tr) "kube-system")
       (ListDaemonSets_at w (api_calls tr + 1) "kube-system"))
    (tr ++ ingress_calls (ingress_scan_of rev)
             (ListDeployments_at w (api_calls tr) "kube-system")).
Proof.
  destruct rev; cbn [detectIngressController_of ingress_scan_of].
  - apply MainGo_detectIngressController_run.
  - rewrite Retry_detectIngressController_run. unfold ingress_answer, ingress_calls.
    destruct (ListDeployments_at w (api_calls tr) "kube-system"); [|reflexivity].
    rewrite !Retry_ingress_range_scan.
    destruct (table_scan lowered_test ingress_table _); [reflexivity|].
    destruct (ListDaemonSets_at w (api_calls tr + 1) "kube-system"); [|reflexivity].
    now rewrite Retry_ingress_range_scan.
Qed.

Lemma table_hit_ext (test test' : string -> bool) (table : list (string * string)) :
  (forall keyword, test keyword = test' keyword) ->
  table_hit test table = table_hit test' table.
Proof.
  intros H. induction table as [|[k l] table IH]; [reflexivity|].
  simpl. now rewrite H, IH.
Qed.

Lemma table_scan_ext (test test' : string -> string -> bool)
    (table : list (string * string)) (names : list string) :
  Forall (fun name => forall keyword, test name keyword = test' name keyword) names ->
  table_scan test table names = table_scan test' table names.
Proof.
  induction 1 as [|name names Hname _ IH]; [reflexivity|]. simpl.
  now rewrite IH, (table_hit_ext _ _ table Hname).
Qed.

Lemma scans_agree_on_lower_case (table : list (string * string)) (names : list string) :
  Forall is_lower names ->
  table_scan bytewise_test table names = table_scan lowered_test table names.
Proof.
  intros H. apply table_scan_ext. eapply Forall_impl; [exact H|].
  intros name Hl keyword. unfold lowered_test, bytewise_test. now rewrite Hl.
Qed.

(** X21. [src/unnamed/part_001] detects as the keyword tables say: matching
    is case-insensitive substring matching, the first object in listing
    order with a matching keyword decides, by its first matching keyword
    in table order, and without a match the answers are [unknown] and
    [none].  For ingress the Deployments are scanned before the
    DaemonSets. *)
Theorem Retry_detection_case_insensitive (cs : Clientset) (w : World) (tr : list Event) :
  (forall dss,
     ListDaemonSets_at w (api_calls tr) "kube-system" = Ok dss ->
     exists answer tr',
       Retry.detectCNIPlugin cs w tr = Returned (Ok answer) tr' /\
       detection matches_ci cni_table (ds_names dss) "unknown" answer) /\
  (forall deps dss,
     ListDeployments_at w (api_calls tr) "kube-system" = Ok deps ->
     ListDaemonSets_at w (api_calls tr + 1) "kube-system" = Ok dss ->
     exists answer tr',
       Retry.detectIngressController cs w tr = Returned (Ok answer) tr' /\
       detection matches_ci ingress_table (deploy_names deps ++ ds_names dss)
         "none" answer).
Proof.
  split.
  - intros dss Hds. rewrite Retry_detectCNIPlugin_run, Hds.
    destruct (cni_answer_detection matches_ci lowered_test dss
                (lowered_test_spec cni_table cni_table_lower)) as [answer [Ha Hd]].
    exists answer. eexists. split; [|exact Hd].
    rewrite <- Ha. unfold cni_answer. f_equal. f_equal. f_equal.
    apply Retry_cni_range_scan.
  - intros deps dss Hdep Hds. rewrite Retry_detectIngressController_run, Hdep, Hds.
    destruct (ingress_answer_detection matches_ci lowered_test deps dss
                (lowered_test_spec ingress_table ingress_table_lower))
      as [answer [Ha Hd]].
    exists answer. eexists. split; [|exact Hd].
    rewrite <- Ha. unfold ingress_answer. rewrite !Retry_ingress_range_scan.
    reflexivity.
Qed.

(** X22. [src/main.go] runs the same scan of the same tables, but a
    keyword matches a name only as a substring compared byte for byte. *)
Theorem MainGo_detection_case_sensitive (cs : Clientset) (w : World) (tr : list Event) :
  (forall dss,
     ListDaemonSets_at w (api_calls tr) "kube-system" = Ok dss ->
     exists answer tr',
       MainGo.detectCNIPlugin cs w tr = Returned (Ok answer) tr' /\
       detection occurs_in cni_table (ds_names dss) "unknown" answer) /\
  (forall deps dss,
     ListDeployments_at w (api_calls tr) "kube-system" = Ok deps ->
     ListDaemonSets_at w (api_calls tr + 1) "kube-system" = Ok dss ->
     exists answer tr',
       MainGo.detectIngressController cs w tr = Returned (Ok answer) tr' /\
       detection occurs_in ingress_table (deploy_names deps ++ ds_names dss)
         "none" answer).
Proof.
  split.
  - intros dss Hds. rewrite MainGo_detectCNIPlugin_run, Hds.
    destruct (cni_answer_detection occurs_in bytewise_test dss
                (fun n k _ _ => bytewise_test_spec n k)) as [answer [Ha Hd]].
    exists answer. eexists. split; [|exact Hd]. now rewrite <- Ha.
  - intros deps dss Hdep Hds. rewrite MainGo_detectIngressController_run, Hdep, Hds.
    destruct (ingress_answer_detection occurs_in bytewise_test deps dss
                (fun n k _ _ => bytewise_test_spec n k)) as [answer [Ha Hd]].
    exists answer. eexists. split; [|exact Hd]. now rewrite <- Ha.
Qed.



(** The hypothesis on the names is needed for [src/main.go].  Were a
    DaemonSet named [Canal] and a Deployment [Traefik], names that match the
    keywords [canal] and [traefik] as case-insensitive substrings,
    [src/unnamed/part_001] would detect them and [src/main.go] would answer
    [unknown] and [none]. *)
Theorem MainGo_detection_misses_capitals :
  let answer_of (run : Run (result string)) :=
    match run with Returned r _ => Some r | _ => None end in
  ListDaemonSets_at Sample.capitalised 0 "kube-system" = Ok [Sample.daemonSet "Canal"] /\
  ListDeployments_at Sample.capitalised 0 "kube-system" = Ok [Sample.deployment "Traefik"] /\
  matches_ci "canal" "Canal" /\
  matches_ci "traefik" "Traefik" /\
  answer_of (MainGo.detectCNIPlugin Sample.clientset Sample.capitalised [])
    = Some (Ok "unknown") /\
  answer_of (MainGo.detectIngressController Sample.clientset Sample.capitalised [])
    = Some (Ok "none") /\
  answer_of (Retry.detectCNIPlugin Sample.clientset Sample.capitalised [])
    = Some (Ok "canal") /\
  answer_of (Retry.detectIngressController Sample.clientset Sample.capitalised [])
    = Some (Ok "traefik").
Proof.
  cbn zeta. split; [reflexivity|]. split; [reflexivity|].
  split; [now exists "", "Canal", ""|]. split; [now exists "", "Traefik", ""|].
  repeat split; vm_compute; reflexivity.
Qed.

(** ** Delivery *)

Lemma http_calls_snoc (tr : list Event) (timeout : Z) (req : Request) :
  http_calls (tr ++ [EvHttpDo timeout req]) = (http_calls tr + 1)%nat.
Proof. now rewrite http_calls_app. Qed.

(** Count the requests in the part of a trace that is written out. *)
Ltac count_http :=
  rewrite ?http_calls_app;
  repeat match goal with
         | |- context [http_calls ?l] =>
             let v := eval vm_compute in (http_calls l) in
             match v with
             | O => change (http_calls l) with 0%nat
             | S _ => change (http_calls l) with v
             end
         end.

Section RetryLoop.
Import Go Retry.

Variables (w : World) (client : Client) (endpoint jsonData : string).
Hypothesis url_ok : url_Parse_error w endpoint = None.

Let req := post_request endpoint jsonData.

Lemma send_loop_step (fuel : nat) (attempt : Z) (lastErr : option error)
    (tr : list Event) :
  attempt <= maxRetries ->
  send_loop (S fuel) client endpoint jsonData attempt lastErr w tr =
  match attempt_error (Do_at w (http_calls tr) req) with
  | None =>
      Returned None
        (tr ++ backoff_events attempt ++
         [EvHttpDo (Timeout client) req;
          EvLog "Telemetry data sent successfully on attempt %d" [AInt attempt]])%list
  | Some err =>
      send_loop fuel client endpoint jsonData (incr attempt) (Some err) w
        (tr ++ backoff_events attempt ++
         [EvHttpDo (Timeout client) req;
          EvLog "Attempt %d failed: %v" [AInt attempt; AErr err]])%list
  end.
Proof.
  intros Hle. cbn [send_loop].
  destruct (attempt <=? maxRetries) eqn:E; [|apply Z.leb_gt in E; lia].
  run_unfold. rewrite url_ok. unfold backoff_events, attempt_error.
  fold req. change (Header_Set _ _ _) with req.
  destruct (attempt >? 1).
  - rewrite !http_calls_app. change (http_calls [_]) with 0%nat.
    rewrite !Nat.add_0_r, <- !app_assoc. simpl app.
    destruct (Do_at w (http_calls tr) req) as [resp|err].
    + destruct ((StatusCode resp <? 200) || (StatusCode resp >=? 300));
        rewrite <- ?app_assoc; reflexivity.
    + rewrite <- ?app_assoc. reflexivity.
  - rewrite app_nil_l.
    destruct (Do_at w (http_calls tr) req) as [resp|err].
    + destruct ((StatusCode resp <? 200) || (StatusCode resp >=? 300));
        rewrite <- ?app_assoc; reflexivity.
    + rewrite <- ?app_assoc. reflexivity.
Qed.

Lemma send_loop_exit (fuel : nat) (attempt : Z) (lastErr : option error)
    (tr : list Event) :
  maxRetries < attempt ->
  send_loop fuel client endpoint jsonData attempt lastErr w tr = Returned lastErr tr.
Proof.
  intros Hgt. destruct fuel; cbn [send_loop];
    (destruct (attempt <=? maxRetries) eqn:E; [apply Z.leb_le in E; lia | reflexivity]).
Qed.

End RetryLoop.

(** [src/unnamed/part_001] delivers with bounded retry.  When the record
    serialises and the endpoint parses, [n] attempts are made, between 1
    and [maxRetries] = 3; attempt [k > 1] is preceded by a sleep of
    [(k-1) * retryDelay]; every attempt before the last one failed; the
    result is that of the last attempt: success ([nil]) or the error it
    left behind; and fewer than 3 attempts are made only on success. *)
Theorem Retry_send_bounded_retry (data : TelemetryData) (endpoint : string)
    (w : World) (tr : list Event) (jsonData : string) :
  Marshal_result w data = Ok jsonData ->
  url_Parse_error w endpoint = None ->
  let req := post_request endpoint jsonData in
  let outcome (k : nat) := attempt_error (Do_at w (http_calls tr + (k - 1)) req) in
  exists res evs n,
    Retry.sendTelemetryData data endpoint w tr = Returned res (tr ++ evs) /\
    (1 <= n <= Z.to_nat Retry.maxRetries)%nat /\
    List.filter is_http_or_sleep evs = schedule Retry.retryDelay defaultTimeout req n /\
    (forall k, (1 <= k < n)%nat -> outcome k <> None) /\
    res = outcome n /\
    ((n < Z.to_nat Retry.maxRetries)%nat -> res = None).
Proof.
  intros Hm Hu req outcome.
  unfold Retry.sendTelemetryData. run_unfold. rewrite Hm.
  change (Z.to_nat Retry.maxRetries) with 3%nat.
  set (tr0 := (tr ++ [EvLog "Sending telemetry data to %s" [AStr endpoint]])%list).
  assert (http_calls tr0 = http_calls tr) as H0.
  { unfold tr0. rewrite http_calls_app. change (http_calls [_]) with 0%nat. lia. }
  rewrite (send_loop_step w _ endpoint jsonData Hu) by (unfold Retry.maxRetries; lia).
  rewrite H0. fold req.
  destruct (attempt_error (Do_at w (http_calls tr) req)) as [e1|] eqn:E1.
  2:{ exists None. eexists. exists 1%nat. unfold tr0. rewrite <- app_assoc.
      split; [reflexivity|]. split; [lia|]. split; [reflexivity|].
      split; [intros k Hk; lia|]. split; [|reflexivity].
      unfold outcome. now rewrite Nat.add_0_r, E1. }
  change (Go.incr 1) with 2.
  rewrite (send_loop_step w _ endpoint jsonData Hu) by (unfold Retry.maxRetries; lia).
  fold req.
  match goal with |- context [Do_at w ?n req] =>
    replace n with (http_calls tr + 1)%nat
      by (rewrite !http_calls_app, H0; count_http; lia) end.
  destruct (attempt_error (Do_at w (http_calls tr + 1) req)) as [e2|] eqn:E2.
  2:{ exists None. eexists. exists 2%nat. unfold tr0. rewrite <- !app_assoc.
      split; [reflexivity|]. split; [lia|]. split; [reflexivity|].
      split; [|split; [|reflexivity]].
      - intros k Hk. assert (k = 1%nat) as -> by lia.
        unfold outcome. simpl. rewrite Nat.add_0_r, E1. discriminate.
      - unfold outcome. simpl. now rewrite E2. }
  change (Go.incr 2) with 3.
  rewrite (send_loop_step w _ endpoint jsonData Hu) by (unfold Retry.maxRetries; lia).
  fold req.
  match goal with |- context [Do_at w ?n req] =>
    replace n with (http_calls tr + 2)%nat
      by (rewrite !http_calls_app, H0; count_http; lia) end.
  assert (forall k, (1 <= k < 3)%nat -> outcome k <> None) as Hfailed.
  { intros k Hk. assert (k = 1 \/ k = 2)%nat as [-> | ->] by lia; unfold outcome; simpl.
    - rewrite Nat.add_0_r, E1. discriminate.
    - rewrite E2. discriminate. }
  destruct (attempt_error (Do_at w (http_calls tr + 2) req)) as [e3|] eqn:E3.
  2:{ exists None. eexists. exists 3%nat. unfold tr0. rewrite <- !app_assoc.
      split; [reflexivity|]. split; [lia|]. split; [reflexivity|].
      split; [exact Hfailed|]. split; [|reflexivity].
      unfold outcome. simpl. now rewrite E3. }
  change (Go.incr 3) with 4.
  rewrite send_loop_exit by (unfold Retry.maxRetries; lia).
  exists (Some e3). eexists. exists 3%nat. unfold tr0. rewrite <- !app_assoc.
  split; [reflexivity|]. split; [lia|]. split; [reflexivity|].
  split; [exact Hfailed|]. split; [|lia].
  unfold outcome. simpl. now rewrite E3.
Qed.

Lemma filter_http_of_http_or_sleep (evs : list Event) :
  List.filter is_http (List.filter is_http_or_sleep evs) = List.filter is_http evs.
Proof.
  induction evs as [|e evs IH]; [reflexivity|].
  destruct e; simpl; rewrite ?IH; reflexivity.
Qed.

Lemma http_calls_attempts (delay timeout : Z) (req : Request) (l : list nat) :
  http_calls (concat (map (attempt_events delay timeout req) l)) = length l.
Proof.
  induction l as [|k l IH]; [reflexivity|].
  cbn [map concat]. rewrite http_calls_app, IH. unfold attempt_events.
  destruct (1 <? k)%nat; reflexivity.
Qed.

Lemma http_calls_of_schedule (evs : list Event) (delay timeout : Z) (req : Request)
    (n : nat) :
  List.filter is_http_or_sleep evs = schedule delay timeout req n -> http_calls evs = n.
Proof.
  intros H. unfold http_calls. rewrite <- filter_http_of_http_or_sleep, H.
  unfold schedule. fold (http_calls (concat (map (attempt_events delay timeout req) (seq 1 n)))).
  now rewrite http_calls_attempts, length_seq.
Qed.

Lemma send_loop_bad_url (w : World) (client : Client) (endpoint jsonData : string)
    (e : error) (fuel : nat) (attempt : Z) (lastErr : option error) (tr : list Event) :
  url_Parse_error w endpoint = Some e ->
  attempt <= Retry.maxRetries ->
  Retry.send_loop (S fuel) client endpoint jsonData attempt lastErr w tr =
  Returned (Some (Wrapf "failed to create request" e)) (tr ++ backoff_events attempt).
Proof.
  intros Hu Hle. cbn [Retry.send_loop].
  destruct (attempt <=? Retry.maxRetries) eqn:E; [|apply Z.leb_gt in E; lia].
  run_unfold. rewrite Hu. unfold backoff_events.
  destruct (attempt >? 1); [|now rewrite app_nil_r].
  now rewrite <- app_assoc.
Qed.

(** Whatever happens, [src/unnamed/part_001] returns from the delivery
    after at most [maxRetries] requests. *)
Lemma Retry_send_returns (data : TelemetryData) (endpoint : string) (w : World)
    (tr : list Event) :
  exists res evs,
    Retry.sendTelemetryData data endpoint w tr = Returned res (tr ++ evs) /\
    (http_calls evs <= Z.to_nat Retry.maxRetries)%nat.
Proof.
  destruct (Marshal_result w data) as [jsonData|e] eqn:Hm.
  - destruct (url_Parse_error w endpoint) as [e|] eqn:Hu.
    + eexists _, [EvLog "Sending telemetry data to %s" [AStr endpoint]].
      unfold Retry.sendTelemetryData. run_unfold. rewrite Hm.
      change (Z.to_nat Retry.maxRetries) with 3%nat.
      rewrite (send_loop_bad_url w _ endpoint jsonData e)
        by (assumption || (unfold Retry.maxRetries; lia)).
      change (backoff_events 1) with (@nil Event). rewrite app_nil_r.
      split; [reflexivity | cbn; lia].
    + destruct (Retry_send_bounded_retry data endpoint w tr jsonData Hm Hu)
        as [res [evs [n [Hrun [Hn [Hsched _]]]]]].
      exists res, evs. split; [exact Hrun|].
      apply http_calls_of_schedule in Hsched. lia.
  - eexists _, []. unfold Retry.sendTelemetryData. run_unfold. rewrite Hm.
    rewrite app_nil_r. split; [reflexivity | cbn; lia].
Qed.


(** C5, at the failing input.  Against the endpoint that answers 503 to
    every request, [src/main.go] sends one request and gives up, where
    [src/unnamed/part_001] sends [maxRetries] = 3; both report the
    failure. *)
Theorem MainGo_send_single_attempt :
  let data := collected {| GitVersion := "v1.28.3+rke2r1" |}
                {| NamespaceMeta := Sample.meta "kube-system" [] |}
                census_init "canal" "none" in
  let requests_of (run : Run (option error)) :=
    match run with
    | Returned res tr => Some (res, http_calls tr)
    | _ => None
    end in
  (forall n req, attempt_error (Do_at Sample.always_503 n req) = Some (UnexpectedStatus 503)) /\
  requests_of (MainGo.sendTelemetryData data defaultTelemetryEndpoint Sample.always_503 [])
    = Some (Some (UnexpectedStatus 503), 1%nat) /\
  requests_of (Retry.sendTelemetryData data defaultTelemetryEndpoint Sample.always_503 [])
    = Some (Some (UnexpectedStatus 503), 3%nat) /\
  Retry.maxRetries = 3.
Proof. cbn zeta. repeat split; vm_compute; reflexivity. Qed.

(** ** The runs of [main] *)

Section MainFacts.

Variable getSELinuxStatus : Node -> string.
Variable detectCNIPlugin : Clientset -> M (result string).
Variable detectIngressController : Clientset -> M (result string).
Variable sendTelemetryData : TelemetryData -> string -> M (option error).

Let collect := Shared.collectTelemetryData getSELinuxStatus detectCNIPlugin
                 detectIngressController.
Let main := Shared.main getSELinuxStatus detectCNIPlugin detectIngressController
              sendTelemetryData.

Hypothesis collect_returns' : forall cs w tr,
  exists r evs, collect cs w tr = Returned r (tr ++ EvApi CallServerVersion :: evs).

Hypothesis send_returns : forall data endpoint w tr,
  exists res evs, sendTelemetryData data endpoint w tr = Returned res (tr ++ evs).

(** Every run of [main] returns an exit status, in one of six ways. *)
Lemma main_cases (w : World) :
  exists code tr, main w [] = Returned code tr /\ main_case collect sendTelemetryData w code tr.
Proof.
  unfold main, Shared.main. run_unfold. cbn [app].
  fold (disable_telemetry w).
  destruct (String.eqb (disable_telemetry w) "true") eqn:Ed.
  - apply String.eqb_eq in Ed. eexists _, _. split; [reflexivity|]. now constructor.
  - apply String.eqb_neq in Ed.
    destruct (InClusterConfig_result w) as [c|e] eqn:Hc.
    2:{ eexists _, _. split; [reflexivity|]. now constructor. }
    destruct (NewForConfig_error w c) as [e|] eqn:Hn.
    { eexists _, _. split; [reflexivity|]. now apply (ClientFailed _ _ _ c e). }
    simpl app.
    change [EvLog "RKE2 Security Responder starting..." []; EvInClusterConfig;
            EvNewForConfig c] with (startup_events c).
    fold collect.
    destruct (collect_returns' {| restConfig := c |} w (startup_events c))
      as [r [evs Hcol]].
    rewrite Hcol. destruct r as [data|e].
    + fold (endpoint_of w).
      destruct (send_returns data (endpoint_of w) w
                  (startup_events c ++ EvApi CallServerVersion :: evs)%list)
        as [res [evs' Hsend]].
      rewrite Hsend. destruct res as [err|].
      * eexists _, _. split; [reflexivity|].
        rewrite <- (app_assoc _ [_] [_]), <- (app_assoc _ evs' _).
        now apply (SendReturned _ _ _ c data evs (Some err) evs').
      * eexists _, _. split; [reflexivity|].
        rewrite <- (app_assoc _ evs' _).
        now apply (SendReturned _ _ _ c data evs None evs').
    + eexists _, _. split; [reflexivity|].
      rewrite <- app_assoc. now apply (CollectFailed _ _ _ c e evs).
Qed.

End MainFacts.

Lemma MainGo_send_returns (data : TelemetryData) (endpoint : string) (w : World)
    (tr : list Event) :
  exists res evs,
    MainGo.sendTelemetryData data endpoint w tr = Returned res (tr ++ evs) /\
    (http_calls evs <= 1)%nat /\
    (is_ok (Marshal_result w data) = true -> url_Parse_error w endpoint = None ->
     http_calls evs = 1%nat).
Proof.
  unfold MainGo.sendTelemetryData. run_unfold.
  destruct (Marshal_result w data) as [jsonData|e].
  - destruct (url_Parse_error w endpoint) as [e|].
    + eexists _, _. rewrite <- !app_assoc. split; [reflexivity|].
      split; [cbn; lia | discriminate].
    + destruct (Do_at w _ _) as [resp|e].
      * destruct ((StatusCode resp <? 200) || (StatusCode resp >=? 300));
          eexists _, _; rewrite <- !app_assoc; (split; [reflexivity|]);
          split; cbn; (lia || reflexivity).
      * eexists _, _. rewrite <- !app_assoc. split; [reflexivity|].
        split; cbn; (lia || reflexivity).
  - eexists _, []. rewrite app_nil_r. split; [reflexivity|].
    split; [cbn; lia | discriminate].
Qed.

(** In both revisions the delivery returns; it sends at least one request
    when the record serialises and the endpoint parses, and never more
    than three. *)
Lemma send_of_returns (rev : Revision) (data : TelemetryData) (endpoint : string)
    (w : World) (tr : list Event) :
  exists res evs,
    send_of rev data endpoint w tr = Returned res (tr ++ evs) /\
    (http_calls evs <= 3)%nat /\
    (is_ok (Marshal_result w data) = true -> url_Parse_error w endpoint = None ->
     (1 <= http_calls evs)%nat).
Proof.
  destruct rev; cbn [send_of].
  - destruct (MainGo_send_returns data endpoint w tr) as [res [evs [H [Hle Hone]]]].
    exists res, evs. split; [exact H|]. split; [lia|].
    intros Hm Hu. rewrite Hone by assumption. lia.
  - destruct (Marshal_result w data) as [jsonData|e] eqn:Hm.
    + destruct (url_Parse_error w endpoint) as [e|] eqn:Hu.
      * destruct (Retry_send_returns data endpoint w tr) as [res [evs [H Hle]]].
        exists res, evs. split; [exact H|].
        split; [exact Hle | discriminate].
      * destruct (Retry_send_bounded_retry data endpoint w tr jsonData Hm Hu)
          as [res [evs [n [Hrun [Hn [Hsched _]]]]]].
        apply http_calls_of_schedule in Hsched.
        change (Z.to_nat Retry.maxRetries) with 3%nat in Hn.
        exists res, evs. split; [exact Hrun|]. split; lia.
    + destruct (Retry_send_returns data endpoint w tr) as [res [evs [H Hle]]].
      exists res, evs. split; [exact H|].
      split; [exact Hle | discriminate].
Qed.

Lemma collect_of_returns (rev : Revision) (cs : Clientset) (w : World) (tr : list Event) :
  exists r evs, collect_of rev cs w tr = Returned r (tr ++ EvApi CallServerVersion :: evs).
Proof.
  destruct rev.
  - exact (collect_returns MainGo.getSELinuxStatus _ _ _ _ MainGo_detectCNIPlugin_run
             MainGo_detectIngressController_run cs w tr).
  - exact (collect_returns Retry.getSELinuxStatus _ _ _ _ Retry_detectCNIPlugin_run
             Retry_detectIngressController_run cs w tr).
Qed.

Lemma collect_of_fails_iff (rev : Revision) (cs : Clientset) (w : World) (tr : list Event) :
  (exists e tr', collect_of rev cs w tr = Returned (Err e) tr') <->
  (is_ok (ServerVersion_at w (api_calls tr)) &&
   is_ok (GetNamespace_at w (api_calls tr + 1) "kube-system") &&
   is_ok (ListNodes_at w (api_calls tr + 2)) = false).
Proof.
  destruct rev.
  - exact (collect_fails_iff MainGo.getSELinuxStatus _ _ _ _ MainGo_detectCNIPlugin_run
             MainGo_detectIngressController_run cs w tr).
  - exact (collect_fails_iff Retry.getSELinuxStatus _ _ _ _ Retry_detectCNIPlugin_run
             Retry_detectIngressController_run cs w tr).
Qed.

Lemma main_of_cases (rev : Revision) (w : World) :
  exists code tr,
    main_of rev w [] = Returned code tr /\
    main_case (collect_of rev) (send_of rev) w code tr.
Proof.
  destruct rev.
  - apply (main_cases MainGo.getSELinuxStatus MainGo.detectCNIPlugin
             MainGo.detectIngressController MainGo.sendTelemetryData).
    + exact (collect_of_returns MainGoRevision).
    + intros data endpoint w' tr.
      destruct (send_of_returns MainGoRevision data endpoint w' tr) as [res [evs [H _]]].
      eauto.
  - apply (main_cases Retry.getSELinuxStatus Retry.detectCNIPlugin
             Retry.detectIngressController Retry.sendTelemetryData).
    + exact (collect_of_returns RetryRevision).
    + intros data endpoint w' tr.
      destruct (send_of_returns RetryRevision data endpoint w' tr) as [res [evs [H _]]].
      eauto.
Qed.

Lemma fatal_query_fails_iff (rev : Revision) (c : Config) (w : World) :
  fatal_query_fails w <->
  exists e tr', collect_of rev {| restConfig := c |} w (startup_events c) = Returned (Err e) tr'.
Proof. now rewrite collect_of_fails_iff. Qed.

(** The record of either revision, when the three fatal queries are
    answered. *)
Lemma collect_of_total (rev : Revision) (cs : Clientset) (w : World) (tr : list Event)
    (v : VersionInfo) (ns : Namespace) (nodes : NodeList) :
  ServerVersion_at w (api_calls tr) = Ok v ->
  GetNamespace_at w (api_calls tr + 1) "kube-system" = Ok ns ->
  ListNodes_at w (api_calls tr + 2) = Ok nodes ->
  exists evs,
    collect_of rev cs w tr =
    Returned
      (Ok (collected v ns (Shared.census (getSELinuxStatus_of rev) (Items nodes))
             (or_unknown
                (cni_answer (cni_scan_of rev)
                   (ListDaemonSets_at w (api_calls tr + 3) "kube-system")))
             (or_unknown
                (ingress_answer (ingress_scan_of rev)
                   (ListDeployments_at w (api_calls tr + 4) "kube-system")
                   (ListDaemonSets_at w (api_calls tr + 5) "kube-system")))))
      (tr ++ EvApi CallServerVersion :: evs).
Proof.
  intros Hv Hns Hn. destruct rev.
  - exact (collect_total MainGo.getSELinuxStatus _ _ _ _ MainGo_detectCNIPlugin_run
             MainGo_detectIngressController_run cs w tr v ns nodes Hv Hns Hn).
  - destruct (collect_total Retry.getSELinuxStatus _ _ _ _ Retry_detectCNIPlugin_run
                Retry_detectIngressController_run cs w tr v ns nodes Hv Hns Hn)
      as [evs H].
    exists evs.
    change (collect_of RetryRevision cs w tr)
      with (Shared.collectTelemetryData Retry.getSELinuxStatus Retry.detectCNIPlugin
              Retry.detectIngressController cs w tr).
    rewrite H. cbn [cni_scan_of ingress_scan_of getSELinuxStatus_of].
    unfold cni_answer, ingress_answer.
    do 2 f_equal. f_equal.
    + destruct (ListDaemonSets_at w (api_calls tr + 3) "kube-system"); [|reflexivity].
      now rewrite Retry_cni_range_scan.
    + destruct (ListDeployments_at w (api_calls tr + 4) "kube-system"); [|reflexivity].
      rewrite !Retry_ingress_range_scan.
      destruct (table_scan lowered_test ingress_table _); [reflexivity|].
      destruct (ListDaemonSets_at w (api_calls tr + 5) "kube-system"); [|reflexivity].
      now rewrite Retry_ingress_range_scan.
Qed.

(** ** Sampling the first node *)

(** What holds of the sampling in both revisions: the [selinux] field is
    the status of the first node; the [os] field is the OS image of the
    first node when that image is not empty, and then no later node has a
    say in either field. *)
Lemma first_node_sampled (getSELinuxStatus : Node -> string) (n : Node)
    (rest rest' : list Node) :
  (forall node, getSELinuxStatus node <> "") ->
  let c := Shared.census getSELinuxStatus (n :: rest) in
  let c' := Shared.census getSELinuxStatus (n :: rest') in
  selinuxInfo c = getSELinuxStatus n /\
  selinuxInfo c' = selinuxInfo c /\
  (OSImage (NodeInfo (Status n)) <> "" ->
   osInfo c = OSImage (NodeInfo (Status n)) /\ osInfo c' = osInfo c).
Proof.
  intros Hne c c'. unfold c, c'.
  rewrite !census_selinux_first by apply Hne.
  split; [reflexivity|]. split; [reflexivity|].
  intros Hos. rewrite !census_os. cbn [map first_nonempty].
  destruct (String.eqb (OSImage (NodeInfo (Status n))) "") eqn:E; [|now split].
  apply String.eqb_eq in E. contradiction.
Qed.

(** X24. When the three fatal queries are answered and the listing
    starts with [n], both revisions report the SELinux status of [n], and
    the OS image of [n] unless that image is empty. *)
Lemma first_node_reported (rev : Revision) (cs : Clientset) (w : World)
    (tr : list Event) (v : VersionInfo) (ns : Namespace) (nodes : NodeList)
    (n : Node) (rest : list Node) :
  ServerVersion_at w (api_calls tr) = Ok v ->
  GetNamespace_at w (api_calls tr + 1) "kube-system" = Ok ns ->
  ListNodes_at w (api_calls tr + 2) = Ok nodes ->
  Items nodes = n :: rest ->
  exists data tr',
    collect_of rev cs w tr = Returned (Ok data) tr' /\
    ExtraFieldInfo data !! "selinux" = Some (VString (getSELinuxStatus_of rev n)) /\
    (OSImage (NodeInfo (Status n)) <> "" ->
     ExtraFieldInfo data !! "os" = Some (VString (OSImage (NodeInfo (Status n))))).
Proof.
  intros Hv Hns Hn Hitems.
  destruct (collect_of_total rev cs w tr v ns nodes Hv Hns Hn) as [evs H].
  assert (forall node, getSELinuxStatus_of rev node <> "") as Hne.
  { destruct rev; [apply MainGo_getSELinuxStatus_nonempty
                  | apply Retry_getSELinuxStatus_nonempty]. }
  destruct (first_node_sampled (getSELinuxStatus_of rev) n rest rest Hne)
    as [Hse [_ Hos]].
  eexists _, _. split; [exact H|]. rewrite Hitems. split.
  - rewrite <- Hse. lookup_collected.
  - intros Himg. destruct (Hos Himg) as [Ho _]. rewrite <- Ho. lookup_collected.
Qed.

(** C3, at the failing input.  The first node listed has no OS image yet
    (the kubelet has not reported); both revisions then report the OS
    image of the second node, and report another one when the second node
    is exchanged. *)
Theorem os_not_from_first_node :
  let w := Sample.world [] Sample.fresh_first (Ok []) (Ok []) Sample.any_url
             (fun _ => Sample.status 200) in
  let w' := Sample.world [] Sample.fresh_first' (Ok []) (Ok []) Sample.any_url
              (fun _ => Sample.status 200) in
  let os_of (run : Run (result TelemetryData)) :=
    match run with
    | Returned (Ok data) _ => ExtraFieldInfo data !! "os"
    | _ => None
    end in
  OSImage (NodeInfo (Status Sample.fresh)) = "" /\
  os_of (MainGo.collectTelemetryData Sample.clientset w []) =
    Some (VString "Ubuntu 22.04.3 LTS") /\
  os_of (Retry.collectTelemetryData Sample.clientset w []) =
    Some (VString "Ubuntu 22.04.3 LTS") /\
  os_of (MainGo.collectTelemetryData Sample.clientset w' []) =
    Some (VString "SLE Micro 5.5") /\
  os_of (Retry.collectTelemetryData Sample.clientset w' []) =
    Some (VString "SLE Micro 5.5").
Proof. repeat split; vm_compute; reflexivity. Qed.

(** ** Degraded detection *)

(** C7, as the code has it.  In both revisions, when the three fatal
    queries are answered, collection returns a record with all six field
    keys whatever the detectors meet: [cni-plugin] is [unknown] when the
    DaemonSet listing of the CNI detector fails, [ingress-controller] is
    [unknown] when the Deployment listing of the ingress detector fails,
    and a failure of the DaemonSet listing of the ingress detector is
    ignored: the field is then decided by the Deployments alone, [none]
    when none of them matched. *)
Theorem detector_errors_degrade (rev : Revision) (cs : Clientset) (w : World)
    (tr : list Event) (v : VersionInfo) (ns : Namespace) (nodes : NodeList) :
  ServerVersion_at w (api_calls tr) = Ok v ->
  GetNamespace_at w (api_calls tr + 1) "kube-system" = Ok ns ->
  ListNodes_at w (api_calls tr + 2) = Ok nodes ->
  exists data tr',
    collect_of rev cs w tr = Returned (Ok data) tr' /\
    dom (ExtraFieldInfo data) =
      ({["serverNodeCount"; "agentNodeCount"; "os"; "selinux"; "cni-plugin";
         "ingress-controller"]} : gset string) /\
    (forall e, ListDaemonSets_at w (api_calls tr + 3) "kube-system" = Err e ->
       ExtraFieldInfo data !! "cni-plugin" = Some (VString "unknown")) /\
    (forall e, ListDeployments_at w (api_calls tr + 4) "kube-system" = Err e ->
       ExtraFieldInfo data !! "ingress-controller" = Some (VString "unknown")) /\
    (forall deps e,
       ListDeployments_at w (api_calls tr + 4) "kube-system" = Ok deps ->
       ListDaemonSets_at w (api_calls tr + 5) "kube-system" = Err e ->
       ExtraFieldInfo data !! "ingress-controller" =
         Some (VString (default "none" (ingress_scan_of rev (deploy_names deps))))).
Proof.
  intros Hv Hns Hn.
  destruct (collect_of_total rev cs w tr v ns nodes Hv Hns Hn) as [evs H].
  eexists _, _. split; [exact H|]. split; [apply collected_field_keys|].
  split; [|split].
  - intros e He. rewrite He. lookup_collected.
  - intros e He. rewrite He. lookup_collected.
  - intros deps e Hd He. rewrite Hd, He. unfold ingress_answer.
    destruct (ingress_scan_of rev (deploy_names deps)); lookup_collected.
Qed.

Lemma detector_errors_degrade_witness :
  ServerVersion_at Sample.daemonsets_down 0 = Ok {| GitVersion := "v1.28.3+rke2r1" |} /\
  ListNodes_at Sample.daemonsets_down 2 = Ok Sample.two_nodes /\
  exists data tr',
    collect_of RetryRevision Sample.clientset Sample.daemonsets_down [] =
      Returned (Ok data) tr' /\
    ExtraFieldInfo data !! "cni-plugin" = Some (VString "unknown").
Proof.
  split; [reflexivity|]. split; [reflexivity|].
  destruct (detector_errors_degrade RetryRevision Sample.clientset Sample.daemonsets_down
              [] _ _ Sample.two_nodes eq_refl eq_refl eq_refl)
    as [data [tr' [Hrun [_ [Hcni _]]]]].
  exists data, tr'. split; [exact Hrun|].
  exact (Hcni _ eq_refl).
Defined.

(** C7 as stated fails: with the DaemonSet listing down, the ingress
    detector meets an API error, and both revisions report [none], not
    the [unknown] sentinel. *)
Lemma ingress_error_reported_as_none :
  let ingress_of (run : Run (result TelemetryData)) :=
    match run with
    | Returned (Ok data) _ => ExtraFieldInfo data !! "ingress-controller"
    | _ => None
    end in
  ListDaemonSets_at Sample.daemonsets_down 5 "kube-system" =
    Err (LibError "the server is currently unable to handle the request") /\
  In (EvApi (CallListDaemonSets "kube-system"))
     (ingress_calls (ingress_scan_of RetryRevision)
        (ListDeployments_at Sample.daemonsets_down 4 "kube-system")) /\
  ingress_of (Retry.collectTelemetryData Sample.clientset Sample.daemonsets_down [])
    = Some (VString "none") /\
  ingress_of (MainGo.collectTelemetryData Sample.clientset Sample.daemonsets_down [])
    = Some (VString "none").
Proof.
  cbn zeta. split; [reflexivity|]. split; [vm_compute; tauto|].
  split; vm_compute; reflexivity.
Qed.

(** ** Exit status *)

Lemma api_calls_startup (c : Config) : api_calls (startup_events c) = 0%nat.
Proof. reflexivity. Qed.

(** C6, as the code has it.  In both revisions every run of [main]
    ends with an exit status.  It is 1 exactly when telemetry is not
    disabled and credential or client construction fails or one of the
    three fatal queries fails.  It is 0 exactly when the opt-out variable
    is ["true"], or the run reached the send: whatever the send returned,
    success or an error of any kind, [main] logs it and ends with 0. *)
Theorem exit_status (rev : Revision) (w : World) :
  exists code tr,
    main_of rev w [] = Returned code tr /\
    (code = 1 <->
     disable_telemetry w <> "true" /\ (construction_fails w \/ fatal_query_fails w)) /\
    (code = 0 <->
     disable_telemetry w = "true" \/
     exists c data tr1 res evs,
       disable_telemetry w <> "true" /\
       InClusterConfig_result w = Ok c /\
       NewForConfig_error w c = None /\
       collect_of rev {| restConfig := c |} w (startup_events c) = Returned (Ok data) tr1 /\
       send_of rev data (endpoint_of w) w tr1 = Returned res (tr1 ++ evs) /\
       tr = (tr1 ++ evs ++ send_logs res)%list).
Proof.
  destruct (main_of_cases rev w) as [code [tr [Hrun Hcase]]].
  exists code, tr. split; [exact Hrun|].
  destruct Hcase as [Hd | e Hd Hc | c e Hd Hc Hn | c e evs Hd Hc Hn Hcol
                    | c data evs res evs' Hd Hc Hn Hcol Hsend].
  - split; split; try discriminate; try tauto.
  - split; split; try discriminate; try (intros _; reflexivity).
    + intros _. split; [exact Hd|]. left. left. eauto.
    + intros [Ht|[c [data [tr1 [res [evs [_ [Hc' _]]]]]]]]; congruence.
  - split; split; try discriminate; try (intros _; reflexivity).
    + intros _. split; [exact Hd|]. left. right. eauto.
    + intros [Ht|[c' [data [tr1 [res [evs [_ [Hc' [Hn' _]]]]]]]]]; congruence.
  - split; split; try discriminate; try (intros _; reflexivity).
    + intros _. split; [exact Hd|]. right.
      apply (fatal_query_fails_iff rev c). eauto.
    + intros [Ht|[c' [data [tr1 [res [evs' [_ [Hc' [_ [Hcol' _]]]]]]]]]]; congruence.
  - split; split; try discriminate; try (intros _; reflexivity).
    + intros [_ [[[e He]|[c' [e [Hc' Hn']]]]|Hf]]; try congruence.
      apply (fatal_query_fails_iff rev c) in Hf. destruct Hf as [e [tr' Hf]]. congruence.
    + intros _. right.
      exists c, data, (startup_events c ++ EvApi CallServerVersion :: evs)%list, res, evs'.
      repeat split; assumption.
Qed.

(** C6 as stated fails: an endpoint override that [net/url] rejects makes
    the send fail before any request is sent.  The exit status is 0
    although telemetry is not disabled, the send did not succeed, and no
    delivery attempt was made, let alone [maxRetries] of them. *)
Lemma exit_zero_without_any_attempt :
  let outcome_of (run : Run Z) :=
    match run with
    | Returned code tr =>
        Some (code, http_calls tr,
              existsb (fun e => match e with
                                | EvLog "Telemetry data sent successfully" [] => true
                                | _ => false
                                end) tr)
    | _ => None
    end in
  disable_telemetry Sample.bad_endpoint <> "true" /\
  endpoint_of Sample.bad_endpoint = "10.0.0.5:8443/v1/telemetry" /\
  outcome_of (Retry.main Sample.bad_endpoint []) = Some (0, 0%nat, false) /\
  outcome_of (MainGo.main Sample.bad_endpoint []) = Some (0, 0%nat, false) /\
  Retry.sendTelemetryData
    (collected {| GitVersion := "v1.28.3+rke2r1" |}
               {| NamespaceMeta := Sample.meta "kube-system" [] |}
               census_init "canal" "none")
    "10.0.0.5:8443/v1/telemetry" Sample.bad_endpoint [] =
  Returned
    (Some (Wrapf "failed to create request"
             (LibError "first path segment in URL cannot contain colon")))
    [EvLog "Sending telemetry data to %s" [AStr "10.0.0.5:8443/v1/telemetry"]].
Proof.
  cbn zeta. split; [vm_compute; discriminate|].
  repeat split; vm_compute; reflexivity.
Qed.

(** ** The opt-out gate *)

(** C9.  In both revisions: when [DISABLE_TELEMETRY] is ["true"] the run
    ends with status 0 without discovering credentials, without a single
    API call and without a single request.  With any other value, unset
    included, the run goes on: credentials are discovered; when the client
    can be built the cluster is queried; and when the three fatal queries
    are answered the record is handed to the send, which puts at least one
    request on the wire when the record serialises and the endpoint
    parses. *)
Theorem opt_out_gate (rev : Revision) (w : World) :
  exists code tr,
    main_of rev w [] = Returned code tr /\
    (disable_telemetry w = "true" ->
     code = 0 /\ api_calls tr = 0%nat /\ http_calls tr = 0%nat /\
     ~ In EvInClusterConfig tr) /\
    (disable_telemetry w <> "true" ->
     In EvInClusterConfig tr /\
     (~ construction_fails w ->
      In (EvApi CallServerVersion) tr /\
      (~ fatal_query_fails w ->
       exists c data tr1 res evs,
         collect_of rev {| restConfig := c |} w (startup_events c) =
           Returned (Ok data) tr1 /\
         send_of rev data (endpoint_of w) w tr1 = Returned res (tr1 ++ evs) /\
         tr = (tr1 ++ evs ++ send_logs res)%list /\
         (is_ok (Marshal_result w data) = true ->
          url_Parse_error w (endpoint_of w) = None ->
          (1 <= http_calls tr)%nat)))).
Proof.
  destruct (main_of_cases rev w) as [code [tr [Hrun Hcase]]].
  exists code, tr. split; [exact Hrun|].
  destruct Hcase as [Hd | e Hd Hc | c e Hd Hc Hn | c e evs Hd Hc Hn Hcol
                    | c data evs res evs' Hd Hc Hn Hcol Hsend].
  - split; [|contradiction]. intros _. repeat split.
    intros [H|[H|[]]]; discriminate.
  - split; [contradiction|]. intros _. split; [right; now left|].
    intros Hok. exfalso. apply Hok. left. eauto.
  - split; [contradiction|]. intros _. split; [right; now left|].
    intros Hok. exfalso. apply Hok. right. eauto.
  - split; [contradiction|]. intros _. split; [right; now left|].
    intros _. split.
    + apply in_or_app. right. now left.
    + intros Hok. exfalso. apply Hok. apply (fatal_query_fails_iff rev c). eauto.
  - split; [contradiction|]. intros _. split; [right; now left|].
    intros _. split.
    + apply in_or_app. left. apply in_or_app. right. now left.
    + intros _.
      exists c, data, (startup_events c ++ EvApi CallServerVersion :: evs)%list, res, evs'.
      split; [exact Hcol|]. split; [exact Hsend|]. split; [reflexivity|].
      intros Hm Hu.
      destruct (send_of_returns rev data (endpoint_of w) w
                  (startup_events c ++ EvApi CallServerVersion :: evs)%list)
        as [res' [evs'' [Hsend' [_ Hone]]]].
      rewrite Hsend in Hsend'. injection Hsend' as _ Hevs.
      apply app_inv_head in Hevs. subst evs''.
      rewrite !http_calls_app. specialize (Hone Hm Hu). lia.
Qed.

Lemma opt_out_gate_witness :
  disable_telemetry Sample.opted_out = "true" /\
  disable_telemetry Sample.healthy <> "true" /\
  (exists tr, main_of RetryRevision Sample.opted_out [] = Returned 0 tr /\
              api_calls tr = 0%nat /\ http_calls tr = 0%nat) /\
  (exists code tr, main_of RetryRevision Sample.healthy [] = Returned code tr /\
                   In EvInClusterConfig tr).
Proof.
  split; [reflexivity|]. split; [vm_compute; discriminate|]. split.
  - destruct (opt_out_gate RetryRevision Sample.opted_out)
      as [code [tr [Hrun [Hout _]]]].
    destruct (Hout eq_refl) as [-> [Hapi [Hhttp _]]]. eauto.
  - destruct (opt_out_gate RetryRevision Sample.healthy)
      as [code [tr [Hrun [_ Hon]]]].
    assert (disable_telemetry Sample.healthy <> "true") as Hne
      by (vm_compute; discriminate).
    destruct (Hon Hne) as [Hin _]. eauto.
Defined.

(** * Beyond the claims *)

(** ** [src/main.go]: the search loop on its own *)

(** X1. The loop of [hasSubstring] alone decides containment and never
    panics on a slice expression: it does not run when [substr] is the
    longer string, and it stops at offset 0 when [substr] is empty.  The
    equality, prefix and suffix tests that [contains] makes before calling
    it therefore never change the answer. *)
Theorem hasSubstring_decides (s substr : string) :
  MainGo.hasSubstring s substr = Some (Go.Contains s substr) /\
  MainGo.contains s substr = MainGo.hasSubstring s substr /\
  ((String.length s < String.length substr)%nat ->
   MainGo.hasSubstring s substr = Some false) /\
  MainGo.hasSubstring s "" = Some true.
Proof.
  assert (forall a b, MainGo.hasSubstring a b = Some (Go.Contains a b)) as Hall.
  { intros a b. destruct (hasSubstring_spec a b) as [r [Hr Hiff]].
    rewrite Hr. f_equal. apply bool_eq_of_iff. now rewrite Hiff, Contains_occurs. }
  split; [apply Hall|]. split; [now rewrite contains_total, Hall|]. split.
  - intros Hlt. rewrite Hall. f_equal.
    destruct (Go.Contains s substr) eqn:E; [|reflexivity].
    apply Contains_occurs, occurs_length in E. lia.
  - rewrite Hall. f_equal. apply Contains_occurs. now exists "", s.
Qed.

(** ** SELinux status, both revisions *)

(** X2. Both revisions of [getSELinuxStatus] answer one of [enabled],
    [disabled], [unknown] on every node, and they answer [enabled] on the
    same nodes: those whose label
    [security.alpha.kubernetes.io/selinux] has the value [enabled]. *)
Theorem getSELinuxStatus_values (rev : Revision) (node : Node) :
  In (getSELinuxStatus_of rev node) selinux_values /\
  (getSELinuxStatus_of rev node = "enabled" <->
   Labels (NodeMeta node) !! "security.alpha.kubernetes.io/selinux" = Some "enabled").
Proof.
  destruct rev; cbn [getSELinuxStatus_of];
    unfold MainGo.getSELinuxStatus, Retry.getSELinuxStatus, selinux_values.
  - destruct (Labels (NodeMeta node) !! "security.alpha.kubernetes.io/selinux") as [v|].
    + destruct (String.eqb v "enabled") eqn:E.
      * apply String.eqb_eq in E. subst. split; [now left | tauto].
      * apply String.eqb_neq in E.
        destruct (negb _); (split; [simpl; tauto|]);
          (split; [discriminate | intros [= ->]; contradiction]).
    + destruct (negb _); (split; [simpl; tauto|]); split; discriminate.
  - destruct (Labels (NodeMeta node) !! "security.alpha.kubernetes.io/selinux") as [v|].
    + destruct (String.eqb v "enabled") eqn:E.
      * apply String.eqb_eq in E. subst. split; [now left | tauto].
      * apply String.eqb_neq in E. split; [simpl; tauto|].
        split; [discriminate | intros [= ->]; contradiction].
    + split; [simpl; tauto|]. split; discriminate.
Qed.

(** ** The detectors, both revisions *)

(** X3. In both revisions [detectCNIPlugin] makes exactly one API call,
    the listing of the DaemonSets of [kube-system], and has no other
    effect; it returns an error exactly when that listing fails, and then
    the error of the listing itself, not wrapped. *)
Theorem detectCNIPlugin_one_listing (rev : Revision) (cs : Clientset) (w : World)
    (tr : list Event) :
  exists r,
    detectCNIPlugin_of rev cs w tr =
      Returned r (tr ++ [EvApi (CallListDaemonSets "kube-system")]) /\
    forall e, r = Err e <-> ListDaemonSets_at w (api_calls tr) "kube-system" = Err e.
Proof.
  eexists. split; [apply detectCNIPlugin_of_run|].
  intros e. unfold cni_answer.
  destruct (ListDaemonSets_at w (api_calls tr) "kube-system"); split; congruence.
Qed.

(** X4. In both revisions [detectIngressController] lists the Deployments
    first.  When that listing fails it returns its error after this one
    call.  When a Deployment matches, the answer is its label and the
    DaemonSets are not listed at all.  Only when no Deployment matches are
    the DaemonSets listed, in a second call, and then the answer is the
    label of the first matching DaemonSet, or [none] when none matches or
    their listing fails: never an error. *)
Theorem detectIngressController_deployments_first (rev : Revision) (cs : Clientset)
    (w : World) (tr : list Event) :
  let deployments := ListDeployments_at w (api_calls tr) "kube-system" in
  let daemonSets := ListDaemonSets_at w (api_calls tr + 1) "kube-system" in
  exists r evs,
    detectIngressController_of rev cs w tr = Returned r (tr ++ evs) /\
    (forall e, deployments = Err e ->
       r = Err e /\ evs = [EvApi (CallListDeployments "kube-system")]) /\
    (forall deps label,
       deployments = Ok deps ->
       ingress_scan_of rev (deploy_names deps) = Some label ->
       r = Ok label /\ evs = [EvApi (CallListDeployments "kube-system")]) /\
    (forall deps,
       deployments = Ok deps ->
       ingress_scan_of rev (deploy_names deps) = None ->
       evs = [EvApi (CallListDeployments "kube-system");
              EvApi (CallListDaemonSets "kube-system")] /\
       r = Ok (match daemonSets with
               | Ok dss => default "none" (ingress_scan_of rev (ds_names dss))
               | Err _ => "none"
               end)).
Proof.
  intros deployments daemonSets. eexists _, _.
  split; [apply detectIngressController_of_run|].
  fold deployments daemonSets. unfold ingress_answer, ingress_calls.
  split; [|split].
  - intros e ->. now split.
  - intros deps label -> ->. now split.
  - intros deps -> ->. split; [reflexivity|]. now destruct daemonSets.
Qed.

(** X5. On a cluster whose DaemonSets and Deployments have names without
    upper-case letters, as Kubernetes requires of object names, the
    detectors of [src/main.go] and of [src/unnamed/part_001] return the
    same answers with the same API calls. *)
Theorem detectors_agree_on_lower_case (cs : Clientset) (w : World) (tr : list Event) :
  (forall t dss, ListDaemonSets_at w t "kube-system" = Ok dss ->
                 Forall is_lower (ds_names dss)) ->
  (forall t deps, ListDeployments_at w t "kube-system" = Ok deps ->
                  Forall is_lower (deploy_names deps)) ->
  MainGo.detectCNIPlugin cs w tr = Retry.detectCNIPlugin cs w tr /\
  MainGo.detectIngressController cs w tr = Retry.detectIngressController cs w tr.
Proof.
  intros Hds Hdep. split.
  - rewrite (detectCNIPlugin_of_run MainGoRevision), (detectCNIPlugin_of_run RetryRevision).
    cbn [cni_scan_of]. unfold cni_answer.
    destruct (ListDaemonSets_at w (api_calls tr) "kube-system") as [dss|] eqn:E;
      [|reflexivity].
    now rewrite (scans_agree_on_lower_case _ _ (Hds _ _ E)).
  - rewrite (detectIngressController_of_run MainGoRevision),
      (detectIngressController_of_run RetryRevision).
    cbn [ingress_scan_of]. unfold ingress_answer, ingress_calls.
    destruct (ListDeployments_at w (api_calls tr) "kube-system") as [deps|] eqn:E;
      [|reflexivity].
    rewrite (scans_agree_on_lower_case _ _ (Hdep _ _ E)).
    destruct (table_scan lowered_test ingress_table _); [reflexivity|].
    destruct (ListDaemonSets_at w (api_calls tr + 1) "kube-system") as [dss|] eqn:E';
      [|reflexivity].
    now rewrite (scans_agree_on_lower_case _ _ (Hds _ _ E')).
Qed.

Lemma detectors_agree_on_lower_case_witness :
  MainGo.detectCNIPlugin Sample.clientset Sample.healthy [] =
    Retry.detectCNIPlugin Sample.clientset Sample.healthy [] /\
  MainGo.detectIngressController Sample.clientset Sample.healthy [] =
    Retry.detectIngressController Sample.clientset Sample.healthy [].
Proof.
  apply (detectors_agree_on_lower_case Sample.clientset Sample.healthy []).
  - intros t dss [= <-]. repeat constructor.
  - intros t deps [= <-]. repeat constructor.
Defined.

(** ** Collection, both revisions: what it asks and what it records *)

Lemma warned_alone (format : string) (r : result string) (tr : list Event) :
  warned format r tr = (tr ++ warned format r [])%list.
Proof. destruct r; simpl; [now rewrite app_nil_r | reflexivity]. Qed.

Lemma collect_of_unfold (rev : Revision) :
  collect_of rev =
  Shared.collectTelemetryData (getSELinuxStatus_of rev) (detectCNIPlugin_of rev)
    (detectIngressController_of rev).
Proof. now destruct rev. Qed.

(** The whole run of a successful collection, written out. *)
Lemma collect_of_trace (rev : Revision) (cs : Clientset) (w : World) (tr : list Event)
    (v : VersionInfo) (ns : Namespace) (nodes : NodeList) :
  ServerVersion_at w (api_calls tr) = Ok v ->
  GetNamespace_at w (api_calls tr + 1) "kube-system" = Ok ns ->
  ListNodes_at w (api_calls tr + 2) = Ok nodes ->
  let r1 := cni_answer (cni_scan_of rev)
              (ListDaemonSets_at w (api_calls tr + 3) "kube-system") in
  let deployments := ListDeployments_at w (api_calls tr + 4) "kube-system" in
  let r2 := ingress_answer (ingress_scan_of rev) deployments
              (ListDaemonSets_at w (api_calls tr + 5) "kube-system") in
  collect_of rev cs w tr =
  Returned
    (Ok (collected v ns (Shared.census (getSELinuxStatus_of rev) (Items nodes))
           (or_unknown r1) (or_unknown r2)))
    (tr ++
     [EvApi CallServerVersion; EvApi (CallGetNamespace "kube-system");
      EvApi CallListNodes; EvApi (CallListDaemonSets "kube-system")] ++
     warned "Warning: Failed to detect CNI plugin: %v" r1 [] ++
     ingress_calls (ingress_scan_of rev) deployments ++
     warned "Warning: Failed to detect ingress controller: %v" r2 []).
Proof.
  intros Hv Hns Hn r1 deployments r2.
  set (tr3 := (tr ++ [EvApi CallServerVersion; EvApi (CallGetNamespace "kube-system");
                      EvApi CallListNodes])%list).
  assert (api_calls tr3 = (api_calls tr + 3)%nat) as H3
    by (unfold tr3; rewrite api_calls_app; reflexivity).
  pose proof (detectCNIPlugin_of_run rev cs w tr3) as H1. rewrite H3 in H1.
  fold r1 in H1.
  set (tr4 := warned "Warning: Failed to detect CNI plugin: %v" r1
                (tr3 ++ [EvApi (CallListDaemonSets "kube-system")])).
  assert (api_calls tr4 = (api_calls tr + 4)%nat) as H4.
  { unfold tr4. rewrite api_calls_warned, api_calls_snoc. lia. }
  pose proof (detectIngressController_of_run rev cs w tr4) as H2. rewrite H4 in H2.
  replace (api_calls tr + 4 + 1)%nat with (api_calls tr + 5)%nat in H2 by lia.
  fold deployments r2 in H2.
  rewrite collect_of_unfold.
  rewrite (collect_run _ _ _ cs w tr v ns nodes r1 r2 _ _ Hv Hns Hn H1 H2).
  f_equal. unfold tr4, tr3.
  rewrite (warned_alone _ r2), (warned_alone _ r1), <- !app_assoc. reflexivity.
Qed.

(** A record comes out of collection only when the three fatal queries
    were answered, and then it is this record. *)
Lemma collect_of_inv (rev : Revision) (cs : Clientset) (w : World) (tr tr' : list Event)
    (data : TelemetryData) :
  collect_of rev cs w tr = Returned (Ok data) tr' ->
  exists v ns nodes,
    ServerVersion_at w (api_calls tr) = Ok v /\
    GetNamespace_at w (api_calls tr + 1) "kube-system" = Ok ns /\
    ListNodes_at w (api_calls tr + 2) = Ok nodes /\
    data = collected v ns (Shared.census (getSELinuxStatus_of rev) (Items nodes))
             (or_unknown (cni_answer (cni_scan_of rev)
                            (ListDaemonSets_at w (api_calls tr + 3) "kube-system")))
             (or_unknown (ingress_answer (ingress_scan_of rev)
                            (ListDeployments_at w (api_calls tr + 4) "kube-system")
                            (ListDaemonSets_at w (api_calls tr + 5) "kube-system"))).
Proof.
  intros Hrun.
  destruct (ServerVersion_at w (api_calls tr)) as [v|e] eqn:Hv;
    [destruct (GetNamespace_at w (api_calls tr + 1) "kube-system") as [ns|e] eqn:Hns;
     [destruct (ListNodes_at w (api_calls tr + 2)) as [nodes|e] eqn:Hn|]|].
  - rewrite (collect_of_trace rev cs w tr v ns nodes Hv Hns Hn) in Hrun.
    injection Hrun as <- _. eauto 10.
  - assert (exists e' tr'', collect_of rev cs w tr = Returned (Err e') tr'') as [e' [tr'' Hf]]
      by (apply collect_of_fails_iff; now rewrite Hv, Hns, Hn).
    congruence.
  - assert (exists e' tr'', collect_of rev cs w tr = Returned (Err e') tr'') as [e' [tr'' Hf]]
      by (apply collect_of_fails_iff; now rewrite Hv, Hns).
    congruence.
  - assert (exists e' tr'', collect_of rev cs w tr = Returned (Err e') tr'') as [e' [tr'' Hf]]
      by (apply collect_of_fails_iff; now rewrite Hv).
    congruence.
Qed.

(** X6. Collection stops at the first fatal query that fails, in both
    revisions: it returns the error of that query wrapped in the name of
    the step, and has made no API call beyond the failing one; the
    workloads are never listed. *)
Theorem collect_fails_fast (rev : Revision) (cs : Clientset) (w : World)
    (tr : list Event) :
  (forall e,
     ServerVersion_at w (api_calls tr) = Err e ->
     collect_of rev cs w tr =
     Returned (Err (Wrapf "failed to get server version" e))
              (tr ++ [EvApi CallServerVersion])) /\
  (forall v e,
     ServerVersion_at w (api_calls tr) = Ok v ->
     GetNamespace_at w (api_calls tr + 1) "kube-system" = Err e ->
     collect_of rev cs w tr =
     Returned (Err (Wrapf "failed to get kube-system namespace" e))
              (tr ++ [EvApi CallServerVersion; EvApi (CallGetNamespace "kube-system")])) /\
  (forall v ns e,
     ServerVersion_at w (api_calls tr) = Ok v ->
     GetNamespace_at w (api_calls tr + 1) "kube-system" = Ok ns ->
     ListNodes_at w (api_calls tr + 2) = Err e ->
     collect_of rev cs w tr =
     Returned (Err (Wrapf "failed to list nodes" e))
              (tr ++ [EvApi CallServerVersion; EvApi (CallGetNamespace "kube-system");
                      EvApi CallListNodes])).
Proof.
  rewrite collect_of_unfold. unfold Shared.collectTelemetryData. run_unfold.
  split; [|split].
  - intros e Hv. now rewrite Hv.
  - intros v e Hv Hns. rewrite Hv, api_calls_snoc, Hns, <- app_assoc. reflexivity.
  - intros v ns e Hv Hns Hn. rewrite Hv, api_calls_snoc, Hns, !api_calls_snoc.
    replace (api_calls tr + 1 + 1)%nat with (api_calls tr + 2)%nat by lia.
    rewrite Hn, <- !app_assoc. reflexivity.
Qed.

Lemma ingress_scan_of_None (rev : Revision) (names : list string) :
  ingress_scan_of rev names = None <->
  Forall (no_hit (matches_of rev) ingress_table) names.
Proof.
  destruct rev; cbn [ingress_scan_of matches_of].
  - apply table_scan_None. intros name keyword label _. apply bytewise_test_spec.
  - apply table_scan_None. apply lowered_test_spec, ingress_table_lower.
Qed.

(** X7. A collection that succeeds queries the cluster in this order:
    version, namespace [kube-system], nodes, DaemonSets, Deployments.  It
    lists the DaemonSets once more, as a sixth call, when the Deployments
    were listed and no keyword of the ingress table matches the name of any
    of them; in every other case, a failed listing of the Deployments
    included, these five calls are all.  Besides the calls it only logs: it
    sends no request and never sleeps. *)
Theorem collect_queries_in_order (rev : Revision) (cs : Clientset) (w : World)
    (tr : list Event) (v : VersionInfo) (ns : Namespace) (nodes : NodeList) :
  ServerVersion_at w (api_calls tr) = Ok v ->
  GetNamespace_at w (api_calls tr + 1) "kube-system" = Ok ns ->
  ListNodes_at w (api_calls tr + 2) = Ok nodes ->
  let no_deployment_matches :=
    exists deps,
      ListDeployments_at w (api_calls tr + 4) "kube-system" = Ok deps /\
      Forall (no_hit (matches_of rev) ingress_table) (deploy_names deps) in
  exists data evs,
    collect_of rev cs w tr = Returned (Ok data) (tr ++ evs) /\
    Forall collect_event evs /\
    (no_deployment_matches ->
     List.filter is_api evs =
       [EvApi CallServerVersion; EvApi (CallGetNamespace "kube-system");
        EvApi CallListNodes; EvApi (CallListDaemonSets "kube-system");
        EvApi (CallListDeployments "kube-system");
        EvApi (CallListDaemonSets "kube-system")]) /\
    (~ no_deployment_matches ->
     List.filter is_api evs =
       [EvApi CallServerVersion; EvApi (CallGetNamespace "kube-system");
        EvApi CallListNodes; EvApi (CallListDaemonSets "kube-system");
        EvApi (CallListDeployments "kube-system")]).
Proof.
  intros Hv Hns Hn unmatched.
  eexists _, _. split; [exact (collect_of_trace rev cs w tr v ns nodes Hv Hns Hn)|].
  set (r1 := cni_answer _ _). set (r2 := ingress_answer _ _ _).
  assert (Forall collect_event (warned "Warning: Failed to detect CNI plugin: %v" r1 []))
    as Hw1 by (destruct r1; repeat constructor).
  assert (Forall collect_event
            (warned "Warning: Failed to detect ingress controller: %v" r2 []))
    as Hw2 by (destruct r2; repeat constructor).
  assert (forall format r, List.filter is_api (warned format r []) = []) as Hf
    by (intros ? []; reflexivity).
  split.
  { repeat (apply Forall_app; split); try assumption; try (repeat constructor).
    unfold ingress_calls.
    destruct (ListDeployments_at w (api_calls tr + 4) "kube-system") as [deps|e];
      [destruct (ingress_scan_of rev (deploy_names deps))|]; repeat constructor. }
  rewrite !List.filter_app, !Hf, !app_nil_r.
  unfold unmatched, ingress_calls.
  destruct (ListDeployments_at w (api_calls tr + 4) "kube-system") as [deps|e].
  - destruct (ingress_scan_of rev (deploy_names deps)) as [label|] eqn:Escan.
    + split; [|reflexivity].
      intros [deps' [[= <-] Hno]]. apply ingress_scan_of_None in Hno. congruence.
    + split; [reflexivity|].
      intros Hnot. exfalso. apply Hnot. exists deps.
      split; [reflexivity | now apply ingress_scan_of_None].
  - split; [|reflexivity]. intros [deps [[=] _]].
Qed.

Lemma collect_queries_in_order_witness :
  exists data evs,
    collect_of RetryRevision Sample.clientset Sample.always_503 [] =
      Returned (Ok data) ([] ++ evs) /\
    Forall collect_event evs /\
    List.filter is_api evs =
      [EvApi CallServerVersion; EvApi (CallGetNamespace "kube-system");
       EvApi CallListNodes; EvApi (CallListDaemonSets "kube-system");
       EvApi (CallListDeployments "kube-system");
       EvApi (CallListDaemonSets "kube-system")].
Proof.
  destruct (collect_queries_in_order RetryRevision Sample.clientset Sample.always_503 []
              _ _ Sample.two_nodes eq_refl eq_refl eq_refl)
    as [data [evs [Hrun [Hev [Hsix _]]]]].
  exists data, evs. split; [exact Hrun|]. split; [exact Hev|].
  apply Hsix. exists []. split; [reflexivity | constructor].
Defined.

(** X8. Every record that collection returns, in both revisions, carries
    the server's version string verbatim twice, as [appVersion] and as the
    tag [kubernetesVersion], and the UID of the namespace [kube-system] as
    the tag [clusteruuid]. *)
Theorem record_identity (rev : Revision) (cs : Clientset) (w : World)
    (tr tr' : list Event) (data : TelemetryData) :
  collect_of rev cs w tr = Returned (Ok data) tr' ->
  exists v ns,
    ServerVersion_at w (api_calls tr) = Ok v /\
    GetNamespace_at w (api_calls tr + 1) "kube-system" = Ok ns /\
    AppVersion data = GitVersion v /\
    ExtraTagInfo data !! "kubernetesVersion" = Some (GitVersion v) /\
    ExtraTagInfo data !! "clusteruuid" = Some (UID (NamespaceMeta ns)).
Proof.
  intros Hrun. apply collect_of_inv in Hrun.
  destruct Hrun as [v [ns [nodes [Hv [Hns [_ ->]]]]]].
  exists v, ns. split; [exact Hv|]. split; [exact Hns|].
  split; [reflexivity|]. split; lookup_collected.
Qed.

Lemma record_identity_witness :
  exists data tr',
    collect_of MainGoRevision Sample.clientset Sample.healthy [] = Returned (Ok data) tr' /\
    AppVersion data = "v1.28.3+rke2r1" /\
    ExtraTagInfo data !! "clusteruuid" = Some "uid-kube-system".
Proof.
  destruct (collect_of_returns MainGoRevision Sample.clientset Sample.healthy [])
    as [r [evs Hrun]].
  destruct r as [data|e]; [|vm_compute in Hrun; discriminate].
  destruct (record_identity MainGoRevision Sample.clientset Sample.healthy [] _ data Hrun)
    as [v [ns [Hv [Hns [Ha [_ Hu]]]]]].
  injection Hv as <-. injection Hns as <-.
  exists data. eexists. split; [exact Hrun|]. split; [exact Ha | exact Hu].
Defined.

(** X9. The [selinux] field of a record is one of [enabled], [disabled],
    [unknown] when the node listing is not empty.  When the cluster lists
    no node at all, both counts are 0 and the fields [os] and [selinux]
    are the empty string: no sentinel stands in for them. *)
Theorem record_of_node_listing (rev : Revision) (cs : Clientset) (w : World)
    (tr tr' : list Event) (data : TelemetryData) (nodes : NodeList) :
  collect_of rev cs w tr = Returned (Ok data) tr' ->
  ListNodes_at w (api_calls tr + 2) = Ok nodes ->
  (Items nodes <> [] ->
   exists status,
     ExtraFieldInfo data !! "selinux" = Some (VString status) /\
     In status selinux_values) /\
  (Items nodes = [] ->
   ExtraFieldInfo data !! "serverNodeCount" = Some (VInt 0) /\
   ExtraFieldInfo data !! "agentNodeCount" = Some (VInt 0) /\
   ExtraFieldInfo data !! "os" = Some (VString "") /\
   ExtraFieldInfo data !! "selinux" = Some (VString "")).
Proof.
  intros Hrun Hn. apply collect_of_inv in Hrun.
  destruct Hrun as [v [ns [nodes' [_ [_ [Hn' ->]]]]]].
  rewrite Hn in Hn'. injection Hn' as <-. split.
  - intros Hne. destruct (Items nodes) as [|n rest] eqn:E; [contradiction|].
    exists (getSELinuxStatus_of rev n). split.
    + rewrite <- (census_selinux_first (getSELinuxStatus_of rev) n rest).
      * lookup_collected.
      * destruct rev; [apply MainGo_getSELinuxStatus_nonempty
                      | apply Retry_getSELinuxStatus_nonempty].
    + destruct rev; cbn [getSELinuxStatus_of];
        unfold MainGo.getSELinuxStatus, Retry.getSELinuxStatus, selinux_values.
      * destruct (match _ !! _ with Some _ => _ | None => _ end); [simpl; tauto|].
        destruct (negb _); simpl; tauto.
      * destruct (_ !! _) as [l|]; [destruct (String.eqb l "enabled")|]; simpl; tauto.
  - intros ->. repeat split; lookup_collected.
Qed.

Lemma record_of_node_listing_witness :
  exists data tr',
    collect_of RetryRevision Sample.clientset Sample2.deserted [] =
      Returned (Ok data) tr' /\
    ExtraFieldInfo data !! "selinux" = Some (VString "").
Proof.
  destruct (collect_of_returns RetryRevision Sample.clientset Sample2.deserted [])
    as [r [evs Hrun]].
  destruct r as [data|e]; [|vm_compute in Hrun; discriminate].
  exists data. eexists. split; [exact Hrun|].
  exact (proj2 (proj2 (proj2 (proj2
    (record_of_node_listing RetryRevision Sample.clientset Sample2.deserted [] _ data
       Sample2.no_nodes Hrun eq_refl) eq_refl)))).
Defined.

(** X10. The [os] field of a record is the first OS image, in listing
    order, that is not the empty string, and the empty string when every
    listed node has an empty image: nodes without an image are skipped,
    and once an image is found no later node changes it. *)
Theorem record_os_first_nonempty (rev : Revision) (cs : Clientset) (w : World)
    (tr tr' : list Event) (data : TelemetryData) (nodes : NodeList) :
  collect_of rev cs w tr = Returned (Ok data) tr' ->
  ListNodes_at w (api_calls tr + 2) = Ok nodes ->
  ExtraFieldInfo data !! "os" =
    Some (VString (first_nonempty
                     (map (fun n => OSImage (NodeInfo (Status n))) (Items nodes)))).
Proof.
  intros Hrun Hn. apply collect_of_inv in Hrun.
  destruct Hrun as [v [ns [nodes' [_ [_ [Hn' ->]]]]]].
  rewrite Hn in Hn'. injection Hn' as <-.
  rewrite <- (census_os (getSELinuxStatus_of rev)). lookup_collected.
Qed.

Lemma record_os_first_nonempty_witness :
  exists data tr',
    collect_of MainGoRevision Sample.clientset Sample.healthy [] = Returned (Ok data) tr' /\
    ExtraFieldInfo data !! "os" = Some (VString "SLE Micro 5.5").
Proof.
  destruct (collect_of_returns MainGoRevision Sample.clientset Sample.healthy [])
    as [r [evs Hrun]].
  destruct r as [data|e]; [|vm_compute in Hrun; discriminate].
  exists data. eexists. split; [exact Hrun|].
  exact (record_os_first_nonempty MainGoRevision Sample.clientset Sample.healthy [] _ data
           Sample.two_nodes Hrun eq_refl).
Defined.

Lemma filter_length_Permutation (P : Node -> Prop) `{forall n, Decision (P n)}
    (l l' : list Node) :
  Permutation l l' -> length (filter P l) = length (filter P l').
Proof. intros Hp. apply Permutation_length. now rewrite Hp. Qed.

(** X11. The two node counts of a record do not depend on the order in
    which the cluster lists its nodes: two collections, of either
    revision, whose node listings are permutations of each other report
    the same [serverNodeCount] and the same [agentNodeCount]. *)
Theorem counts_ignore_listing_order (rev rev' : Revision) (cs cs' : Clientset)
    (w w' : World) (tr tr1 tr' tr1' : list Event) (data data' : TelemetryData)
    (nodes nodes' : NodeList) :
  collect_of rev cs w tr = Returned (Ok data) tr1 ->
  collect_of rev' cs' w' tr' = Returned (Ok data') tr1' ->
  ListNodes_at w (api_calls tr + 2) = Ok nodes ->
  ListNodes_at w' (api_calls tr' + 2) = Ok nodes' ->
  Permutation (Items nodes) (Items nodes') ->
  ExtraFieldInfo data !! "serverNodeCount" = ExtraFieldInfo data' !! "serverNodeCount" /\
  ExtraFieldInfo data !! "agentNodeCount" = ExtraFieldInfo data' !! "agentNodeCount".
Proof.
  intros Hrun Hrun' Hn Hn' Hperm.
  apply collect_of_inv in Hrun. destruct Hrun as [v [ns [n0 [_ [_ [Hn0 ->]]]]]].
  apply collect_of_inv in Hrun'. destruct Hrun' as [v' [ns' [n0' [_ [_ [Hn0' ->]]]]]].
  rewrite Hn in Hn0. injection Hn0 as <-. rewrite Hn' in Hn0'. injection Hn0' as <-.
  destruct (census_counts_listing (getSELinuxStatus_of rev) nodes) as [Hs Ha].
  destruct (census_counts_listing (getSELinuxStatus_of rev') nodes') as [Hs' Ha'].
  assert (forall c c0 : Census, forall a b a' b' : string,
            serverNodeCount c = serverNodeCount c0 ->
            agentNodeCount c = agentNodeCount c0 ->
            ExtraFieldInfo (collected v ns c a b) !! "serverNodeCount" =
              ExtraFieldInfo (collected v' ns' c0 a' b') !! "serverNodeCount" /\
            ExtraFieldInfo (collected v ns c a b) !! "agentNodeCount" =
              ExtraFieldInfo (collected v' ns' c0 a' b') !! "agentNodeCount") as Hfields.
  { intros c c0 a b a' b' E1 E2. unfold collected. cbn [ExtraFieldInfo].
    repeat (rewrite lookup_insert_ne by discriminate). rewrite !lookup_insert_eq.
    repeat (rewrite lookup_insert_ne by discriminate). rewrite !lookup_insert_eq.
    now rewrite E1, E2. }
  apply Hfields.
  - rewrite Hs, Hs'. f_equal. now apply filter_length_Permutation.
  - rewrite Ha, Ha'. f_equal. now apply filter_length_Permutation.
Qed.

Lemma counts_ignore_listing_order_witness :
  exists data data' tr1 tr1',
    collect_of RetryRevision Sample.clientset Sample.healthy [] = Returned (Ok data) tr1 /\
    collect_of MainGoRevision Sample.clientset Sample2.reversed [] =
      Returned (Ok data') tr1' /\
    ExtraFieldInfo data !! "serverNodeCount" = ExtraFieldInfo data' !! "serverNodeCount".
Proof.
  destruct (collect_of_returns RetryRevision Sample.clientset Sample.healthy [])
    as [r [evs Hrun]].
  destruct r as [data|e]; [|vm_compute in Hrun; discriminate].
  destruct (collect_of_returns MainGoRevision Sample.clientset Sample2.reversed [])
    as [r' [evs' Hrun']].
  destruct r' as [data'|e]; [|vm_compute in Hrun'; discriminate].
  exists data, data'. eexists _, _. split; [exact Hrun|]. split; [exact Hrun'|].
  refine (proj1 (counts_ignore_listing_order RetryRevision MainGoRevision _ _ _ _ [] _ [] _
                   data data' Sample.two_nodes Sample2.two_nodes_reversed Hrun Hrun'
                   eq_refl eq_refl _)).
  apply perm_swap.
Defined.

Lemma table_hit_label (test : string -> bool) (table : list (string * string))
    (label : string) :
  table_hit test table = Some label -> In label (map snd table).
Proof.
  induction table as [|[k l] table IH]; [discriminate|]. simpl.
  destruct (test k); [intros [= ->]; now left | intros H; right; now apply IH].
Qed.

Lemma table_scan_label (test : string -> string -> bool) (table : list (string * string))
    (names : list string) (label : string) :
  table_scan test table names = Some label -> In label (map snd table).
Proof.
  induction names as [|name names IH]; [discriminate|]. simpl.
  destruct (table_hit (test name) table) eqn:E; [|exact IH].
  intros [= ->]. eapply table_hit_label; eassumption.
Qed.

(** X12. The two detected fields of a record take few values, in both
    revisions: [cni-plugin] is one of [canal], [flannel], [calico],
    [cilium], [weave], [unknown], and [ingress-controller] is one of
    [rke2-ingress-nginx], [traefik], [none], [unknown]; no name of a
    workload ever reaches the record. *)
Theorem detected_fields_enumerated (rev : Revision) (cs : Clientset) (w : World)
    (tr tr' : list Event) (data : TelemetryData) :
  collect_of rev cs w tr = Returned (Ok data) tr' ->
  exists cni ingress,
    ExtraFieldInfo data !! "cni-plugin" = Some (VString cni) /\
    ExtraFieldInfo data !! "ingress-controller" = Some (VString ingress) /\
    In cni cni_labels /\ In ingress ingress_labels.
Proof.
  intros Hrun. apply collect_of_inv in Hrun.
  destruct Hrun as [v [ns [nodes [_ [_ [_ ->]]]]]].
  eexists _, _. split; [lookup_collected|]. split; [lookup_collected|].
  assert (forall names label, cni_scan_of rev names = Some label -> In label cni_labels)
    as Hcni.
  { intros names label H. destruct rev; apply table_scan_label in H;
      simpl in H; unfold cni_labels; simpl; tauto. }
  assert (forall names label,
            ingress_scan_of rev names = Some label -> In label ingress_labels) as Hing.
  { intros names label H. destruct rev; apply table_scan_label in H;
      simpl in H; unfold ingress_labels; simpl; tauto. }
  split.
  - unfold cni_answer.
    destruct (ListDaemonSets_at w (api_calls tr + 3) "kube-system") as [dss|e];
      [|simpl; tauto].
    simpl. destruct (cni_scan_of rev (ds_names dss)) eqn:E; [eapply Hcni; eassumption|].
    simpl. tauto.
  - unfold ingress_answer.
    destruct (ListDeployments_at w (api_calls tr + 4) "kube-system") as [deps|e];
      [|simpl; tauto].
    destruct (ingress_scan_of rev (deploy_names deps)) eqn:E;
      [simpl; eapply Hing; eassumption|].
    destruct (ListDaemonSets_at w (api_calls tr + 5) "kube-system") as [dss|e];
      [|simpl; tauto].
    simpl. destruct (ingress_scan_of rev (ds_names dss)) eqn:E';
      [eapply Hing; eassumption|].
    simpl. tauto.
Qed.

Lemma detected_fields_enumerated_witness :
  exists data tr' cni,
    collect_of MainGoRevision Sample.clientset Sample.capitalised [] =
      Returned (Ok data) tr' /\
    ExtraFieldInfo data !! "cni-plugin" = Some (VString cni) /\
    In cni cni_labels.
Proof.
  destruct (collect_of_returns MainGoRevision Sample.clientset Sample.capitalised [])
    as [r [evs Hrun]].
  destruct r as [data|e]; [|vm_compute in Hrun; discriminate].
  destruct (detected_fields_enumerated MainGoRevision Sample.clientset Sample.capitalised
              [] _ data Hrun) as [cni [ingress [Hc [_ [Hin _]]]]].
  exists data. eexists. exists cni. split; [exact Hrun|]. split; assumption.
Defined.

(** ** Delivery, both revisions *)

Lemma attempt_error_None (r : result Response) : attempt_error r = None <-> status_ok r.
Proof.
  unfold attempt_error, status_ok. destruct r as [resp|e].
  - destruct (Z.ltb_spec (StatusCode resp) 200) as [Hlo|Hlo];
      destruct (Z.geb_spec (StatusCode resp) 300) as [Hhi|Hhi]; simpl; split.
    + discriminate.
    + intros [resp' [[= <-] Hr]]. lia.
    + discriminate.
    + intros [resp' [[= <-] Hr]]. lia.
    + discriminate.
    + intros [resp' [[= <-] Hr]]. lia.
    + intros _. exists resp. split; [reflexivity | lia].
    + reflexivity.
  - split; [discriminate | intros [resp [Hr _]]; discriminate].
Qed.

Lemma MainGo_send_run (data : TelemetryData) (endpoint jsonData : string) (w : World)
    (tr : list Event) :
  Marshal_result w data = Ok jsonData ->
  MainGo.sendTelemetryData data endpoint w tr =
  match url_Parse_error w endpoint with
  | Some e =>
      Returned (Some (Wrapf "failed to create request" e))
        (tr ++ [EvLog "Sending telemetry data to %s" [AStr endpoint];
                EvLog "Data: %s" [AStr jsonData]])
  | None =>
      Returned (attempt_error (Do_at w (http_calls tr) (post_request endpoint jsonData)))
        (tr ++ [EvLog "Sending telemetry data to %s" [AStr endpoint];
                EvLog "Data: %s" [AStr jsonData];
                EvHttpDo defaultTimeout (post_request endpoint jsonData)])
  end.
Proof.
  intros Hm. unfold MainGo.sendTelemetryData. run_unfold. rewrite Hm.
  destruct (url_Parse_error w endpoint) as [e|].
  - now rewrite <- app_assoc.
  - rewrite !http_calls_app. change (http_calls [_]) with 0%nat. rewrite !Nat.add_0_r.
    change (Header_Set _ _ _) with (post_request endpoint jsonData).
    unfold attempt_error.
    destruct (Do_at w (http_calls tr) (post_request endpoint jsonData)) as [resp|e].
    + destruct ((StatusCode resp <? 200) || (StatusCode resp >=? 300));
        now rewrite <- !app_assoc.
    + now rewrite <- !app_assoc.
Qed.

Lemma send_of_marshal_error (rev : Revision) (data : TelemetryData) (endpoint : string)
    (w : World) (tr : list Event) (e : error) :
  Marshal_result w data = Err e ->
  send_of rev data endpoint w tr =
  Returned (Some (Wrapf "failed to marshal telemetry data" e)) tr.
Proof.
  intros Hm. destruct rev; cbn [send_of];
    unfold MainGo.sendTelemetryData, Retry.sendTelemetryData; run_unfold; now rewrite Hm.
Qed.

Lemma backoff_events_ok (timeout : Z) (req : Request) (attempt : Z) :
  1 <= attempt <= Retry.maxRetries ->
  Forall (send_event timeout req) (backoff_events attempt).
Proof.
  unfold Retry.maxRetries. intros H.
  assert (attempt = 1 \/ attempt = 2 \/ attempt = 3) as [-> | [-> | ->]] by lia;
    repeat constructor.
Qed.

(** The loop of [src/unnamed/part_001] returns, and on its way it logs,
    sleeps and sends the one request, nothing else. *)
Lemma send_loop_events (w : World) (client : Client) (endpoint jsonData : string)
    (fuel : nat) :
  forall (attempt : Z) (lastErr : option error) (tr : list Event),
    1 <= attempt ->
    Retry.maxRetries < attempt + Z.of_nat fuel ->
    exists res evs,
      Retry.send_loop fuel client endpoint jsonData attempt lastErr w tr =
        Returned res (tr ++ evs) /\
      Forall (send_event (Timeout client) (post_request endpoint jsonData)) evs.
Proof.
  induction fuel as [|fuel IH]; intros attempt lastErr tr H1 Hfuel.
  - exists lastErr, []. rewrite app_nil_r.
    split; [apply send_loop_exit; lia | constructor].
  - destruct (Z_lt_le_dec Retry.maxRetries attempt) as [Hgt|Hle].
    { exists lastErr, []. rewrite app_nil_r.
      split; [now apply send_loop_exit | constructor]. }
    pose proof (backoff_events_ok (Timeout client) (post_request endpoint jsonData)
                  attempt (conj H1 Hle)) as Hback.
    destruct (url_Parse_error w endpoint) as [e|] eqn:Hu.
    + eexists _, _. split; [now apply (send_loop_bad_url w client endpoint jsonData e)|].
      exact Hback.
    + rewrite (send_loop_step w client endpoint jsonData Hu) by exact Hle.
      destruct (attempt_error _) as [err|].
      * assert (Go.incr attempt = attempt + 1) as ->
          by (apply incr_in_range; unfold Retry.maxRetries, Go.max_int in *; lia).
        edestruct (IH (attempt + 1) (Some err)) as [res [evs [Hrun Hev]]];
          [lia | lia |].
        rewrite Hrun. eexists _, _. rewrite <- !app_assoc. split; [reflexivity|].
        apply Forall_app. split; [exact Hback|].
        apply Forall_app. split; [|exact Hev]. repeat constructor.
      * eexists _, _. split; [reflexivity|].
        apply Forall_app. split; [exact Hback | repeat constructor].
Qed.

(** In both revisions a send whose record serialises returns, and on its
    way it logs, sleeps and sends the one request, nothing else. *)
Lemma send_of_events (rev : Revision) (data : TelemetryData) (endpoint jsonData : string)
    (w : World) (tr : list Event) :
  Marshal_result w data = Ok jsonData ->
  exists res evs,
    send_of rev data endpoint w tr = Returned res (tr ++ evs) /\
    Forall (send_event defaultTimeout (post_request endpoint jsonData)) evs.
Proof.
  intros Hm. destruct rev; cbn [send_of].
  - rewrite (MainGo_send_run data endpoint jsonData w tr Hm).
    destruct (url_Parse_error w endpoint); eexists _, _;
      (split; [reflexivity | repeat constructor]).
  - unfold Retry.sendTelemetryData. run_unfold. rewrite Hm.
    edestruct (send_loop_events w {| Timeout := defaultTimeout |} endpoint jsonData
                 (Z.to_nat Retry.maxRetries) 1 None) as [res [evs [Hrun Hev]]];
      [lia | vm_compute; reflexivity |].
    rewrite Hrun. eexists _, _. rewrite <- app_assoc. split; [reflexivity|].
    constructor; [exact I | exact Hev].
Qed.

Lemma send_events_no_api (timeout : Z) (req : Request) (evs : list Event) :
  Forall (send_event timeout req) evs -> api_calls evs = 0%nat.
Proof.
  induction 1 as [|e evs He _ IH]; [reflexivity|].
  destruct e; try contradiction; exact IH.
Qed.

(** X13. When the record does not serialise, or the request cannot be
    built because the endpoint does not parse, the send of either revision
    returns the wrapped error without sending anything and without
    sleeping; [src/unnamed/part_001] does not retry such a failure. *)
Theorem send_fails_before_the_wire (rev : Revision) (data : TelemetryData)
    (endpoint : string) (w : World) (tr : list Event) :
  (forall e,
     Marshal_result w data = Err e ->
     send_of rev data endpoint w tr =
     Returned (Some (Wrapf "failed to marshal telemetry data" e)) tr) /\
  (forall jsonData e,
     Marshal_result w data = Ok jsonData ->
     url_Parse_error w endpoint = Some e ->
     exists evs,
       send_of rev data endpoint w tr =
         Returned (Some (Wrapf "failed to create request" e)) (tr ++ evs) /\
       http_calls evs = 0%nat /\ sleeps_of evs = []).
Proof.
  split; [intros e; apply send_of_marshal_error|].
  intros jsonData e Hm Hu. destruct rev; cbn [send_of].
  - rewrite (MainGo_send_run data endpoint jsonData w tr Hm), Hu.
    eexists. split; [reflexivity|]. now split.
  - unfold Retry.sendTelemetryData. run_unfold. rewrite Hm.
    change (Z.to_nat Retry.maxRetries) with 3%nat.
    rewrite (send_loop_bad_url w _ endpoint jsonData e)
      by (assumption || (unfold Retry.maxRetries; lia)).
    change (backoff_events 1) with (@nil Event). rewrite app_nil_r.
    eexists. split; [reflexivity|]. now split.
Qed.

Lemma send_fails_before_the_wire_witness :
  send_of RetryRevision Sample2.sample_record "https://telemetry.example.org/v1"
    Sample2.unserialisable [] =
  Returned (Some (Wrapf "failed to marshal telemetry data"
                    (LibError "json: unsupported value"))) [].
Proof.
  exact (proj1 (send_fails_before_the_wire RetryRevision Sample2.sample_record
                  "https://telemetry.example.org/v1" Sample2.unserialisable [])
           _ eq_refl).
Defined.

(** X14. Every request a send puts on the wire, in both revisions, is a
    POST to the endpoint it was given, made with the 30 second timeout,
    whose body is the serialised record and whose only header is
    [Content-Type: application/json]. *)
Theorem send_requests_shape (rev : Revision) (data : TelemetryData) (endpoint : string)
    (w : World) (tr : list Event) :
  exists res evs,
    send_of rev data endpoint w tr = Returned res (tr ++ evs) /\
    forall timeout req,
      In (EvHttpDo timeout req) evs ->
      timeout = 30 * Second /\
      Method req = "POST" /\
      URL req = endpoint /\
      Marshal_result w data = Ok (Body req) /\
      Header req = <["Content-Type" := "application/json"]> ∅.
Proof.
  destruct (Marshal_result w data) as [jsonData|e] eqn:Hm.
  - destruct (send_of_events rev data endpoint jsonData w tr Hm) as [res [evs [Hrun Hev]]].
    exists res, evs. split; [exact Hrun|].
    intros timeout req Hin. rewrite List.Forall_forall in Hev.
    destruct (Hev _ Hin) as [-> ->]. now repeat split.
  - exists (Some (Wrapf "failed to marshal telemetry data" e)), [].
    rewrite app_nil_r. split; [now apply send_of_marshal_error | intros t r []].
Qed.

Lemma Retry_send_bad_url (data : TelemetryData) (endpoint jsonData : string) (w : World)
    (tr : list Event) (e : error) :
  Marshal_result w data = Ok jsonData ->
  url_Parse_error w endpoint = Some e ->
  Retry.sendTelemetryData data endpoint w tr =
  Returned (Some (Wrapf "failed to create request" e))
    (tr ++ [EvLog "Sending telemetry data to %s" [AStr endpoint]]).
Proof.
  intros Hm Hu. unfold Retry.sendTelemetryData. run_unfold. rewrite Hm.
  change (Z.to_nat Retry.maxRetries) with 3%nat.
  rewrite (send_loop_bad_url w _ endpoint jsonData e)
    by (assumption || (unfold Retry.maxRetries; lia)).
  change (backoff_events 1) with (@nil Event). now rewrite app_nil_r.
Qed.

(** X15. A send returns [nil] exactly when the record serialises, the
    endpoint parses, and one of the attempts the revision allows itself
    (one in [src/main.go], three in [src/unnamed/part_001]) is answered
    with a status from 200 to 299, both bounds included; a transport error
    and every other status count as failure. *)
Theorem send_succeeds_iff (rev : Revision) (data : TelemetryData) (endpoint : string)
    (w : World) (tr : list Event) :
  exists res tr',
    send_of rev data endpoint w tr = Returned res tr' /\
    (res = None <->
     exists jsonData k,
       Marshal_result w data = Ok jsonData /\
       url_Parse_error w endpoint = None /\
       (1 <= k <= max_attempts rev)%nat /\
       status_ok (Do_at w (http_calls tr + (k - 1)) (post_request endpoint jsonData))).
Proof.
  destruct (Marshal_result w data) as [jsonData|e] eqn:Hm.
  2:{ eexists _, _. split; [exact (send_of_marshal_error rev data endpoint w tr e Hm)|].
      split; [discriminate | intros [j [k [Hj _]]]; discriminate]. }
  destruct (url_Parse_error w endpoint) as [e|] eqn:Hu.
  { destruct rev; cbn [send_of].
    - rewrite (MainGo_send_run data endpoint jsonData w tr Hm), Hu.
      eexists _, _. split; [reflexivity|].
      split; [discriminate | intros [j [k [_ [Hk _]]]]; discriminate].
    - rewrite (Retry_send_bad_url data endpoint jsonData w tr e Hm Hu).
      eexists _, _. split; [reflexivity|].
      split; [discriminate | intros [j [k [_ [Hk _]]]]; discriminate]. }
  destruct rev; cbn [send_of max_attempts].
  - rewrite (MainGo_send_run data endpoint jsonData w tr Hm), Hu.
    eexists _, _. split; [reflexivity|]. rewrite attempt_error_None. split.
    + intros Hok. exists jsonData, 1%nat. rewrite Nat.add_0_r.
      repeat split; (reflexivity || lia || assumption).
    + intros [j [k [[= <-] [_ [Hk Hok]]]]].
      assert (k = 1%nat) as -> by lia. now rewrite Nat.add_0_r in Hok.
  - destruct (Retry_send_bounded_retry data endpoint w tr jsonData Hm Hu)
      as [res [evs [n [Hrun [Hn [_ [Hfailed [Hres Hearly]]]]]]]].
    change (Z.to_nat Retry.maxRetries) with 3%nat in *.
    exists res. eexists. split; [exact Hrun|]. split.
    + intros Hnone. exists jsonData, n.
      repeat split; try (reflexivity || lia).
      apply attempt_error_None. now rewrite <- Hres.
    + intros [j [k [[= <-] [_ [Hk Hok]]]]]. apply attempt_error_None in Hok.
      destruct (Nat.lt_ge_cases n 3%nat) as [Hlt|Hge]; [now apply Hearly|].
      assert (n = 3%nat) as -> by lia.
      destruct (Nat.eq_dec k 3%nat) as [->|Hne]; [now rewrite Hres|].
      exfalso. apply (Hfailed k); [lia | exact Hok].
Qed.


Lemma time_budget_filter (evs : list Event) :
  time_budget (List.filter is_http_or_sleep evs) = time_budget evs.
Proof.
  induction evs as [|e evs IH]; [reflexivity|].
  destruct e; simpl; rewrite ?IH; reflexivity.
Qed.



(** X17. A send never queries the cluster, and what it does is bounded:
    [src/main.go] makes at most one request and may take 30 seconds at
    most; [src/unnamed/part_001] makes at most three requests and may take
    96 seconds at most, three timeouts of 30 seconds and sleeps of 2 and 4
    seconds. *)
Theorem send_is_bounded (rev : Revision) (data : TelemetryData) (endpoint : string)
    (w : World) (tr : list Event) :
  exists res evs,
    send_of rev data endpoint w tr = Returned res (tr ++ evs) /\
    api_calls evs = 0%nat /\
    (http_calls evs <= max_attempts rev)%nat /\
    0 <= time_budget evs <=
      match rev with
      | MainGoRevision => 30 * Second
      | RetryRevision => 96 * Second
      end.
Proof.
  destruct (Marshal_result w data) as [jsonData|e] eqn:Hm.
  2:{ exists (Some (Wrapf "failed to marshal telemetry data" e)), [].
      rewrite app_nil_r. split; [now apply send_of_marshal_error|].
      split; [reflexivity|]. split; [cbn; lia|].
      destruct rev; vm_compute; split; discriminate. }
  destruct (send_of_events rev data endpoint jsonData w tr Hm) as [res [evs [Hrun Hev]]].
  exists res, evs. split; [exact Hrun|].
  split; [eapply send_events_no_api; exact Hev|].
  destruct rev; cbn [send_of max_attempts] in *.
  - rewrite (MainGo_send_run data endpoint jsonData w tr Hm) in Hrun.
    destruct (url_Parse_error w endpoint); injection Hrun as _ Hevs;
      apply app_inv_head in Hevs; subst evs;
      (split; [cbn; lia | vm_compute; split; discriminate]).
  - change (Z.to_nat Retry.maxRetries) with 3%nat.
    destruct (url_Parse_error w endpoint) as [e|] eqn:Hu.
    + rewrite (Retry_send_bad_url data endpoint jsonData w tr e Hm Hu) in Hrun.
      injection Hrun as _ Hevs. apply app_inv_head in Hevs. subst evs.
      split; [cbn; lia | vm_compute; split; discriminate].
    + destruct (Retry_send_bounded_retry data endpoint w tr jsonData Hm Hu)
        as [res' [evs' [n [Hrun' [Hn [Hsched _]]]]]].
      rewrite Hrun in Hrun'. injection Hrun' as _ Hevs. apply app_inv_head in Hevs.
      subst evs'. change (Z.to_nat Retry.maxRetries) with 3%nat in Hn.
      split; [apply http_calls_of_schedule in Hsched; lia|].
      rewrite <- time_budget_filter, Hsched.
      assert (n = 1 \/ n = 2 \/ n = 3)%nat as [-> | [-> | ->]] by lia;
        vm_compute; split; discriminate.
Qed.

(** ** Whole runs, both revisions *)

Lemma collect_events_no_http (evs : list Event) :
  Forall collect_event evs -> http_calls evs = 0%nat.
Proof.
  induction 1 as [|e evs He _ IH]; [reflexivity|].
  destruct e; try contradiction; exact IH.
Qed.

Lemma collect_events_not_request (evs : list Event) (timeout : Z) (req : Request) :
  Forall collect_event evs -> ~ In (EvHttpDo timeout req) evs.
Proof.
  intros H Hin. rewrite List.Forall_forall in H. exact (H _ Hin).
Qed.

(** Whatever the cluster answers, collection returns after at most six
    API calls, and besides them it only logs. *)
Lemma collect_of_events (rev : Revision) (cs : Clientset) (w : World) (tr : list Event) :
  exists r evs,
    collect_of rev cs w tr = Returned r (tr ++ evs) /\
    Forall collect_event evs /\ (api_calls evs <= 6)%nat.
Proof.
  destruct (ServerVersion_at w (api_calls tr)) as [v|e] eqn:Hv;
    [destruct (GetNamespace_at w (api_calls tr + 1) "kube-system") as [ns|e] eqn:Hns;
     [destruct (ListNodes_at w (api_calls tr + 2)) as [nodes|e] eqn:Hn|]|].
  - eexists _, _. split; [exact (collect_of_trace rev cs w tr v ns nodes Hv Hns Hn)|].
    set (r1 := cni_answer _ _). set (r2 := ingress_answer _ _ _).
    unfold ingress_calls.
    destruct (ListDeployments_at w (api_calls tr + 4) "kube-system") as [deps|e];
      [destruct (ingress_scan_of rev (deploy_names deps))|];
      destruct r1, r2; simpl; (split; [repeat constructor | cbn; lia]).
  - eexists _, _. split.
    + rewrite collect_of_unfold. unfold Shared.collectTelemetryData. run_unfold.
      rewrite Hv, api_calls_snoc, Hns, !api_calls_snoc.
      replace (api_calls tr + 1 + 1)%nat with (api_calls tr + 2)%nat by lia.
      rewrite Hn, <- !app_assoc. reflexivity.
    + split; [repeat constructor | cbn; lia].
  - eexists _, _. split.
    + rewrite collect_of_unfold. unfold Shared.collectTelemetryData. run_unfold.
      rewrite Hv, api_calls_snoc, Hns, <- !app_assoc. reflexivity.
    + split; [repeat constructor | cbn; lia].
  - eexists _, _. split.
    + rewrite collect_of_unfold. unfold Shared.collectTelemetryData. run_unfold.
      rewrite Hv. reflexivity.
    + split; [repeat constructor | cbn; lia].
Qed.

(** Whatever the network answers, a send returns without a query to the
    cluster, after no more requests than the revision allows itself, each
    of them the POST of the serialised record. *)
Lemma send_of_effects (rev : Revision) (data : TelemetryData) (endpoint : string)
    (w : World) (tr : list Event) :
  exists res evs,
    send_of rev data endpoint w tr = Returned res (tr ++ evs) /\
    api_calls evs = 0%nat /\
    (http_calls evs <= max_attempts rev)%nat /\
    forall timeout req,
      In (EvHttpDo timeout req) evs ->
      exists jsonData,
        Marshal_result w data = Ok jsonData /\ req = post_request endpoint jsonData.
Proof.
  destruct (Marshal_result w data) as [jsonData|e] eqn:Hm.
  2:{ exists (Some (Wrapf "failed to marshal telemetry data" e)), [].
      rewrite app_nil_r. split; [now apply send_of_marshal_error|].
      split; [reflexivity|]. split; [cbn; lia | intros t r []]. }
  destruct (send_of_events rev data endpoint jsonData w tr Hm) as [res [evs [Hrun Hev]]].
  exists res, evs. split; [exact Hrun|].
  split; [eapply send_events_no_api; exact Hev|]. split.
  - destruct rev; cbn [send_of max_attempts] in *.
    + destruct (MainGo_send_returns data endpoint w tr) as [res' [evs' [Hrun' [Hle _]]]].
      rewrite Hrun in Hrun'. injection Hrun' as _ Hevs. apply app_inv_head in Hevs.
      now subst evs'.
    + destruct (Retry_send_returns data endpoint w tr) as [res' [evs' [Hrun' Hle]]].
      rewrite Hrun in Hrun'. injection Hrun' as _ Hevs. apply app_inv_head in Hevs.
      now subst evs'.
  - intros timeout req Hin. rewrite List.Forall_forall in Hev.
    destruct (Hev _ Hin) as [_ ->]. now exists jsonData.
Qed.

Ltac split_case :=
  repeat split;
  try (intros; reflexivity); try (intros; cbn; lia);
  try (left; reflexivity); try (right; reflexivity);
  try (intros ? ? []).

(** The six ways of a run, with what collection and the send did written
    into the trace. *)
Lemma main_of_split (rev : Revision) (w : World) :
  exists code before after,
    main_of rev w [] = Returned code (before ++ after) /\
    http_calls before = 0%nat /\
    (api_calls before <= 6)%nat /\
    api_calls after = 0%nat /\
    (http_calls after <= max_attempts rev)%nat /\
    (code = 0 \/ code = 1) /\
    (code = 1 -> after = []) /\
    (construction_fails w -> api_calls before = 0%nat) /\
    (forall timeout req,
       In (EvHttpDo timeout req) after ->
       exists c data tr1 jsonData,
         InClusterConfig_result w = Ok c /\
         collect_of rev {| restConfig := c |} w (startup_events c) =
           Returned (Ok data) tr1 /\
         Marshal_result w data = Ok jsonData /\
         req = post_request (endpoint_of w) jsonData).
Proof.
  destruct (main_of_cases rev w) as [code [tr [Hrun Hcase]]].
  destruct Hcase as [Hd | e Hd Hc | c e Hd Hc Hn | c e evs Hd Hc Hn Hcol
                    | c data evs res evs' Hd Hc Hn Hcol Hsend].
  - eexists 0, _, []. rewrite app_nil_r. split; [exact Hrun|]. split_case.
  - eexists 1, _, []. rewrite app_nil_r. split; [exact Hrun|]. split_case.
  - eexists 1, _, []. rewrite app_nil_r. split; [exact Hrun|]. split_case.
  - destruct (collect_of_events rev {| restConfig := c |} w (startup_events c))
      as [r [cevs [Hcol' [Hev Hsix]]]].
    rewrite Hcol in Hcol'. injection Hcol' as _ Hevs.
    eexists 1, _, []. rewrite app_nil_r. split; [exact Hrun|].
    assert (http_calls (EvApi CallServerVersion :: evs) = 0%nat) as H0
      by (rewrite Hevs; now apply collect_events_no_http).
    split.
    { rewrite http_calls_app. change (http_calls (startup_events c)) with 0%nat.
      change (EvApi CallServerVersion :: evs ++ ?l)
        with ((EvApi CallServerVersion :: evs) ++ l)%list.
      rewrite http_calls_app, H0. reflexivity. }
    split.
    { rewrite api_calls_app. change (api_calls (startup_events c)) with 0%nat.
      change (EvApi CallServerVersion :: evs ++ ?l)
        with ((EvApi CallServerVersion :: evs) ++ l)%list.
      rewrite api_calls_app, Hevs. change (api_calls [EvLog _ _]) with 0%nat. lia. }
    split_case. intros [[e' He']|[c' [e' [Hc' Hn']]]]; congruence.
  - destruct (collect_of_events rev {| restConfig := c |} w (startup_events c))
      as [r [cevs [Hcol' [Hev Hsix]]]].
    rewrite Hcol in Hcol'. injection Hcol' as _ Hevs.
    destruct (send_of_effects rev data (endpoint_of w) w
                (startup_events c ++ EvApi CallServerVersion :: evs)%list)
      as [res' [sevs [Hsend' [Hapi [Hhttp Hreq]]]]].
    rewrite Hsend in Hsend'. injection Hsend' as _ Hsevs. apply app_inv_head in Hsevs.
    subst sevs.
    exists 0, (startup_events c ++ EvApi CallServerVersion :: evs)%list,
      (evs' ++ send_logs res)%list.
    split; [exact Hrun|].
    split; [rewrite http_calls_app, Hevs, (collect_events_no_http _ Hev); reflexivity|].
    split; [rewrite api_calls_app, Hevs; cbn; lia|].
    split; [rewrite api_calls_app, Hapi; now destruct res|].
    split; [rewrite http_calls_app; destruct res; cbn; lia|].
    split; [now left|]. split; [discriminate|]. split.
    + intros [[e' He']|[c' [e' [Hc' Hn']]]]; congruence.
    + intros timeout req Hin. apply in_app_or in Hin. destruct Hin as [Hin|Hin].
      * destruct (Hreq _ _ Hin) as [jsonData [Hm ->]].
        exists c, data. eexists. exists jsonData. repeat split; eassumption.
      * destruct res; simpl in Hin; intuition discriminate.
Qed.

Lemma no_http_not_request (evs : list Event) (timeout : Z) (req : Request) :
  http_calls evs = 0%nat -> ~ In (EvHttpDo timeout req) evs.
Proof.
  induction evs as [|e evs IH]; intros H0 Hin; [contradiction|].
  destruct Hin as [->|Hin]; [discriminate|].
  apply IH; [|exact Hin]. destruct e; (exact H0 || discriminate).
Qed.

(** X18. Every run of [main], in both revisions and whatever the cluster
    and the network answer, ends with exit status 0 or 1 after at most six
    API calls and at most as many requests as the revision allows itself,
    one in [src/main.go] and three in [src/unnamed/part_001]. *)
Theorem main_is_bounded (rev : Revision) (w : World) :
  exists code tr,
    main_of rev w [] = Returned code tr /\
    (code = 0 \/ code = 1) /\
    (api_calls tr <= 6)%nat /\
    (http_calls tr <= max_attempts rev)%nat.
Proof.
  destruct (main_of_split rev w)
    as [code [before [after [Hrun [Hb0 [Hb6 [Ha0 [Han [Hcode _]]]]]]]]].
  exists code, (before ++ after)%list. split; [exact Hrun|]. split; [exact Hcode|].
  rewrite api_calls_app, http_calls_app. lia.
Qed.

(** X19. [main] queries the cluster only before it sends: every run is a
    stretch without a request followed by a stretch without an API call.
    A run that ends with status 1 has sent no request at all, and a run in
    which credential discovery or client construction fails has made no
    API call either. *)
Theorem main_queries_before_sending (rev : Revision) (w : World) :
  exists code before after,
    main_of rev w [] = Returned code (before ++ after) /\
    http_calls before = 0%nat /\
    api_calls after = 0%nat /\
    (code = 1 -> http_calls (before ++ after) = 0%nat) /\
    (construction_fails w -> api_calls (before ++ after) = 0%nat).
Proof.
  destruct (main_of_split rev w)
    as [code [before [after [Hrun [Hb0 [_ [Ha0 [_ [_ [Hone [Hcons _]]]]]]]]]]].
  exists code, before, after. split; [exact Hrun|]. split; [exact Hb0|].
  split; [exact Ha0|]. split.
  - intros H1. rewrite (Hone H1), app_nil_r. exact Hb0.
  - intros Hc. rewrite api_calls_app, (Hcons Hc), Ha0. reflexivity.
Qed.

(** X20. Every request [main] sends, in both revisions, goes to the value
    of [TELEMETRY_ENDPOINT] when that variable is set and not empty, and
    to the compiled-in default endpoint when it is unset or empty; and its
    body is the serialisation of the record that this run's collection
    returned. *)
Theorem main_requests (rev : Revision) (w : World) :
  exists code tr,
    main_of rev w [] = Returned code tr /\
    forall timeout req,
      In (EvHttpDo timeout req) tr ->
      URL req =
        match environ w !! "TELEMETRY_ENDPOINT" with
        | Some url => if String.eqb url "" then defaultTelemetryEndpoint else url
        | None => defaultTelemetryEndpoint
        end /\
      exists c data tr1,
        InClusterConfig_result w = Ok c /\
        collect_of rev {| restConfig := c |} w (startup_events c) =
          Returned (Ok data) tr1 /\
        Marshal_result w data = Ok (Body req).
Proof.
  destruct (main_of_split rev w)
    as [code [before [after [Hrun [Hb0 [_ [_ [_ [_ [_ [_ Hreq]]]]]]]]]]].
  exists code, (before ++ after)%list. split; [exact Hrun|].
  intros timeout req Hin. apply in_app_or in Hin.
  destruct Hin as [Hin|Hin]; [now apply (no_http_not_request _ _ _ Hb0) in Hin|].
  destruct (Hreq _ _ Hin) as [c [data [tr1 [jsonData [Hc [Hcol [Hm ->]]]]]]].
  split.
  - cbn [URL post_request]. unfold endpoint_of.
    now destruct (environ w !! "TELEMETRY_ENDPOINT").
  - exists c, data, tr1. repeat split; assumption.
Qed.


Lemma first_node_reported_witness :
  exists data tr',
    collect_of RetryRevision Sample.clientset Sample.healthy [] = Returned (Ok data) tr' /\
    ExtraFieldInfo data !! "selinux" = Some (VString "enabled") /\
    ExtraFieldInfo data !! "os" = Some (VString "SLE Micro 5.5").
Proof.
  destruct (first_node_reported RetryRevision Sample.clientset Sample.healthy [] _ _
              Sample.two_nodes Sample.server [Sample.agent] eq_refl eq_refl eq_refl eq_refl)
    as [data [tr' [Hrun [Hse Hos]]]].
  exists data, tr'. split; [exact Hrun|]. split; [exact Hse|].
  apply Hos. discriminate.
Defined.
